(** * fmc_mcp.client: a shallow embedding of the FMC API client

    The development follows [src/fmc_mcp/client.py]: the token bucket
    [RateLimiter], and [FMCClient] with its authentication life cycle,
    request dispatch (401 and 429 retries) and pagination.

    Conventions of the embedding.
    - Python floats are idealised as exact rationals ([Q]); integers are [Z].
    - The object [self] and the outside world (the scripted server, the
      monotonic clock, the trace of observable actions) form one record
      [World] threaded through a state monad whose results are a normal
      value, a raised Python exception, or divergence.  A raised exception
      keeps the state reached so far, as in Python.
    - [while] loops take a fuel argument; running out of fuel is [Diverge].
    - What [httpx] does (header lookup, refusal of a header value that is
      not a string, [raise_for_status]) is modelled after the library's
      documented behaviour.

    The resources ([src/fmc_mcp/resources.py]), the tools
    ([src/fmc_mcp/tools.py]) and the life cycle of the server
    ([src/fmc_mcp/server.py]) follow the client, over a state that holds
    the module globals and the client objects they name. *)

From Stdlib Require Import ZArith QArith Qminmax List String Ascii Bool Lia Lqa.
From Stdlib Require Import DecimalString.
Import ListNotations.
Local Open Scope string_scope.
Local Open Scope Z_scope.

Set Implicit Arguments.

(* ------------------------------------------------------------------ *)
(** ** Strings as Python handles them *)

Module PyStr.

(** [str.lower()] on ASCII letters. *)
Definition lower_ascii (c : ascii) : ascii :=
  let n := nat_of_ascii c in
  if andb (Nat.leb 65 n) (Nat.leb n 90) then ascii_of_nat (n + 32) else c.

Fixpoint lower (s : string) : string :=
  match s with
  | EmptyString => EmptyString
  | String c r => String (lower_ascii c) (lower r)
  end.

(** The white space [int()] skips around a literal. A character is a
    code point below 256: the ASCII white space (9 to 13, and 32) and the
    two Unicode spaces of that range that [int()] reads as a blank,
    U+0085 and U+00A0. The separators 28 to 31 are not skipped. *)
Definition is_space (c : ascii) : bool :=
  let n := nat_of_ascii c in
  orb (orb (Nat.eqb n 32) (andb (Nat.leb 9 n) (Nat.leb n 13)))
      (orb (Nat.eqb n 133) (Nat.eqb n 160)).

Definition is_digit (c : ascii) : bool :=
  let n := nat_of_ascii c in andb (Nat.leb 48 n) (Nat.leb n 57).

Definition digit_val (c : ascii) : Z := Z.of_nat (nat_of_ascii c) - 48.

Fixpoint lstrip (l : list ascii) : list ascii :=
  match l with
  | c :: r => if is_space c then lstrip r else l
  | [] => []
  end.

Definition strip (l : list ascii) : list ascii :=
  rev (lstrip (rev (lstrip l))).

(** Digits of an integer literal: a digit first, then digits each
    optionally preceded by a single underscore. [acc] is the value read
    so far; [after_us] says that the previous character was [_]. *)
Fixpoint digits (l : list ascii) (acc : Z) (after_us : bool) : option Z :=
  match l with
  | [] => if after_us then None else Some acc
  | c :: r =>
      if is_digit c then digits r (10 * acc + digit_val c) false
      else if andb (Ascii.eqb c "_"%char) (negb after_us) then digits r acc true
      else None
  end.

Definition unsigned (l : list ascii) : option Z :=
  match l with
  | c :: r => if is_digit c then digits r (digit_val c) false else None
  | [] => None
  end.

(** [int(s)] for a [str] argument in base 10: [None] is [ValueError]. *)
Definition int (s : string) : option Z :=
  match strip (list_ascii_of_string s) with
  | "-"%char :: r => option_map Z.opp (unsigned r)
  | "+"%char :: r => unsigned r
  | l => unsigned l
  end.

(** [str(n)] / [f"{n}"] for an integer. *)
Definition of_Z (z : Z) : string := NilZero.string_of_int (Z.to_int z).

(** [sep.join(l)]. *)
Fixpoint join (sep : string) (l : list string) : string :=
  match l with
  | [] => ""
  | [x] => x
  | x :: r => x ++ sep ++ join sep r
  end.

(** Truthiness of an optional string: [None] and [""] are falsy. *)
Definition truthy (o : option string) : bool :=
  match o with
  | Some s => negb (String.eqb s "")
  | None => false
  end.

End PyStr.

(* ------------------------------------------------------------------ *)
(** ** [base64.b64encode] *)

Module Base64.

Definition alphabet : string :=
  "ABCDEFGHIJKLMNOPQRSTUVWXYZabcdefghijklmnopqrstuvwxyz0123456789+/".

Definition sextet (n : N) : ascii :=
  match String.get (N.to_nat (n mod 64)) alphabet with
  | Some c => c
  | None => "="%char
  end.

Fixpoint encode_bytes (l : list N) : list ascii :=
  match l with
  | a :: b :: c :: r =>
      let n := (a * 65536 + b * 256 + c)%N in
      sextet (n / 262144) :: sextet (n / 4096) :: sextet (n / 64) :: sextet n
        :: encode_bytes r
  | [a; b] =>
      let n := (a * 65536 + b * 256)%N in
      [sextet (n / 262144); sextet (n / 4096); sextet (n / 64); "="%char]
  | [a] =>
      let n := (a * 65536)%N in
      [sextet (n / 262144); sextet (n / 4096); "="%char; "="%char]
  | [] => []
  end.

(** [base64.b64encode(s.encode()).decode()]: the string is its bytes. *)
Definition b64encode (s : string) : string :=
  string_of_list_ascii (encode_bytes (map N_of_ascii (list_ascii_of_string s))).

End Base64.

(* ------------------------------------------------------------------ *)
(** ** JSON values and HTTP messages *)

#[warnings="-register-all"]
Inductive json : Type :=
| JNull
| JBool (b : bool)
| JNum (n : Z)
| JStr (s : string)
| JArr (l : list json)
| JObj (kv : list (string * json)).

Module Json.

(** [d.get(key, default)] on the items of a dict (keys are distinct). *)
Fixpoint dict_get (kv : list (string * json)) (key : string) (default : json) : json :=
  match kv with
  | [] => default
  | (k, v) :: r => if String.eqb k key then v else dict_get r key default
  end.

(** [key in d]. *)
Fixpoint has_key (kv : list (string * json)) (key : string) : bool :=
  match kv with
  | [] => false
  | (k, _) :: r => if String.eqb k key then true else has_key r key
  end.

(** Python truthiness, as used by [if not items]. *)
Definition truthy (v : json) : bool :=
  match v with
  | JNull => false
  | JBool b => b
  | JNum n => negb (n =? 0)
  | JStr s => negb (String.eqb s "")
  | JArr l => match l with [] => false | _ => true end
  | JObj kv => match kv with [] => false | _ => true end
  end.

Fixpoint chars (s : string) : list json :=
  match s with
  | EmptyString => []
  | String c r => JStr (String c EmptyString) :: chars r
  end.

(** What [list.extend(v)] appends: [None] is [TypeError] (not iterable). *)
Definition iterate (v : json) : option (list json) :=
  match v with
  | JArr l => Some l
  | JStr s => Some (chars s)
  | JObj kv => Some (map (fun p => JStr (fst p)) kv)
  | _ => None
  end.

(** The integer a value compares as in [n >= v]: [None] is [TypeError]. *)
Definition as_int (v : json) : option Z :=
  match v with
  | JNum n => Some n
  | JBool b => Some (if b then 1 else 0)
  | _ => None
  end.

End Json.

Record Response : Type := mkResponse {
  status_code : Z;
  resp_headers : list (string * string);
  text : string;
  (** what [response.json()] returns; [None] when the body is not JSON *)
  json_body : option json
}.

Module Headers.

(** [httpx.Headers.get(name, default)]: names compare case-insensitively
    and repeated headers are joined with a comma. *)
Definition values (h : list (string * string)) (name : string) : list string :=
  map snd (filter (fun p => String.eqb (PyStr.lower (fst p)) (PyStr.lower name)) h).

Definition get (h : list (string * string)) (name : string) : option string :=
  match values h name with
  | [] => None
  | l => Some (PyStr.join ", " l)
  end.

Definition get_default (h : list (string * string)) (name default : string) : string :=
  match get h name with
  | Some v => v
  | None => default
  end.

(** [d[k] = v] on the request-header dict. *)
Fixpoint set (h : list (string * option string)) (k : string) (v : option string)
  : list (string * option string) :=
  match h with
  | [] => [(k, v)]
  | (k', v') :: r => if String.eqb k' k then (k, v) :: r else (k', v') :: set r k v
  end.

(** Whether every value of a request-header dict is a string. *)
Definition sendable (h : list (string * option string)) : bool :=
  forallb (fun p => match snd p with Some _ => true | None => false end) h.

End Headers.

(** [response.is_success] and [response.raise_for_status()]. *)
Definition is_success (r : Response) : bool :=
  andb (200 <=? status_code r) (status_code r <=? 299).

(* ------------------------------------------------------------------ *)
(** ** Exceptions, results, the environment and the monad *)

Inductive Exn : Type :=
| RuntimeError (msg : string)
| HTTPStatusError (response : Response)
| ValueError
| ZeroDivisionError
| TypeError
| AttributeError
| JSONDecodeError
| TransportError.

Inductive Result (A : Type) : Type :=
| Ok (a : A)
| Raise (e : Exn)
| Diverge.
Arguments Raise {A} e.
Arguments Diverge {A}.

(** What the server does with the next request: answer, or fail at the
    transport level. *)
Inductive Reply : Type :=
| Respond (r : Response)
| Broken.

(** Observable actions of the client. *)
Inductive Event : Type :=
| Http (method path : string)
       (headers : list (string * option string))
       (params : list (string * string))
| Sleep (seconds : Q).

(** Everything outside the Python objects. *)
Record Env : Type := mkEnv {
  clock : Q;               (** the value [time.monotonic()] returns now *)
  jitter : list Q;         (** by how much successive sleeps overshoot *)
  script : list Reply;     (** the server's answers, in order *)
  trace : list Event       (** actions so far, oldest first *)
}.

Definition M (St A : Type) : Type := St -> Result A * St.

Definition ret {St A} (a : A) : M St A := fun s => (Ok a, s).

Definition bind {St A B} (m : M St A) (k : A -> M St B) : M St B :=
  fun s =>
    match m s with
    | (Ok a, s') => k a s'
    | (Raise e, s') => (Raise e, s')
    | (Diverge, s') => (Diverge, s')
    end.

Definition raise {St A} (e : Exn) : M St A := fun s => (Raise e, s).

Definition diverge {St A} : M St A := fun s => (Diverge, s).

(** [try: m except <handles> as e: h e]. *)
Definition try_except {St A} (m : M St A) (handles : Exn -> bool) (h : Exn -> M St A)
  : M St A :=
  fun s =>
    match m s with
    | (Raise e, s') => if handles e then h e s' else (Raise e, s')
    | r => r
    end.

Definition gets {St A} (f : St -> A) : M St A := fun s => (Ok (f s), s).

Definition modify {St} (f : St -> St) : M St unit := fun s => (Ok tt, f s).

(** Run a computation on a component of the state. *)
Definition zoom {S T A} (get : T -> S) (put : S -> T -> T) (m : M S A) : M T A :=
  fun t => let (r, s') := m (get t) in (r, put s' t).

Declare Scope py_scope.
Delimit Scope py_scope with py.
Notation "x <- m ;; k" := (bind m (fun x => k))
  (at level 61, m at next level, right associativity) : py_scope.
Notation "m ;; k" := (bind m (fun _ => k))
  (at level 61, right associativity) : py_scope.
Local Open Scope py_scope.

(** An object together with the environment it runs in. *)
Definition World (Obj : Type) : Type := (Obj * Env)%type.

Section EnvOps.
Context {Obj : Type}.

Definition on_env (f : Env -> Env) (w : World Obj) : World Obj := (fst w, f (snd w)).
Definition on_self (f : Obj -> Obj) (w : World Obj) : World Obj := (f (fst w), snd w).

Definition log_event (e : Event) (v : Env) : Env :=
  mkEnv (clock v) (jitter v) (script v) (trace v ++ [e])%list.

(** [time.monotonic()]. *)
Definition monotonic : M (World Obj) Q := gets (fun w => clock (snd w)).

(** [await asyncio.sleep(d)]: at least [d] seconds pass when [d] is
    positive, none are owed otherwise; the clock never goes back. *)
Definition advance (d : Q) (v : Env) : Env :=
  let over := match jitter v with j :: _ => Qmax 0 j | [] => 0%Q end in
  mkEnv (clock v + Qmax 0 d + over)%Q (tl (jitter v)) (script v)
        (trace v ++ [Sleep d])%list.

Definition sleep (d : Q) : M (World Obj) unit := modify (on_env (advance d)).

(** One HTTP exchange through the [httpx.AsyncClient]. httpx builds
    its header set before anything is sent and refuses a value that is
    neither [str] nor [bytes] with [TypeError]. *)
Definition http_call (method path : string)
           (headers : list (string * option string))
           (params : list (string * string)) : M (World Obj) Response :=
  fun w =>
    if negb (Headers.sendable headers) then (Raise TypeError, w)
    else
      let v := log_event (Http method path headers params) (snd w) in
      match script v with
      | Respond r :: rest =>
          (Ok r, (fst w, mkEnv (clock v) (jitter v) rest (trace v)))
      | Broken :: rest =>
          (Raise TransportError, (fst w, mkEnv (clock v) (jitter v) rest (trace v)))
      | [] => (Raise TransportError, (fst w, v))
      end.

End EnvOps.

(* ------------------------------------------------------------------ *)
(** ** class RateLimiter *)

Record RateLimiter : Type := mkRateLimiter {
  capacity : Z;
  refill_rate : Q;
  tokens : Q;
  last_refill : Q
}.

Module RL.

(** [RateLimiter.__init__(capacity, refill_rate)] at clock reading [now]. *)
Definition init (capacity : Z) (refill_rate : Q) (now : Q) : RateLimiter :=
  mkRateLimiter capacity refill_rate (inject_Z capacity) now.

Definition set_tokens (t : Q) (r : RateLimiter) : RateLimiter :=
  mkRateLimiter (capacity r) (refill_rate r) t (last_refill r).

(** The assignment pair of [_refill] for a clock reading [now]. *)
Definition refilled (now : Q) (r : RateLimiter) : RateLimiter :=
  let elapsed := (now - last_refill r)%Q in
  mkRateLimiter (capacity r) (refill_rate r)
    (Qmin (inject_Z (capacity r)) (tokens r + elapsed * refill_rate r))
    now.

(** [RateLimiter._refill]. *)
Definition _refill : M (World RateLimiter) unit :=
  now <- monotonic ;;
  modify (on_self (refilled now)).

(** [x < y] on floats. *)
Definition ltb (x y : Q) : bool := negb (Qle_bool y x).

(** The [while self.tokens < 1] loop of [acquire]. *)
Fixpoint wait_loop (fuel : nat) : M (World RateLimiter) unit :=
  t <- gets (fun w => tokens (fst w)) ;;
  if ltb t 1 then
    match fuel with
    | O => diverge
    | S fuel' =>
        rate <- gets (fun w => refill_rate (fst w)) ;;
        if Qeq_bool rate 0 then raise ZeroDivisionError
        else
          let wait_time := ((1 - t) / rate)%Q in
          sleep wait_time ;;
          _refill ;;
          wait_loop fuel'
    end
  else ret tt.

(** [RateLimiter.acquire]; the lock is free on entry and released on
    every exit, so it leaves no trace in a sequential run. *)
Definition acquire (fuel : nat) : M (World RateLimiter) unit :=
  _refill ;;
  wait_loop fuel ;;
  modify (on_self (fun r => set_tokens (tokens r - 1)%Q r)).

(** The bucket holds no more than its capacity. *)
Definition bounded (r : RateLimiter) : Prop :=
  (tokens r <= inject_Z (capacity r))%Q.

(** What can happen to a limiter: time passes, or one of its methods
    runs. *)
Inductive Op : Type :=
| Tick (d : Q)
| Refill
| Acquire.

Definition step (fuel : nat) (o : Op) : M (World RateLimiter) unit :=
  match o with
  | Tick d =>
      modify (on_env (fun v =>
        mkEnv (clock v + Qmax 0 d)%Q (jitter v) (script v) (trace v)))
  | Refill => _refill
  | Acquire => acquire fuel
  end.

(** The outcome and the state observed after each operation of a
    sequence; nothing follows an operation that never returns. *)
Fixpoint observe (fuel : nat) (ops : list Op) (w : World RateLimiter)
  : list (Op * Result unit * World RateLimiter) :=
  match ops with
  | [] => []
  | o :: rest =>
      let (r, w') := step fuel o w in
      (o, r, w') :: match r with
                    | Diverge => []
                    | _ => observe fuel rest w'
                    end
  end.

End RL.

(* ------------------------------------------------------------------ *)
(** ** class FMCSettings (config.py) and class FMCClient *)

Record FMCSettings : Type := mkSettings {
  fmc_host : string;
  fmc_username : string;
  fmc_password : string;
  fmc_verify_ssl : bool;
  fmc_domain_uuid : option string;
  fmc_timeout : Z;
  fmc_rate_limit : Z;
  fmc_max_connections : Z
}.

Record FMCClient : Type := mkClient {
  settings : FMCSettings;
  _client : bool;                    (** [self._client is not None] *)
  _access_token : option string;
  _refresh_token : option string;
  _domain_uuid : option string;
  _refresh_count : Z;
  _max_refreshes : Z;
  _rate_limiter : RateLimiter;
  _connection_semaphore : Z          (** free permits of the semaphore *)
}.

Module FMC.

Definition set_client (b : bool) (c : FMCClient) : FMCClient :=
  mkClient (settings c) b (_access_token c) (_refresh_token c) (_domain_uuid c)
           (_refresh_count c) (_max_refreshes c) (_rate_limiter c)
           (_connection_semaphore c).

Definition set_access_token (t : option string) (c : FMCClient) : FMCClient :=
  mkClient (settings c) (_client c) t (_refresh_token c) (_domain_uuid c)
           (_refresh_count c) (_max_refreshes c) (_rate_limiter c)
           (_connection_semaphore c).

Definition set_refresh_token (t : option string) (c : FMCClient) : FMCClient :=
  mkClient (settings c) (_client c) (_access_token c) t (_domain_uuid c)
           (_refresh_count c) (_max_refreshes c) (_rate_limiter c)
           (_connection_semaphore c).

Definition set_domain_uuid (d : option string) (c : FMCClient) : FMCClient :=
  mkClient (settings c) (_client c) (_access_token c) (_refresh_token c) d
           (_refresh_count c) (_max_refreshes c) (_rate_limiter c)
           (_connection_semaphore c).

Definition set_refresh_count (n : Z) (c : FMCClient) : FMCClient :=
  mkClient (settings c) (_client c) (_access_token c) (_refresh_token c)
           (_domain_uuid c) n (_max_refreshes c) (_rate_limiter c)
           (_connection_semaphore c).

Definition set_rate_limiter (r : RateLimiter) (c : FMCClient) : FMCClient :=
  mkClient (settings c) (_client c) (_access_token c) (_refresh_token c)
           (_domain_uuid c) (_refresh_count c) (_max_refreshes c) r
           (_connection_semaphore c).

Definition set_semaphore (n : Z) (c : FMCClient) : FMCClient :=
  mkClient (settings c) (_client c) (_access_token c) (_refresh_token c)
           (_domain_uuid c) (_refresh_count c) (_max_refreshes c)
           (_rate_limiter c) n.

Definition self {A} (f : FMCClient -> A) : M (World FMCClient) A :=
  gets (fun w => f (fst w)).

Definition assign (f : FMCClient -> FMCClient) : M (World FMCClient) unit :=
  modify (on_self f).

(** [FMCClient.__init__(settings)] at clock reading [now];
    [asyncio.Semaphore] refuses a negative initial value. *)
Definition init (s : FMCSettings) (now : Q) : Result FMCClient :=
  if fmc_max_connections s <? 0 then Raise ValueError
  else Ok (mkClient s false None None (fmc_domain_uuid s) 0 3
             (RL.init (fmc_rate_limit s) (inject_Z (fmc_rate_limit s) / 60)%Q now)
             (fmc_max_connections s)).

Definition default_domain : string := "e276abec-e0f2-11e3-8169-6d9ed49b625f".

(** property [domain_uuid]: [self._domain_uuid or "e276..."]. *)
Definition domain_uuid (c : FMCClient) : string :=
  match _domain_uuid c with
  | Some d => if String.eqb d "" then default_domain else d
  | None => default_domain
  end.

Definition not_initialized : Exn :=
  RuntimeError "Client not initialized. Call connect() first.".

(** [FMCClient._authenticate]. *)
Definition _authenticate : M (World FMCClient) unit :=
  open <- self _client ;;
  if negb open then raise not_initialized
  else
    s <- self settings ;;
    let credentials := fmc_username s ++ ":" ++ fmc_password s in
    let encoded := Base64.b64encode credentials in
    response <- http_call "POST" "/api/fmc_platform/v1/auth/generatetoken"
                  [("Authorization", Some ("Basic " ++ encoded))] [] ;;
    if negb (status_code response =? 204) then
      raise (RuntimeError ("FMC authentication failed: "
                             ++ PyStr.of_Z (status_code response)))
    else
      assign (set_access_token
                (Headers.get (resp_headers response) "X-auth-access-token")) ;;
      assign (set_refresh_token
                (Headers.get (resp_headers response) "X-auth-refresh-token")) ;;
      assign (set_refresh_count 0) ;;
      d <- self _domain_uuid ;;
      if negb (PyStr.truthy d) then
        let domain_uuid := Headers.get (resp_headers response) "DOMAIN_UUID" in
        if PyStr.truthy domain_uuid then assign (set_domain_uuid domain_uuid)
        else ret tt
      else ret tt.

(** [FMCClient.connect]. *)
Definition connect : M (World FMCClient) unit :=
  open <- self _client ;;
  if open then ret tt
  else
    assign (set_client true) ;;
    _authenticate.

(** [FMCClient.close]. *)
Definition close : M (World FMCClient) unit :=
  open <- self _client ;;
  if open then
    assign (set_client false) ;;
    assign (set_access_token None) ;;
    assign (set_refresh_token None)
  else ret tt.

(** The body of the [try] block of [_refresh_auth_token]. *)
Definition refresh_attempt : M (World FMCClient) bool :=
  access <- self _access_token ;;
  refresh <- self _refresh_token ;;
  let headers :=
    ((if PyStr.truthy access then [("X-auth-access-token", access)] else [])
       ++ (if PyStr.truthy refresh then [("X-auth-refresh-token", refresh)] else []))%list in
  response <- http_call "POST" "/api/fmc_platform/v1/auth/refreshtoken" headers [] ;;
  if status_code response =? 204 then
    assign (set_access_token
              (Headers.get (resp_headers response) "X-auth-access-token")) ;;
    assign (set_refresh_token
              (Headers.get (resp_headers response) "X-auth-refresh-token")) ;;
    n <- self _refresh_count ;;
    assign (set_refresh_count (n + 1)) ;;
    ret true
  else
    _authenticate ;;
    ret true.

(** [FMCClient._refresh_auth_token]; [except Exception] handles every
    exception of the model. *)
Definition _refresh_auth_token : M (World FMCClient) bool :=
  open <- self _client ;;
  refresh <- self _refresh_token ;;
  if orb (negb open) (negb (PyStr.truthy refresh)) then ret false
  else
    n <- self _refresh_count ;;
    mx <- self _max_refreshes ;;
    if n >=? mx then
      _authenticate ;;
      ret true
    else
      try_except refresh_attempt (fun _ => true)
        (fun _ => _authenticate ;; ret true).

(** [async with self._connection_semaphore: body]: a permit is taken
    for the body and given back on every exit; with no permit free a
    lone task waits for ever. *)
Definition with_semaphore {A} (body : M (World FMCClient) A)
  : M (World FMCClient) A :=
  fun w =>
    if _connection_semaphore (fst w) <=? 0 then (Diverge, w)
    else
      let '(r, w') :=
        body (on_self (set_semaphore (_connection_semaphore (fst w) - 1)) w) in
      (r, on_self (fun c => set_semaphore (_connection_semaphore c + 1) c) w').

Definition acquire_token (fuel : nat) : M (World FMCClient) unit :=
  zoom (fun w : World FMCClient => (_rate_limiter (fst w), snd w))
       (fun (s : World RateLimiter) (w : World FMCClient) =>
          (set_rate_limiter (fst s) (fst w), snd s))
       (RL.acquire fuel).

(** The 401 branch of [_request]: the response and the header dict
    after it. *)
Definition on_401 (method path : string)
           (headers : list (string * option string))
           (params : list (string * string)) (response : Response)
  : M (World FMCClient) (Response * list (string * option string)) :=
  if status_code response =? 401 then
    _refresh_auth_token ;;
    token <- self _access_token ;;
    let headers := Headers.set headers "X-auth-access-token" token in
    response <- http_call method path headers params ;;
    ret (response, headers)
  else ret (response, headers).

(** The 429 branch of [_request]. *)
Definition on_429 (method path : string)
           (headers : list (string * option string))
           (params : list (string * string)) (response : Response)
  : M (World FMCClient) Response :=
  if status_code response =? 429 then
    match PyStr.int (Headers.get_default (resp_headers response) "Retry-After" "60") with
    | None => raise ValueError
    | Some retry_after =>
        sleep (inject_Z retry_after) ;;
        http_call method path headers params
    end
  else ret response.

(** The block of [_request] that runs under the semaphore. *)
Definition exchange (method path : string)
           (headers : list (string * option string))
           (params : list (string * string)) : M (World FMCClient) Response :=
  token <- self _access_token ;;
  let headers := Headers.set headers "X-auth-access-token" token in
  response <- http_call method path headers params ;;
  rh <- on_401 method path headers params response ;;
  on_429 method path (snd rh) params (fst rh).

(** [FMCClient._request(method, path, headers=..., params=...)]. *)
Definition _request (fuel : nat) (method path : string)
           (headers : list (string * option string))
           (params : list (string * string)) : M (World FMCClient) Response :=
  open <- self _client ;;
  if negb open then raise not_initialized
  else
    acquire_token fuel ;;
    with_semaphore (exchange method path headers params).

(** [FMCClient.get]. *)
Definition get (fuel : nat) (path : string) (params : list (string * string))
  : M (World FMCClient) Response :=
  _request fuel "GET" path [] params.

(** [response.raise_for_status()]. *)
Definition raise_for_status {St} (r : Response) : M St unit :=
  if is_success r then ret tt else raise (HTTPStatusError r).

(** [response.json()]. *)
Definition json_of {St} (r : Response) : M St json :=
  match json_body r with
  | Some j => ret j
  | None => raise JSONDecodeError
  end.

(** [FMCClient.get_json]. *)
Definition get_json (fuel : nat) (path : string) (params : list (string * string))
  : M (World FMCClient) json :=
  response <- get fuel path params ;;
  raise_for_status response ;;
  json_of response.

Definition limit : Z := 1000.

Definition page_params (expanded : bool) (offset : Z) : list (string * string) :=
  ([("limit", PyStr.of_Z limit); ("offset", PyStr.of_Z offset)]
     ++ (if expanded then [("expanded", "true")] else []))%list.

(** What one iteration of the loop decides from the page body. *)
Inductive Step : Type :=
| Stop (all_items : list json)
| Next (all_items : list json)
| Fault (e : Exn).

Definition page_step (data : json) (offset : Z) (all_items : list json) : Step :=
  match data with
  | JObj kv =>
      let items := Json.dict_get kv "items" (JArr []) in
      if negb (Json.truthy items) then Stop all_items
      else
        match Json.iterate items with
        | None => Fault TypeError
        | Some l =>
            let all_items := (all_items ++ l)%list in
            match Json.dict_get kv "paging" (JObj []) with
            | JObj paging =>
                match Json.as_int (Json.dict_get paging "count" (JNum 0)) with
                | Some total_count =>
                    if offset + limit >=? total_count then Stop all_items
                    else Next all_items
                | None => Fault TypeError
                end
            | _ => Fault AttributeError
            end
        end
  | _ => Fault AttributeError
  end.

(** The [while True] loop of [get_all_items]; [fuel] bounds its
    iterations and [afuel] those of each token wait. *)
Fixpoint page_loop (afuel fuel : nat) (endpoint : string) (expanded : bool)
         (offset : Z) (all_items : list json) : M (World FMCClient) (list json) :=
  match fuel with
  | O => diverge
  | S fuel' =>
      response <- get afuel endpoint (page_params expanded offset) ;;
      raise_for_status response ;;
      data <- json_of response ;;
      match page_step data offset all_items with
      | Stop all_items => ret all_items
      | Next all_items =>
          page_loop afuel fuel' endpoint expanded (offset + limit) all_items
      | Fault e => raise e
      end
  end.

(** [FMCClient.get_all_items]. *)
Definition get_all_items (fuel : nat) (endpoint : string) (expanded : bool)
  : M (World FMCClient) (list json) :=
  page_loop fuel fuel endpoint expanded 0 [].

Definition get_server_version (fuel : nat) : M (World FMCClient) json :=
  get_json fuel "/api/fmc_platform/v1/info/serverversion" [].

Definition get_domain_info (fuel : nat) : M (World FMCClient) json :=
  get_json fuel "/api/fmc_platform/v1/info/domain" [].

Definition domain_endpoint (c : FMCClient) (suffix : string) : string :=
  "/api/fmc_config/v1/domain/" ++ domain_uuid c ++ suffix.

Definition get_devices (fuel : nat) : M (World FMCClient) (list json) :=
  endpoint <- self (fun c => domain_endpoint c "/devices/devicerecords") ;;
  get_all_items fuel endpoint true.

Definition get_network_objects (fuel : nat) : M (World FMCClient) (list json) :=
  endpoint <- self (fun c => domain_endpoint c "/object/networks") ;;
  get_all_items fuel endpoint true.

Definition get_host_objects (fuel : nat) : M (World FMCClient) (list json) :=
  endpoint <- self (fun c => domain_endpoint c "/object/hosts") ;;
  get_all_items fuel endpoint true.

Definition is_http_status_error (e : Exn) : bool :=
  match e with HTTPStatusError _ => true | _ => false end.

(** [FMCClient.get_deployable_devices]. *)
Definition get_deployable_devices (fuel : nat) : M (World FMCClient) (list json) :=
  endpoint <- self (fun c => domain_endpoint c "/deployment/deployabledevices") ;;
  try_except (get_all_items fuel endpoint true) is_http_status_error
    (fun e =>
       match e with
       | HTTPStatusError r => if status_code r =? 403 then ret [] else raise e
       | _ => raise e
       end).

End FMC.

(* ------------------------------------------------------------------ *)
(** ** Vocabulary of the statements *)

Module Spec.
Import FMC.

(** The environment once an exchange has been issued and the script
    moved on to [rest]. *)
Definition exchanged (e : Event) (rest : list Reply) (v : Env) : Env :=
  mkEnv (clock v) (jitter v) rest (trace v ++ [e])%list.

(** The token-generation request of [_authenticate]. *)
Definition generatetoken (s : FMCSettings) : Event :=
  Http "POST" "/api/fmc_platform/v1/auth/generatetoken"
       [("Authorization",
         Some ("Basic " ++ Base64.b64encode (fmc_username s ++ ":" ++ fmc_password s)))]
       [].

(** The refresh request of [_refresh_auth_token]. *)
Definition refreshtoken (c : FMCClient) : Event :=
  Http "POST" "/api/fmc_platform/v1/auth/refreshtoken"
       ((if PyStr.truthy (_access_token c)
         then [("X-auth-access-token", _access_token c)] else [])
          ++ (if PyStr.truthy (_refresh_token c)
              then [("X-auth-refresh-token", _refresh_token c)] else []))%list
       [].

(** The fields [_authenticate] assigns after a 204 answer [r]. *)
Definition authenticated (r : Response) (c : FMCClient) : FMCClient :=
  let c1 :=
    set_refresh_count 0
      (set_refresh_token (Headers.get (resp_headers r) "X-auth-refresh-token")
         (set_access_token (Headers.get (resp_headers r) "X-auth-access-token") c)) in
  if PyStr.truthy (_domain_uuid c) then c1
  else if PyStr.truthy (Headers.get (resp_headers r) "DOMAIN_UUID")
       then set_domain_uuid (Headers.get (resp_headers r) "DOMAIN_UUID") c1
       else c1.

(** The fields a successful refresh assigns after a 204 answer [r]. *)
Definition refreshed (r : Response) (c : FMCClient) : FMCClient :=
  set_refresh_count (_refresh_count c + 1)
    (set_refresh_token (Headers.get (resp_headers r) "X-auth-refresh-token")
       (set_access_token (Headers.get (resp_headers r) "X-auth-access-token") c)).

Definition auth_failed (r : Response) : Exn :=
  RuntimeError ("FMC authentication failed: " ++ PyStr.of_Z (status_code r)).

(** The events of a trace that are HTTP exchanges. *)
Definition is_http (e : Event) : bool :=
  match e with Http _ _ _ _ => true | Sleep _ => false end.

Definition exchanges (v : Env) : list Event := filter is_http (trace v).

(** Taking and giving back a connection permit. *)
Definition take_permit (c : FMCClient) : FMCClient :=
  set_semaphore (_connection_semaphore c - 1) c.

Definition give_permit (c : FMCClient) : FMCClient :=
  set_semaphore (_connection_semaphore c + 1) c.

(** The world in which the exchange of a request starts: a rate-limiter
    token has been taken and a connection permit is held. *)
Definition entered (fuel : nat) (w : World FMCClient) : World FMCClient :=
  on_self take_permit (snd (acquire_token fuel w)).

(** A client that can dispatch: connected, a limiter that refills and a
    free connection permit. *)
Definition ready (c : FMCClient) : Prop :=
  _client c = true
  /\ 1 <= capacity (_rate_limiter c)
  /\ (0 < refill_rate (_rate_limiter c))%Q
  /\ 1 <= _connection_semaphore c.

(** An invariant of the state that a computation keeps, however the
    computation ends. *)
Definition preserves {St A} (I : St -> Prop) (m : M St A) : Prop :=
  forall s r s', m s = (r, s') -> I s -> I s'.

(** The public operations of the client, and a session as a sequence
    of them: a caller may go on after an exception, not after a call
    that never returns. *)
Inductive Call : Type :=
| Connect
| Close
| GetJson (path : string) (params : list (string * string))
| GetAllItems (endpoint : string) (expanded : bool)
| GetServerVersion
| GetDomainInfo
| GetDevices
| GetNetworkObjects
| GetHostObjects
| GetDeployableDevices.

Definition call (fuel : nat) (c : Call) : M (World FMCClient) unit :=
  match c with
  | Connect => connect
  | Close => close
  | GetJson path params => get_json fuel path params ;; ret tt
  | GetAllItems endpoint expanded => get_all_items fuel endpoint expanded ;; ret tt
  | GetServerVersion => get_server_version fuel ;; ret tt
  | GetDomainInfo => get_domain_info fuel ;; ret tt
  | GetDevices => get_devices fuel ;; ret tt
  | GetNetworkObjects => get_network_objects fuel ;; ret tt
  | GetHostObjects => get_host_objects fuel ;; ret tt
  | GetDeployableDevices => get_deployable_devices fuel ;; ret tt
  end.

Fixpoint session (fuel : nat) (calls : list Call) (w : World FMCClient)
  : World FMCClient :=
  match calls with
  | [] => w
  | c :: rest =>
      let (r, w') := call fuel c w in
      match r with
      | Diverge => w'
      | _ => session fuel rest w'
      end
  end.

(** An answer that discloses no domain identifier. *)
Definition undisclosing (a : Reply) : Prop :=
  match a with
  | Respond r => PyStr.truthy (Headers.get (resp_headers r) "DOMAIN_UUID") = false
  | Broken => True
  end.

End Spec.

(* ------------------------------------------------------------------ *)
(** ** Scenario data, after tests/conftest.py and tests/test_client.py *)

Module Fixture.

(** The [fmc_settings] fixture. *)
Definition test_settings : FMCSettings :=
  mkSettings "fmc.test.local" "testuser" "testpass" false
             (Some "test-domain-uuid") 60 120 10.

(** The settings of [test_domain_uuid_default]: no domain configured. *)
Definition bare_settings : FMCSettings :=
  mkSettings "fmc.test.local" "test" "test" false None 60 120 10.

(** A client fresh from [FMCClient(settings)] at clock reading 0. *)
Definition fresh (s : FMCSettings) : FMCClient :=
  match FMC.init s 0 with
  | Ok c => c
  | _ => mkClient s false None None None 0 3 (RL.init 0 0 0) 0
  end.

Definition env_of (replies : list Reply) : Env := mkEnv 0 [] replies [].

Definition token_response (access refresh : string) : Response :=
  mkResponse 204
    [("X-auth-access-token", access); ("X-auth-refresh-token", refresh)] "" None.

Definition status_only (status : Z) : Response := mkResponse status [] "" None.

Definition json_ok (j : json) : Response := mkResponse 200 [] "" (Some j).

Definition serverversion : string := "/api/fmc_platform/v1/info/serverversion".

(** The [mock_devices] page: two items and a count of two. *)
Definition two_devices : json :=
  JObj [("items", JArr [JObj [("name", JStr "FTD-01")]; JObj [("name", JStr "FTD-02")]]);
        ("paging", JObj [("count", JNum 2)])].

(** A session in which every request first meets a 401: three
    refreshes are granted, the third without a new refresh token. *)
Definition three_refreshes : list Reply :=
  [Respond (token_response "A1" "R1");
   Respond (status_only 401); Respond (token_response "A2" "R2");
   Respond (json_ok (JObj []));
   Respond (status_only 401); Respond (token_response "A3" "R3");
   Respond (json_ok (JObj []));
   Respond (status_only 401);
   Respond (mkResponse 204 [("X-auth-access-token", "A4")] "" None);
   Respond (json_ok (JObj []));
   Respond (status_only 401); Respond (json_ok (JObj []))].

Definition after_three_refreshes : Result Response * World FMCClient :=
  (FMC.connect ;;
   FMC.get 1 serverversion [] ;;
   FMC.get 1 serverversion [] ;;
   FMC.get 1 serverversion [])
    (fresh test_settings, env_of three_refreshes).

(** [test_token_refresh_on_401] with a discovered domain, then
    [close]. *)
Definition refreshed_then_closed : Result unit * World FMCClient :=
  (FMC.connect ;;
   FMC.get_json 1 serverversion [] ;;
   FMC.close)
    (fresh bare_settings,
     env_of [Respond (mkResponse 204
                        [("X-auth-access-token", "old-token");
                         ("X-auth-refresh-token", "refresh-token");
                         ("DOMAIN_UUID", "dom-1")] "" None);
             Respond (status_only 401);
             Respond (token_response "new-token" "new-refresh-token");
             Respond (json_ok (JObj [("serverVersion", JStr "7.4.2.3")]))]).

(** A connected session whose next request meets a 401, is granted a
    refresh, and meets a 401 again on the retry. *)
Definition stale_session : World FMCClient :=
  snd (FMC.connect
         (fresh test_settings,
          env_of [Respond (token_response "old-token" "refresh-token");
                  Respond (status_only 401);
                  Respond (token_response "new-token" "new-refresh-token");
                  Respond (status_only 401)])).

(** A request meets a 401, the refresh is refused with a 500 and the
    re-authentication with a 403. *)
Definition refused_reauth : Result Response * World FMCClient :=
  (FMC.connect ;; FMC.get 1 serverversion [])
    (fresh test_settings,
     env_of [Respond (token_response "old-token" "refresh-token");
             Respond (status_only 401);
             Respond (status_only 500);
             Respond (status_only 403);
             Respond (status_only 403);
             Respond (json_ok (JObj []))]).

(** A 429 whose [Retry-After] is an HTTP date, as RFC 9110 allows. *)
Definition busy_until_date : Response :=
  mkResponse 429 [("Retry-After", "Wed, 21 Oct 2015 07:28:00 GMT")] "" None.

Definition rate_limited_with_date : Result Response * World FMCClient :=
  (FMC.connect ;; FMC.get 1 serverversion [])
    (fresh test_settings,
     env_of [Respond (token_response "A1" "R1");
             Respond busy_until_date;
             Respond (json_ok (JObj []))]).

(** [test_get_devices]: connect, then fetch the device records. *)
Definition devices_session : World FMCClient :=
  snd (FMC.connect
         (fresh test_settings,
          env_of [Respond (token_response "test-access-token" "test-refresh-token");
                  Respond (json_ok two_devices)])).

Definition devices_endpoint : string :=
  "/api/fmc_config/v1/domain/test-domain-uuid/devices/devicerecords".

(** A first page of two items whose body has no paging envelope. *)
Definition no_envelope : json :=
  JObj [("items", JArr [JStr "a"; JStr "b"])].

Definition no_envelope_session : World FMCClient :=
  snd (FMC.connect
         (fresh test_settings,
          env_of [Respond (token_response "test-access-token" "test-refresh-token");
                  Respond (json_ok no_envelope);
                  Respond (json_ok no_envelope)])).

(** The deployable-devices read refused with a 403. *)
Definition forbidden_session : World FMCClient :=
  snd (FMC.connect
         (fresh test_settings,
          env_of [Respond (token_response "test-access-token" "test-refresh-token");
                  Respond (status_only 403)])).

Definition deployable_endpoint : string :=
  "/api/fmc_config/v1/domain/test-domain-uuid/deployment/deployabledevices".

(** A server whose token answer discloses a domain of its own. *)
Definition disclosing : list Reply :=
  [Respond (mkResponse 204
              [("X-auth-access-token", "A1"); ("X-auth-refresh-token", "R1");
               ("DOMAIN_UUID", "other-domain")] "" None);
   Respond (json_ok two_devices)].

(** A server whose answers disclose none. *)
Definition undisclosing : list Reply :=
  [Respond (token_response "A1" "R1"); Respond (json_ok two_devices)].

(** The session of [test_token_refresh_on_401]. *)
Definition refresh_session : Result json * World FMCClient :=
  (FMC.connect ;; FMC.get_server_version 1)
    (fresh test_settings,
     env_of [Respond (token_response "old-token" "refresh-token");
             Respond (status_only 401);
             Respond (token_response "new-token" "new-refresh-token");
             Respond (json_ok (JObj [("serverVersion", JStr "7.4.2.3")]))]).

Definition page (items : list json) (count : Z) : Reply :=
  Respond (json_ok (JObj [("items", JArr items);
                          ("paging", JObj [("count", JNum count)])])).

(** Three pages of a listing that declares 2500 items. *)
Definition three_pages : Result (list json) * World FMCClient :=
  (FMC.connect ;; FMC.get_all_items 3 devices_endpoint false)
    (fresh test_settings,
     env_of [Respond (token_response "A1" "R1");
             page [JStr "a"] 2500; page [JStr "b"] 2500; page [JStr "c"] 2500;
             page [JStr "d"] 2500]).

(** A listing that declares 5000 items and then serves an empty page. *)
Definition dry_second_page : Result (list json) * World FMCClient :=
  (FMC.connect ;; FMC.get_all_items 3 devices_endpoint false)
    (fresh test_settings,
     env_of [Respond (token_response "A1" "R1");
             page [JStr "a"] 5000; page [] 5000; page [JStr "c"] 5000]).

End Fixture.

(* ------------------------------------------------------------------ *)
(** ** Further vocabulary: the limiter *)

Module RLSpec.

Definition is_acquire (o : RL.Op) : bool :=
  match o with RL.Acquire => true | _ => false end.

(** How many tokens a sequence of operations asks for. *)
Definition demand (ops : list RL.Op) : Z :=
  Z.of_nat (List.length (filter is_acquire ops)).

Definition is_sleep (e : Event) : bool :=
  match e with Sleep _ => true | Http _ _ _ _ => false end.

(** The sleeps of a trace. *)
Definition sleeps (v : Env) : list Event := filter is_sleep (trace v).

End RLSpec.

(** Further vocabulary: what a limiter has granted. *)
Module RateSpec.

Definition is_granted (x : RL.Op * Result unit * World RateLimiter) : bool :=
  match x with
  | (RL.Acquire, Ok _, _) => true
  | _ => false
  end.

(** How many [acquire] calls of an observed sequence returned. *)
Definition granted (obs : list (RL.Op * Result unit * World RateLimiter)) : Z :=
  Z.of_nat (List.length (filter is_granted obs)).

(** The state after the last observation. *)
Definition last_world (obs : list (RL.Op * Result unit * World RateLimiter))
           (w0 : World RateLimiter) : World RateLimiter :=
  List.last (map snd obs) w0.

(** A limiter created at time [t0] that has granted [n] tokens within
    what its capacity and its rate allow up to its last refill. *)
Definition within_rate (cap : Z) (rate t0 : Q) (n : Z) (w : World RateLimiter) : Prop :=
  capacity (fst w) = cap /\ refill_rate (fst w) = rate
  /\ (0 <= tokens (fst w))%Q
  /\ (last_refill (fst w) <= clock (snd w))%Q
  /\ (inject_Z n + tokens (fst w)
      <= inject_Z cap + rate * (last_refill (fst w) - t0))%Q.

End RateSpec.

(* ------------------------------------------------------------------ *)
(** ** Further vocabulary: sessions *)

Module SessionSpec.
Import FMC Spec.

(** The calls that read from the server. *)
Definition is_read (c : Call) : bool :=
  match c with
  | Connect | Close => false
  | _ => true
  end.

(** The client as [close] leaves a connected one. *)
Definition closed (c : FMCClient) : FMCClient :=
  set_refresh_token None (set_access_token None (set_client false c)).

End SessionSpec.

(* ------------------------------------------------------------------ *)
(** ** Further vocabulary: what a computation leaves alone or uses up *)

Module FrameSpec.

(** A computation that leaves a projection of the client as it was,
    however it ends. *)
Definition keeps {A B} (f : FMCClient -> B) (m : M (World FMCClient) A) : Prop :=
  forall w r w', m w = (r, w') -> f (fst w') = f (fst w).

(** A computation that reads at most [n] answers of the server, and
    reads them in order. *)
Definition consumes {A} (n : nat) (m : M (World FMCClient) A) : Prop :=
  forall w r w',
    m w = (r, w') ->
    exists pre, script (snd w) = (pre ++ script (snd w'))%list
                /\ (List.length pre <= n)%nat.

End FrameSpec.

(** Further scenario data. *)
Module Scenario.

(** A 429 that asks for one second. *)
Definition busy_one_second : Response :=
  mkResponse 429 [("Retry-After", "1")] "" None.

(** One request that meets every retry path: a 401, a refused refresh, a
    refused and then a granted re-authentication, a 429 on the retry and
    at last a 200. *)
Definition longest_request : Result Response * World FMCClient :=
  FMC._request 1 "GET" Fixture.serverversion [] []
    (snd (FMC.connect
            (Fixture.fresh Fixture.test_settings,
             Fixture.env_of [Respond (Fixture.token_response "A1" "R1");
                             Respond (Fixture.status_only 401);
                             Respond (Fixture.status_only 500);
                             Respond (Fixture.status_only 403);
                             Respond (Fixture.token_response "A2" "R2");
                             Respond busy_one_second;
                             Respond (Fixture.json_ok (JObj []));
                             Respond (Fixture.status_only 500)]))).

(** A connected session that first meets a 429, then a 401 on the
    retry. *)
Definition busy_then_stale : World FMCClient :=
  snd (FMC.connect
         (Fixture.fresh Fixture.test_settings,
          Fixture.env_of [Respond (Fixture.token_response "A1" "R1");
                          Respond busy_one_second;
                          Respond (Fixture.status_only 401);
                          Respond (Fixture.token_response "A2" "R2")])).

(** A connected session that meets a 401, is granted a refresh, meets a
    429 on the retry and then a 200. *)
Definition stale_then_busy : World FMCClient :=
  snd (FMC.connect
         (Fixture.fresh Fixture.test_settings,
          Fixture.env_of [Respond (Fixture.token_response "A1" "R1");
                          Respond (Fixture.status_only 401);
                          Respond (Fixture.token_response "A2" "R2");
                          Respond busy_one_second;
                          Respond (Fixture.json_ok (JObj []))])).

End Scenario.

(* ------------------------------------------------------------------ *)
(** ** Further vocabulary: pages *)

Module PageSpec.

(** A success answer whose body is an object with a list of items and an
    envelope that declares an integer count. *)
Record Page : Type := mkPage {
  answer : Response;
  page_items : list json;
  page_total : Z
}.

Definition well_formed (pg : Page) : Prop :=
  is_success (answer pg) = true
  /\ exists kv paging,
      json_body (answer pg) = Some (JObj kv)
      /\ Json.dict_get kv "items" (JArr []) = JArr (page_items pg)
      /\ Json.dict_get kv "paging" (JObj []) = JObj paging
      /\ Json.dict_get paging "count" (JNum 0) = JNum (page_total pg).

(** Pages after which the loop goes on, the first one fetched at
    [offset]. *)
Fixpoint continuing (offset : Z) (pages : list Page) : Prop :=
  match pages with
  | [] => True
  | pg :: rest =>
      page_items pg <> [] /\ offset + 1000 < page_total pg
      /\ continuing (offset + 1000) rest
  end.

(** A page at which the loop stops. *)
Definition stopping (offset : Z) (pg : Page) : Prop :=
  page_items pg = [] \/ offset + 1000 >= page_total pg.

(** The page requests of a listing: one per page, [limit] apart. *)
Fixpoint page_requests (endpoint : string) (token : option string) (expanded : bool)
         (offset : Z) (n : nat) : list Event :=
  match n with
  | O => []
  | S n' =>
      Http "GET" endpoint [("X-auth-access-token", token)]
           (FMC.page_params expanded offset)
        :: page_requests endpoint token expanded (offset + 1000) n'
  end.

(** A page built like the test fixtures. *)
Definition page (items : list json) (total : Z) : Page :=
  mkPage (Fixture.json_ok (JObj [("items", JArr items);
                                 ("paging", JObj [("count", JNum total)])]))
         items total.

(** The answers of the server that carry the pages, and the items of
    the pages in the order served. *)
Definition answers (pages : list Page) : list Reply :=
  map (fun pg => Respond (answer pg)) pages.

Definition items_of (pages : list Page) : list json :=
  flat_map page_items pages.

(** A connected session of the test client against [replies]. *)
Definition listing_session (replies : list Reply) : World FMCClient :=
  snd (FMC.connect
         (Fixture.fresh Fixture.test_settings,
          Fixture.env_of (Respond (Fixture.token_response "A1" "R1") :: replies))).

(** Two pages of one item each of a listing that declares 2500 items,
    and its last page. *)
Definition first_pages : list Page :=
  [page [JStr "a"] 2500; page [JStr "b"] 2500].

Definition final_page : Page := page [JStr "c"] 2500.

End PageSpec.

(** Further vocabulary: where the credentials go. *)
Module SecretSpec.

(** A request-header dict with an [Authorization] header; header names
    compare case-insensitively. *)
Definition carries_authorization (h : list (string * option string)) : bool :=
  existsb (fun p => String.eqb (PyStr.lower (fst p)) "authorization") h.

Definition token_endpoint : string := "/api/fmc_platform/v1/auth/generatetoken".

(** An exchange that carries such a header to the token endpoint only. *)
Definition discreet (e : Event) : Prop :=
  match e with
  | Http m p h _ => carries_authorization h = true -> m = "POST" /\ p = token_endpoint
  | Sleep _ => True
  end.

(** A world in which every exchange so far was discreet. *)
Definition all_discreet (w : World FMCClient) : Prop :=
  Forall discreet (Spec.exchanges (snd w)).

End SecretSpec.

(* ------------------------------------------------------------------ *)
(** ** resources.py, tools.py and server.py

    The module globals [server._client] and [resources._fmc_client]
    hold references. The [FMCClient] objects created so far are kept by
    address (their index in [objects]; none is ever freed), so that both
    globals can name one object. What the code takes from the standard
    library ([json.dumps], [str.lower], the [ipaddress] module) is a
    parameter of the functions that use it. *)

Record App : Type := mkApp {
  objects : list FMCClient;
  server_client : option nat;        (** [server._client] *)
  _fmc_client : option nat           (** [resources._fmc_client] *)
}.

Module Heap.

Fixpoint store (a : nat) (c : FMCClient) (l : list FMCClient) : list FMCClient :=
  match l, a with
  | [], _ => []
  | _ :: r, O => c :: r
  | x :: r, S a' => x :: store a' c r
  end.

Definition set_objects (l : list FMCClient) (s : App) : App :=
  mkApp l (server_client s) (_fmc_client s).

(** Run a method on the object at address [a]. An address comes from
    [new] and no object is freed, so that the last case is never met. *)
Definition on_object {A} (a : nat) (m : M (World FMCClient) A) : M (World App) A :=
  fun w =>
    match nth_error (objects (fst w)) a with
    | Some c =>
        let (r, w') := m (c, snd w) in
        (r, (set_objects (store a (fst w') (objects (fst w))) (fst w), snd w'))
    | None => (Diverge, w)
    end.

(** A new object, whose address is returned. *)
Definition new (c : FMCClient) : M (World App) nat :=
  fun w =>
    (Ok (List.length (objects (fst w))),
     (set_objects (objects (fst w) ++ [c])%list (fst w), snd w)).

End Heap.

(** Statements shared by the resources and the tools. *)
Module Py.

(** [d.get(key, default)] on a value of a listing: only a dict has
    [get]. [d.get(key)] is [get_ d key JNull]. *)
Definition get_ {St} (d : json) (key : string) (default : json) : M St json :=
  match d with
  | JObj kv => ret (Json.dict_get kv key default)
  | _ => raise AttributeError
  end.

(** [for x in l: out.append(body(x))]. *)
Fixpoint for_each {St A B} (body : A -> M St B) (l : list A) : M St (list B) :=
  match l with
  | [] => ret []
  | x :: rest =>
      y <- body x ;;
      ys <- for_each body rest ;;
      ret (y :: ys)
  end.

(** [[x for x in l if keep(x)]]. *)
Fixpoint comprehension {St A} (keep : A -> M St bool) (l : list A) : M St (list A) :=
  match l with
  | [] => ret []
  | x :: rest =>
      b <- keep x ;;
      xs <- comprehension keep rest ;;
      ret (if b then x :: xs else xs)
  end.

(** [len(l)]. *)
Definition len {A} (l : list A) : Z := Z.of_nat (List.length l).

End Py.

(* ------------------------------------------------------------------ *)
(** ** resources.py *)

Module Resources.
Import Py.

Definition set_client (client : nat) : M (World App) unit :=
  modify (on_self (fun s => mkApp (objects s) (server_client s) (Some client))).

Definition no_client : Exn := RuntimeError "FMC client not initialized".

Definition get_client : M (World App) nat :=
  r <- gets (fun w : World App => _fmc_client (fst w)) ;;
  match r with
  | None => raise no_client
  | Some client => ret client
  end.

(** The dict literals of the three summaries. *)
Definition device_summary {St} (device : json) : M St json :=
  name <- get_ device "name" JNull ;;
  id <- get_ device "id" JNull ;;
  hostName <- get_ device "hostName" JNull ;;
  type <- get_ device "type" JNull ;;
  healthStatus <- get_ device "healthStatus" JNull ;;
  model <- get_ device "model" JNull ;;
  sw_version <- get_ device "sw_version" JNull ;;
  ret (JObj [("name", name); ("id", id); ("hostName", hostName); ("type", type);
             ("healthStatus", healthStatus); ("model", model);
             ("sw_version", sw_version)]).

Definition object_summary {St} (obj : json) : M St json :=
  name <- get_ obj "name" JNull ;;
  id <- get_ obj "id" JNull ;;
  value <- get_ obj "value" JNull ;;
  type <- get_ obj "type" JNull ;;
  description <- get_ obj "description" JNull ;;
  ret (JObj [("name", name); ("id", id); ("value", value); ("type", type);
             ("description", description)]).

Definition deployment_summary {St} (device : json) : M St json :=
  name <- get_ device "name" JNull ;;
  id <- get_ device "id" JNull ;;
  type <- get_ device "type" JNull ;;
  canBeDeployed <- get_ device "canBeDeployed" JNull ;;
  upToDate <- get_ device "upToDate" JNull ;;
  ret (JObj [("name", name); ("id", id); ("type", type);
             ("canBeDeployed", canBeDeployed); ("upToDate", upToDate)]).

Section Resources.
(** [json.dumps(obj, indent=indent)]. *)
Variable dumps : option Z -> json -> string.
Variable fuel : nat.

Definition get_system_info : M (World App) string :=
  client <- get_client ;;
  version <- Heap.on_object client (FMC.get_server_version fuel) ;;
  ret (dumps (Some 2) version).

Definition list_devices : M (World App) string :=
  client <- get_client ;;
  devices <- Heap.on_object client (FMC.get_devices fuel) ;;
  summary <- for_each device_summary devices ;;
  ret (dumps (Some 2)
         (JObj [("devices", JArr summary); ("count", JNum (len summary))])).

Definition list_network_objects : M (World App) string :=
  client <- get_client ;;
  objects <- Heap.on_object client (FMC.get_network_objects fuel) ;;
  summary <- for_each object_summary objects ;;
  ret (dumps (Some 2)
         (JObj [("networkObjects", JArr summary); ("count", JNum (len summary))])).

Definition get_deployment_status : M (World App) string :=
  client <- get_client ;;
  deployable <- Heap.on_object client (FMC.get_deployable_devices fuel) ;;
  summary <- for_each deployment_summary deployable ;;
  ret (dumps (Some 2)
         (JObj [("deployableDevices", JArr summary);
                ("count", JNum (len summary));
                ("hasPendingChanges", JBool (0 <? len summary))])).

End Resources.

End Resources.

(* ------------------------------------------------------------------ *)
(** ** tools.py *)

Module Tools.
Import Py.

(** [except (ValueError, TypeError)]. *)
Definition value_or_type_error (e : Exn) : bool :=
  match e with
  | ValueError | TypeError => true
  | _ => false
  end.

Fixpoint has_char (c : ascii) (s : string) : bool :=
  match s with
  | EmptyString => false
  | String x r => if Ascii.eqb x c then true else has_char c r
  end.

(** ["/" in value]: a substring of a string, an element of a list, a key
    of a dict; any other value is not iterable. *)
Definition slash_in {St} (value : json) : M St bool :=
  match value with
  | JStr s => ret (has_char "/" s)
  | JArr l =>
      ret (existsb (fun x => match x with
                             | JStr s => String.eqb s "/"
                             | _ => false
                             end) l)
  | JObj kv => ret (Json.has_key kv "/")
  | _ => raise TypeError
  end.

(** The dict literal of a match. *)
Definition match_entry {St} (kind : string) (obj value : json) : M St json :=
  name <- get_ obj "name" JNull ;;
  id <- get_ obj "id" JNull ;;
  description <- get_ obj "description" JNull ;;
  ret (JObj [("type", JStr kind); ("name", name); ("value", value); ("id", id);
             ("description", description)]).

(** One entry of [results] in [check_deployment_status], kept as the
    dict it is. *)
Definition status_entry {St} (device : json) : M St (list (string * json)) :=
  name <- get_ device "name" JNull ;;
  id <- get_ device "id" JNull ;;
  canBeDeployed <- get_ device "canBeDeployed" JNull ;;
  upToDate <- get_ device "upToDate" JNull ;;
  up <- get_ device "upToDate" (JBool true) ;;
  ret [("name", name); ("id", id); ("canBeDeployed", canBeDeployed);
       ("upToDate", upToDate); ("hasPendingChanges", JBool (negb (Json.truthy up)))].

(** [all(r.get("upToDate", True) for r in results)]. *)
Definition all_up_to_date (results : list (list (string * json))) : bool :=
  forallb (fun r => Json.truthy (Json.dict_get r "upToDate" (JBool true))) results.

(** [sum(1 for r in results if not r.get('upToDate'))]. *)
Definition pending (results : list (list (string * json))) : Z :=
  len (filter (fun r => negb (Json.truthy (Json.dict_get r "upToDate" JNull))) results).

Section Tools.
Variable dumps : option Z -> json -> string.
(** [str.lower]. *)
Variable lower : string -> string.
(** The [ipaddress] module: [ip_address(value)] and
    [ip_network(value, strict=False)], where [None] is [ValueError];
    [a == b] on addresses and [a in network]. *)
Variables IPAddress IPNetwork : Type.
Variable ip_address : json -> option IPAddress.
Variable ip_network : json -> option IPNetwork.
Variable address_eqb : IPAddress -> IPAddress -> bool.
Variable address_in : IPAddress -> IPNetwork -> bool.
Variable fuel : nat.

Definition parsed {St A} (o : option A) : M St A :=
  match o with
  | Some a => ret a
  | None => raise ValueError
  end.

(** The body of the loop over the network objects: the match to append,
    if any. *)
Definition network_match {St} (search_ip : IPAddress) (obj : json)
  : M St (option json) :=
  value <- get_ obj "value" (JStr "") ;;
  try_except
    (slash <- slash_in value ;;
     if slash then
       network <- parsed (ip_network value) ;;
       if address_in search_ip network then
         m <- match_entry "network" obj value ;; ret (Some m)
       else ret None
     else
       a <- parsed (ip_address value) ;;
       if address_eqb a search_ip then
         m <- match_entry "network" obj value ;; ret (Some m)
       else ret None)
    value_or_type_error
    (fun _ => ret None).

(** The body of the loop over the host objects. *)
Definition host_match {St} (search_ip : IPAddress) (obj : json)
  : M St (option json) :=
  value <- get_ obj "value" (JStr "") ;;
  try_except
    (a <- parsed (ip_address value) ;;
     if address_eqb a search_ip then
       m <- match_entry "host" obj value ;; ret (Some m)
     else ret None)
    value_or_type_error
    (fun _ => ret None).

(** What a loop appended to [matches]. *)
Fixpoint appended (l : list (option json)) : list json :=
  match l with
  | [] => []
  | Some m :: rest => m :: appended rest
  | None :: rest => appended rest
  end.

Definition search_object_by_ip (ip : string) : M (World App) string :=
  match ip_address (JStr ip) with
  | None => ret (dumps None (JObj [("error", JStr ("Invalid IP address: " ++ ip))]))
  | Some search_ip =>
      client <- Resources.get_client ;;
      networks <- Heap.on_object client (FMC.get_network_objects fuel) ;;
      hosts <- Heap.on_object client (FMC.get_host_objects fuel) ;;
      found <- for_each (network_match search_ip) networks ;;
      found' <- for_each (host_match search_ip) hosts ;;
      let matches := (appended found ++ appended found')%list in
      ret (dumps (Some 2)
             (JObj [("searchedIP", JStr ip); ("matches", JArr matches);
                    ("count", JNum (len matches))]))
  end.

(** [d.get("name", "").lower() == device_name.lower()]. *)
Definition named {St} (device_name : string) (d : json) : M St bool :=
  name <- get_ d "name" (JStr "") ;;
  match name with
  | JStr s => ret (String.eqb (lower s) (lower device_name))
  | _ => raise AttributeError
  end.

(** [device_name or "all devices"]. *)
Definition filter_label (device_name : option string) : string :=
  match device_name with
  | Some n => if String.eqb n "" then "all devices" else n
  | None => "all devices"
  end.

Definition check_deployment_status (device_name : option string)
  : M (World App) string :=
  client <- Resources.get_client ;;
  deployable <- Heap.on_object client (FMC.get_deployable_devices fuel) ;;
  deployable <- match device_name with
                | Some n =>
                    if String.eqb n "" then ret deployable
                    else comprehension (named n) deployable
                | None => ret deployable
                end ;;
  results <- for_each status_entry deployable ;;
  let all_synced := all_up_to_date results in
  ret (dumps (Some 2)
         (JObj [("filter", JStr (filter_label device_name));
                ("devices", JArr (map JObj results));
                ("count", JNum (len results));
                ("allDevicesSynced",
                 JBool (match results with [] => true | _ => all_synced end));
                ("summary",
                 JStr (if all_synced then "All devices are in sync"
                       else PyStr.of_Z (pending results)
                              ++ " device(s) have pending changes"))])).

End Tools.

End Tools.

(* ------------------------------------------------------------------ *)
(** ** server.py *)

Module Server.

Definition set_server_client (r : option nat) : M (World App) unit :=
  modify (on_self (fun s => mkApp (objects s) r (_fmc_client s))).

(** [FMCClient(settings)]. *)
Definition new_client (settings : FMCSettings) : M (World App) nat :=
  now <- monotonic ;;
  match FMC.init settings now with
  | Ok c => Heap.new c
  | Raise e => raise e
  | Diverge => diverge
  end.

(** [try: m finally: f]; a body that never ends never reaches [f]. *)
Definition try_finally {St A} (m : M St A) (f : M St unit) : M St A :=
  fun s =>
    match m s with
    | (Diverge, s') => (Diverge, s')
    | (r, s') =>
        match f s' with
        | (Ok _, s'') => (r, s'')
        | (Raise e, s'') => (Raise e, s'')
        | (Diverge, s'') => (Diverge, s'')
        end
    end.

(** [lifespan] up to its [yield]; [settings] is what [get_settings()]
    returns. *)
Definition startup (settings : FMCSettings) : M (World App) unit :=
  client <- new_client settings ;;
  set_server_client (Some client) ;;
  Heap.on_object client FMC.connect ;;
  Resources.set_client client.

(** The [finally] block of [lifespan]. *)
Definition shutdown : M (World App) unit :=
  r <- gets (fun w : World App => server_client (fst w)) ;;
  match r with
  | Some client =>
      Heap.on_object client FMC.close ;;
      set_server_client None
  | None => ret tt
  end.

(** [lifespan], with what runs while it is suspended at [yield]. *)
Definition lifespan {A} (settings : FMCSettings) (serving : M (World App) A)
  : M (World App) A :=
  startup settings ;;
  try_finally serving shutdown.

(** The registered resources and tools. *)
Inductive Handler : Type :=
| system_info_resource
| devices_list_resource
| network_objects_resource
| deployment_status_resource
| search_object_by_ip (ip_address : string)
| get_deployment_status (device_name : option string).

Section Handlers.
Variable dumps : option Z -> json -> string.
Variable lower : string -> string.
Variables IPAddress IPNetwork : Type.
Variable ip_address : json -> option IPAddress.
Variable ip_network : json -> option IPNetwork.
Variable address_eqb : IPAddress -> IPAddress -> bool.
Variable address_in : IPAddress -> IPNetwork -> bool.
Variable fuel : nat.

Definition handle (h : Handler) : M (World App) string :=
  match h with
  | system_info_resource => Resources.get_system_info dumps fuel
  | devices_list_resource => Resources.list_devices dumps fuel
  | network_objects_resource => Resources.list_network_objects dumps fuel
  | deployment_status_resource => Resources.get_deployment_status dumps fuel
  | search_object_by_ip ip =>
      Tools.search_object_by_ip dumps ip_address ip_network address_eqb address_in
        fuel ip
  | get_deployment_status device_name =>
      Tools.check_deployment_status dumps lower fuel device_name
  end.

End Handlers.

End Server.

(** Further vocabulary: the state of the application. *)
Module AppSpec.

(** The object at address [a]. *)
Definition object_at (a : nat) (w : World App) : option FMCClient :=
  nth_error (objects (fst w)) a.

(** The application while it serves: both globals name the object at
    [a], which is connected. *)
Definition serving_at (a : nat) (w : World App) : Prop :=
  server_client (fst w) = Some a
  /\ _fmc_client (fst w) = Some a
  /\ exists c, object_at a w = Some c /\ _client c = true.

(** The application after a shutdown: the resources still name the
    object at [a], which is closed and holds no token. *)
Definition shut_at (a : nat) (w : World App) : Prop :=
  server_client (fst w) = None
  /\ _fmc_client (fst w) = Some a
  /\ exists c, object_at a w = Some c
               /\ _client c = false
               /\ _access_token c = None /\ _refresh_token c = None.

(** A computation that leaves the state alone. *)
Definition quiet {St A} (m : M St A) : Prop := forall s, snd (m s) = s.

(** The application around one client object, named by both globals or
    by neither. *)
Definition around (w : World FMCClient) : World App :=
  (mkApp [fst w] (Some 0%nat) (Some 0%nat), snd w).

Definition unset (w : World FMCClient) : World App :=
  (mkApp [fst w] None None, snd w).

(** The values at [keys] of an item of a listing, for an item that is a
    dict. *)
Definition fields (keys : list string) (d : json) : option (list (string * json)) :=
  match d with
  | JObj kv => Some (map (fun k => (k, Json.dict_get kv k JNull)) keys)
  | _ => None
  end.

Fixpoint sequence {B} (l : list (option B)) : option (list B) :=
  match l with
  | [] => Some []
  | Some y :: rest => option_map (cons y) (sequence rest)
  | None :: _ => None
  end.

(** The listings that the resources summarise. *)
Inductive Listing : Type := Devices | NetworkObjects | Deployable.

Definition keys_of (k : Listing) : list string :=
  match k with
  | Devices => ["name"; "id"; "hostName"; "type"; "healthStatus"; "model"; "sw_version"]
  | NetworkObjects => ["name"; "id"; "value"; "type"; "description"]
  | Deployable => ["name"; "id"; "type"; "canBeDeployed"; "upToDate"]
  end.

Definition read_of (fuel : nat) (k : Listing) : M (World FMCClient) (list json) :=
  match k with
  | Devices => FMC.get_devices fuel
  | NetworkObjects => FMC.get_network_objects fuel
  | Deployable => FMC.get_deployable_devices fuel
  end.

Definition resource_of (dumps : option Z -> json -> string) (fuel : nat) (k : Listing)
  : M (World App) string :=
  match k with
  | Devices => Resources.list_devices dumps fuel
  | NetworkObjects => Resources.list_network_objects dumps fuel
  | Deployable => Resources.get_deployment_status dumps fuel
  end.

(** Stand-ins for the library functions in examples: a payload is
    rendered on one line whatever the indentation asked for, an address
    is the string that names it, and nothing reads as a network. *)
Definition quoted (s : string) : string :=
  String (ascii_of_nat 34) (s ++ String (ascii_of_nat 34) EmptyString).

Fixpoint render (j : json) : string :=
  match j with
  | JNull => "null"
  | JBool b => if b then "true" else "false"
  | JNum n => PyStr.of_Z n
  | JStr s => quoted s
  | JArr l => "[" ++ PyStr.join ", " (map render l) ++ "]"
  | JObj kv =>
      "{" ++ PyStr.join ", " (map (fun p : string * json =>
                                   let (k, x) := p in
                                   quoted k ++ ": " ++ render x) kv) ++ "}"
  end.

Definition on_one_line (indent : option Z) (j : json) : string := render j.

Definition named_address (j : json) : option string :=
  match j with
  | JStr s => if String.eqb s "" then None else Some s
  | _ => None
  end.

Definition no_network (j : json) : option unit := None.

(** The entry of [results] for an item that is a dict. *)
Definition status_of (d : json) : option (list (string * json)) :=
  match d with
  | JObj kv =>
      Some [("name", Json.dict_get kv "name" JNull);
            ("id", Json.dict_get kv "id" JNull);
            ("canBeDeployed", Json.dict_get kv "canBeDeployed" JNull);
            ("upToDate", Json.dict_get kv "upToDate" JNull);
            ("hasPendingChanges",
             JBool (negb (Json.truthy (Json.dict_get kv "upToDate" (JBool true)))))]
  | _ => None
  end.

(** A device that is reported up to date, and one whose record has no
    such flag. *)
Definition up_to_date (d : json) : Prop :=
  exists kv, d = JObj kv /\ Json.dict_get kv "upToDate" JNull = JBool true.

Definition unflagged (d : json) : Prop :=
  exists kv, d = JObj kv /\ Json.has_key kv "upToDate" = false.

(** A device with a name other than [n], letter case apart. *)
Definition named_otherwise (lower : string -> string) (n : string) (d : json) : Prop :=
  exists kv x,
    d = JObj kv /\ Json.dict_get kv "name" (JStr "") = JStr x /\ lower x <> lower n.

Definition handle_plainly (fuel : nat) (h : Server.Handler) : M (World App) string :=
  Server.handle on_one_line PyStr.lower named_address no_network String.eqb
    (fun _ _ => false) fuel h.

(** The application around a connected client that is served [items]
    as one page of the listing it asks for next. *)
Definition serving (items : list json) : World App :=
  around (PageSpec.listing_session
            (PageSpec.answers [PageSpec.page items (Py.len items)])).

(** An item of a listing that is a dict. *)
Definition is_dict (d : json) : bool :=
  match d with
  | JObj _ => true
  | _ => false
  end.

(** The application around a connected client that is served the
    network objects and then the host objects, a page each. *)
Definition searching (networks hosts : list json) : World App :=
  around (PageSpec.listing_session
            (PageSpec.answers [PageSpec.page networks (Py.len networks);
                               PageSpec.page hosts (Py.len hosts)])).

(** The application before any start, against a scripted server. *)
Definition cold (replies : list Reply) : World App :=
  (mkApp [] None None, Fixture.env_of replies).

(** One run of the server during which the device list is read. *)
Definition one_run : Result string * World App :=
  Server.lifespan Fixture.test_settings
    (handle_plainly 3 Server.devices_list_resource)
    (cold [Respond (Fixture.token_response "A1" "R1");
           Respond (Fixture.json_ok Fixture.two_devices)]).

Definition ftd (name : string) (more : list (string * json)) : json :=
  JObj (("name", JStr name) :: more).

End AppSpec.

(* ================================================================== *)
(** * Properties *)

Unset Implicit Arguments.

Example int_plain : PyStr.int "120" = Some 120. Proof. reflexivity. Qed.
Example int_spaces : PyStr.int " 7 " = Some 7. Proof. reflexivity. Qed.
Example int_signed : PyStr.int "-5" = Some (-5). Proof. reflexivity. Qed.
Example int_underscore : PyStr.int "1_000" = Some 1000. Proof. reflexivity. Qed.
Example int_empty : PyStr.int "" = None. Proof. reflexivity. Qed.
Example int_no_break_space :
  PyStr.int (String (ascii_of_nat 160) "60") = Some 60.
Proof. reflexivity. Qed.
Example int_separator :
  PyStr.int (String (ascii_of_nat 28) "60") = None.
Proof. reflexivity. Qed.
Example int_date : PyStr.int "Wed, 21 Oct 2015 07:28:00 GMT" = None.
Proof. reflexivity. Qed.
Example of_Z_403 : PyStr.of_Z 403 = "403". Proof. reflexivity. Qed.

Example b64_testuser :
  Base64.b64encode "testuser:testpass" = "dGVzdHVzZXI6dGVzdHBhc3M=".
Proof. reflexivity. Qed.

(* ------------------------------------------------------------------ *)
(** ** The token bucket *)

Module RLFacts.
Import RL.

Lemma ltb_true t : ltb t 1 = true -> (t < 1)%Q.
Proof.
  unfold ltb. intros H. apply negb_true_iff in H.
  apply Qnot_le_lt. intros Hle. apply Qle_bool_iff in Hle. congruence.
Qed.

Lemma ltb_false t : ltb t 1 = false -> (1 <= t)%Q.
Proof.
  unfold ltb. intros H. apply negb_false_iff in H. now apply Qle_bool_iff.
Qed.

Lemma init_bounded c rate now : bounded (init c rate now).
Proof. unfold bounded, init. simpl. apply Qle_refl. Qed.

Lemma refilled_bounded now r : bounded (refilled now r).
Proof. unfold bounded, refilled. simpl. apply Q.le_min_l. Qed.

Lemma refilled_capacity now r : capacity (refilled now r) = capacity r.
Proof. reflexivity. Qed.

(** The loop, one iteration at a time. *)
Lemma wait_loop_0 rl v :
  wait_loop 0 (rl, v) =
  if ltb (tokens rl) 1 then (Diverge, (rl, v)) else (Ok tt, (rl, v)).
Proof.
  cbn [wait_loop]. unfold bind, gets. cbn [fst snd].
  destruct (ltb (tokens rl) 1); reflexivity.
Qed.

Lemma wait_loop_S fuel rl v :
  wait_loop (S fuel) (rl, v) =
  if ltb (tokens rl) 1 then
    if Qeq_bool (refill_rate rl) 0 then (Raise ZeroDivisionError, (rl, v))
    else
      let v' := advance ((1 - tokens rl) / refill_rate rl) v in
      wait_loop fuel (refilled (clock v') rl, v')
  else (Ok tt, (rl, v)).
Proof.
  cbn [wait_loop]. unfold bind, gets. simpl.
  destruct (ltb (tokens rl) 1); [simpl|reflexivity].
  destruct (Qeq_bool (refill_rate rl) 0); reflexivity.
Qed.

Lemma acquire_eq fuel rl v :
  acquire fuel (rl, v) =
  match wait_loop fuel (refilled (clock v) rl, v) with
  | (Ok _, (rl', v')) => (Ok tt, (set_tokens (tokens rl' - 1) rl', v'))
  | (Raise e, w') => (Raise e, w')
  | (Diverge, w') => (Diverge, w')
  end.
Proof.
  unfold acquire, _refill, monotonic, bind, gets, modify. simpl.
  change (on_self (refilled (clock v)) (rl, v)) with (refilled (clock v) rl, v).
  destruct (wait_loop fuel (refilled (clock v) rl, v)) as [[[]| |] [rl' v']];
    reflexivity.
Qed.

(** What the waiting loop leaves behind, however it ends. *)
Lemma wait_loop_inv fuel : forall rl v r w',
    wait_loop fuel (rl, v) = (r, w') ->
    bounded rl ->
    bounded (fst w') /\ capacity (fst w') = capacity rl
    /\ refill_rate (fst w') = refill_rate rl
    /\ (r = Ok tt -> (1 <= tokens (fst w'))%Q).
Proof.
  induction fuel as [|fuel IH]; intros rl v r w' Hrun Hb.
  - rewrite wait_loop_0 in Hrun.
    destruct (ltb (tokens rl) 1) eqn:Hlt; inversion Hrun; subst; cbn;
      repeat split; auto; intros HH; try discriminate HH.
    now apply ltb_false.
  - rewrite wait_loop_S in Hrun.
    destruct (ltb (tokens rl) 1) eqn:Hlt.
    + destruct (Qeq_bool (refill_rate rl) 0).
      * inversion Hrun; subst; cbn. repeat split; auto.
        intros HH; discriminate HH.
      * cbv zeta in Hrun. apply IH in Hrun; [exact Hrun | apply refilled_bounded].
    + inversion Hrun; subst; cbn. repeat split; auto.
      intros _. now apply ltb_false.
Qed.

(** Whatever [acquire] does, the bucket stays within its capacity, and
    a returning [acquire] found a whole token to take. *)
Lemma acquire_inv fuel rl v r w' :
  acquire fuel (rl, v) = (r, w') ->
  bounded (fst w') /\ capacity (fst w') = capacity rl
  /\ refill_rate (fst w') = refill_rate rl
  /\ (r = Ok tt ->
      (0 <= tokens (fst w'))%Q /\ (tokens (fst w') < inject_Z (capacity rl))%Q).
Proof.
  rewrite acquire_eq.
  destruct (wait_loop fuel (refilled (clock v) rl, v)) as [r1 [rl1 v1]] eqn:Hloop.
  apply wait_loop_inv in Hloop; [|apply refilled_bounded].
  cbn [fst] in Hloop. destruct Hloop as (Hb & Hc & Hr & Hone).
  change (capacity (refilled (clock v) rl)) with (capacity rl) in Hc.
  change (refill_rate (refilled (clock v) rl)) with (refill_rate rl) in Hr.
  intros Hrun.
  assert (Hw : bounded (fst w') /\ capacity (fst w') = capacity rl
               /\ refill_rate (fst w') = refill_rate rl).
  { destruct r1 as [[]| |]; inversion Hrun; subst; cbn; auto.
    repeat split; auto. unfold bounded in *. cbn. lra. }
  destruct Hw as (Hb' & Hc' & Hr'). repeat split; auto;
    destruct r1 as [[]| |]; inversion Hrun; subst; try discriminate;
    specialize (Hone eq_refl); unfold bounded in Hb; cbn; rewrite <- ?Hc; lra.
Qed.

Lemma wait_loop_done fuel rl v :
  (1 <= tokens rl)%Q -> wait_loop fuel (rl, v) = (Ok tt, (rl, v)).
Proof.
  intros H. assert (Hlt : ltb (tokens rl) 1 = false).
  { unfold ltb. apply negb_false_iff. now apply Qle_bool_iff. }
  destruct fuel; [rewrite wait_loop_0 | rewrite wait_loop_S]; now rewrite Hlt.
Qed.

(** One sleep of the computed length is enough: the next refill finds a
    whole token. *)
Lemma refill_after_wait rl v :
  (1 <= capacity rl)%Z -> (0 < refill_rate rl)%Q ->
  (last_refill rl <= clock v)%Q ->
  let v' := advance ((1 - tokens rl) / refill_rate rl) v in
  (1 <= tokens (refilled (clock v') rl))%Q.
Proof.
  intros Hcap Hrate Hlast v'. unfold refilled. cbn [tokens].
  apply Q.min_glb.
  - change 1%Q with (inject_Z 1). now rewrite <- Zle_Qle.
  - set (wt := ((1 - tokens rl) / refill_rate rl)%Q).
    assert (Hwt : (wt * refill_rate rl == 1 - tokens rl)%Q).
    { unfold wt. field. lra. }
    assert (Hel : (wt <= clock v' - last_refill rl)%Q).
    { unfold v', advance. cbn [clock]. fold wt.
      pose proof (Q.le_max_r 0 wt) as H1.
      assert (H2 : (0 <= match jitter v with j :: _ => Qmax 0 j | [] => 0 end)%Q).
      { destruct (jitter v); [lra | apply Q.le_max_l]. }
      lra. }
    apply (Qmult_le_compat_r _ _ (refill_rate rl)) in Hel; [|lra].
    lra.
Qed.

Lemma wait_loop_returns fuel rl v :
  (1 <= capacity rl)%Z -> (0 < refill_rate rl)%Q ->
  (last_refill rl <= clock v)%Q ->
  exists w', wait_loop (S fuel) (rl, v) = (Ok tt, w').
Proof.
  intros Hcap Hrate Hlast. rewrite wait_loop_S.
  destruct (ltb (tokens rl) 1); [|eauto].
  assert (Hz : Qeq_bool (refill_rate rl) 0 = false).
  { destruct (Qeq_bool (refill_rate rl) 0) eqn:E; [|reflexivity].
    apply Qeq_bool_iff in E. lra. }
  rewrite Hz. cbv zeta. rewrite wait_loop_done; [eauto|].
  now apply refill_after_wait.
Qed.

(** With a capacity of at least one and a positive rate, [acquire]
    returns. *)
Lemma acquire_returns fuel rl v :
  (1 <= capacity rl)%Z -> (0 < refill_rate rl)%Q ->
  exists w', acquire (S fuel) (rl, v) = (Ok tt, w').
Proof.
  intros Hcap Hrate. rewrite acquire_eq.
  destruct (wait_loop_returns fuel (refilled (clock v) rl) v) as [[rl' v'] Hw];
    auto; [cbn; apply Qle_refl|].
  rewrite Hw. eauto.
Qed.

(** Each operation keeps the bucket bounded and its parameters fixed. *)
Lemma step_inv fuel o rl v r w' :
  step fuel o (rl, v) = (r, w') ->
  bounded rl ->
  bounded (fst w') /\ capacity (fst w') = capacity rl
  /\ refill_rate (fst w') = refill_rate rl.
Proof.
  destruct o as [d| |]; cbn [step]; intros Hrun Hb.
  - inversion Hrun; subst. cbn. auto.
  - inversion Hrun; subst. cbn. split; [apply refilled_bounded | auto].
  - apply acquire_inv in Hrun. tauto.
Qed.

Lemma step_returns fuel o rl v :
  (1 <= capacity rl)%Z -> (0 < refill_rate rl)%Q ->
  exists w', step (S fuel) o (rl, v) = (Ok tt, w').
Proof.
  intros Hcap Hrate. destruct o as [d| |]; cbn [step].
  - eexists; reflexivity.
  - eexists; reflexivity.
  - now apply acquire_returns.
Qed.

End RLFacts.

(** C7. Along every sequence of operations on a fresh limiter the token
    count stays at or below the capacity at each observation, and right
    after the decrement of a returning [acquire] it lies in
    [0, capacity): the call found a whole token, after suspending for the
    refill if it had to. When the capacity is at least one and the refill
    rate positive, every operation of the sequence returns. (Tokens and
    times are exact rationals here.) *)
Theorem rate_limiter_tokens_bounded
        (cap : Z) (rate : Q) (v : Env) (fuel : nat) (ops : list RL.Op) :
  let w0 := (RL.init cap rate (clock v), v) in
  Forall (fun x : RL.Op * Result unit * World RateLimiter =>
            let '(o, r, w) := x in
            (tokens (fst w) <= inject_Z cap)%Q
            /\ (o = RL.Acquire -> r = Ok tt ->
                (0 <= tokens (fst w))%Q /\ (tokens (fst w) < inject_Z cap)%Q))
         (RL.observe fuel ops w0)
  /\ ((1 <= cap)%Z -> (0 < rate)%Q -> (1 <= fuel)%nat ->
      List.length (RL.observe fuel ops w0) = List.length ops
      /\ Forall (fun x : RL.Op * Result unit * World RateLimiter =>
                   snd (fst x) = Ok tt)
                (RL.observe fuel ops w0)).
Proof.
  intros w0.
  assert (Hgen : forall ops rl v0,
             RL.bounded rl -> capacity rl = cap -> refill_rate rl = rate ->
             Forall (fun x : RL.Op * Result unit * World RateLimiter =>
                       let '(o, r, w) := x in
                       (tokens (fst w) <= inject_Z cap)%Q
                       /\ (o = RL.Acquire -> r = Ok tt ->
                           (0 <= tokens (fst w))%Q
                           /\ (tokens (fst w) < inject_Z cap)%Q))
                    (RL.observe fuel ops (rl, v0))
             /\ ((1 <= cap)%Z -> (0 < rate)%Q -> (1 <= fuel)%nat ->
                 List.length (RL.observe fuel ops (rl, v0)) = List.length ops
                 /\ Forall (fun x : RL.Op * Result unit * World RateLimiter =>
                              snd (fst x) = Ok tt)
                           (RL.observe fuel ops (rl, v0)))).
  { clear ops w0 v. induction ops as [|o ops IH]; intros rl v0 Hb Hc Hr.
    - cbn. split; [constructor | intros; split; [reflexivity | constructor]].
    - cbn [RL.observe].
      destruct (RL.step fuel o (rl, v0)) as [r [rl' v']] eqn:Hstep.
      pose proof (@RLFacts.step_inv _ _ _ _ _ _ Hstep Hb) as (Hb' & Hc' & Hr').
      cbn [fst] in Hb', Hc', Hr'.
      destruct (IH rl' v' Hb') as [IH1 IH2]; [congruence | congruence |].
      split.
      + constructor.
        * split.
          -- unfold RL.bounded in Hb'. cbn [fst]. now rewrite <- Hc, <- Hc'.
          -- intros -> ->. cbn [RL.step] in Hstep.
             apply RLFacts.acquire_inv in Hstep. cbn [fst] in *.
             destruct Hstep as (_ & _ & _ & Hok). rewrite <- Hc. now apply Hok.
        * destruct r; [exact IH1 | exact IH1 | constructor].
      + intros Hcap Hrate Hfuel.
        destruct fuel as [|fuel']; [lia|].
        destruct (RLFacts.step_returns fuel' o rl v0) as [w1 Hw1];
          [lia | now rewrite Hr |].
        rewrite Hw1 in Hstep. inversion Hstep; subst r.
        destruct (IH2 Hcap Hrate Hfuel) as [Hlen Hall].
        split; [cbn; now rewrite Hlen | constructor; [reflexivity | exact Hall]]. }
  apply Hgen; [apply RLFacts.init_bounded | reflexivity | reflexivity].
Qed.

Lemma rate_limiter_tokens_bounded_witness :
  let ops := [RL.Acquire; RL.Acquire; RL.Tick (1 # 2); RL.Acquire; RL.Refill] in
  let w0 := (RL.init 2 1 0, mkEnv 0 [] [] []) in
  List.length (RL.observe 1 ops w0) = 5%nat
  /\ Forall (fun x : RL.Op * Result unit * World RateLimiter =>
               snd (fst x) = Ok tt)
            (RL.observe 1 ops w0).
Proof.
  intros ops w0.
  apply (rate_limiter_tokens_bounded 2 1 (mkEnv 0 [] [] []) 1 ops);
    [lia | reflexivity | lia].
Defined.

(* ------------------------------------------------------------------ *)
(** ** HTTP exchanges *)

Module EnvFacts.
Import Spec.

(** An exchange whose headers can be sent, by the server's answer. *)
Lemma http_call_eq {Obj} m p h ps (c : Obj) v :
  http_call m p h ps (c, v) =
  if Headers.sendable h then
    match script v with
    | Respond r :: rest => (Ok r, (c, exchanged (Http m p h ps) rest v))
    | Broken :: rest => (Raise TransportError, (c, exchanged (Http m p h ps) rest v))
    | [] => (Raise TransportError, (c, exchanged (Http m p h ps) [] v))
    end
  else (Raise TypeError, (c, v)).
Proof.
  unfold http_call, exchanged, log_event. cbn [fst snd script clock jitter trace].
  destruct (Headers.sendable h); [|reflexivity]. cbn [negb].
  destruct (script v) as [|[r|] rest] eqn:Hs; try reflexivity.
Qed.

Lemma sendable_set h k t :
  Headers.sendable h = true -> Headers.sendable (Headers.set h k (Some t)) = true.
Proof.
  induction h as [|[k' x] h IH]; cbn; [reflexivity|].
  intros H. apply andb_true_iff in H. destruct H as [H1 H2].
  destruct (String.eqb k' k); cbn; [exact H2|].
  rewrite H1. cbn. now apply IH.
Qed.

(** A token that is attached only when truthy never makes a header
    unsendable. *)
Lemma sendable_optional k (t : option string) :
  Headers.sendable (if PyStr.truthy t then [(k, t)] else []) = true.
Proof. destruct t as [x|]; cbn; [destruct (String.eqb x "")|]; reflexivity. Qed.

Lemma sendable_app h1 h2 :
  Headers.sendable h1 = true -> Headers.sendable h2 = true ->
  Headers.sendable (h1 ++ h2)%list = true.
Proof.
  intros H1 H2. unfold Headers.sendable in *. rewrite forallb_app.
  now rewrite H1, H2.
Qed.

End EnvFacts.

(* ------------------------------------------------------------------ *)
(** ** Authentication and token refresh *)

Module AuthFacts.
Import FMC Spec.

Lemma authenticate_closed c v :
  _client c = false -> _authenticate (c, v) = (Raise not_initialized, (c, v)).
Proof.
  intros H. unfold _authenticate, self, bind, gets. simpl. now rewrite H.
Qed.

(** [_authenticate] on a connected client, by the server's answer. *)
Lemma authenticate_eq c v :
  _client c = true ->
  _authenticate (c, v) =
  match script v with
  | Respond r :: rest =>
      if status_code r =? 204
      then (Ok tt, (authenticated r c, exchanged (generatetoken (settings c)) rest v))
      else (Raise (auth_failed r),
            (c, exchanged (generatetoken (settings c)) rest v))
  | Broken :: rest =>
      (Raise TransportError, (c, exchanged (generatetoken (settings c)) rest v))
  | [] =>
      (Raise TransportError,
       (c, exchanged (generatetoken (settings c)) [] v))
  end.
Proof.
  intros H. unfold _authenticate, self, bind, gets, http_call. simpl. rewrite H.
  simpl. unfold exchanged, generatetoken.
  destruct (script v) as [|[r|] rest] eqn:Hs; simpl;
    [unfold log_event; now rewrite Hs | | reflexivity].
  destruct (status_code r =? 204); simpl; [|reflexivity].
  unfold authenticated, assign, modify, on_self, ret. simpl.
  destruct (PyStr.truthy (_domain_uuid c)); simpl; [reflexivity|].
  destruct (PyStr.truthy (Headers.get (resp_headers r) "DOMAIN_UUID"));
    reflexivity.
Qed.

Lemma authenticate_resets_counter w w' :
  _authenticate w = (Ok tt, w') -> _refresh_count (fst w') = 0.
Proof.
  destruct w as [c v]. destruct (_client c) eqn:Hc.
  - rewrite (authenticate_eq _ v Hc).
    destruct (script v) as [|[r|] rest]; try discriminate.
    destruct (status_code r =? 204); [|discriminate].
    intros H. inversion H; subst. cbn [fst]. unfold authenticated.
    destruct (PyStr.truthy (_domain_uuid c)); [reflexivity|].
    destruct (PyStr.truthy (Headers.get (resp_headers r) "DOMAIN_UUID"));
      reflexivity.
  - rewrite (authenticate_closed _ v Hc). discriminate.
Qed.

(** The guard at the top of [_refresh_auth_token]. *)
Lemma refresh_skipped c v :
  _client c = false \/ PyStr.truthy (_refresh_token c) = false ->
  _refresh_auth_token (c, v) = (Ok false, (c, v)).
Proof.
  intros H. unfold _refresh_auth_token, self, bind, gets. simpl.
  destruct H as [H|H]; rewrite H; [reflexivity|].
  now rewrite orb_true_r.
Qed.

(** At the ceiling the whole call is a re-authentication. *)
Lemma refresh_at_ceiling c v :
  _client c = true -> PyStr.truthy (_refresh_token c) = true ->
  _max_refreshes c <= _refresh_count c ->
  _refresh_auth_token (c, v) = (_authenticate ;; ret true) (c, v).
Proof.
  intros Hc Ht Hn. unfold _refresh_auth_token, self. unfold bind at 1 2.
  unfold gets at 1 2. simpl. rewrite Hc, Ht. simpl.
  unfold bind at 1 2. unfold gets at 1 2. simpl.
  assert (Hge : (_refresh_count c >=? _max_refreshes c) = true)
    by (apply Z.geb_le; lia).
  now rewrite Hge.
Qed.

(** Below the ceiling a 204 answer to the refresh request replaces the
    tokens and counts one more refresh. *)
Lemma refresh_204 c v r rest :
  _client c = true -> PyStr.truthy (_refresh_token c) = true ->
  _refresh_count c < _max_refreshes c ->
  script v = Respond r :: rest -> status_code r = 204 ->
  _refresh_auth_token (c, v) =
  (Ok true, (refreshed r c, exchanged (refreshtoken c) rest v)).
Proof.
  intros Hc Ht Hn Hs H204. unfold _refresh_auth_token, self. unfold bind at 1 2.
  unfold gets at 1 2. simpl. rewrite Hc, Ht. simpl.
  unfold bind at 1 2. unfold gets at 1 2. simpl.
  assert (Hge : (_refresh_count c >=? _max_refreshes c) = false)
    by (rewrite Z.geb_leb; apply Z.leb_gt; lia).
  rewrite Hge. unfold try_except, refresh_attempt, self. unfold bind at 1 2 3.
  unfold gets at 1 2. cbn [fst snd]. rewrite EnvFacts.http_call_eq.
  rewrite EnvFacts.sendable_app by apply EnvFacts.sendable_optional.
  rewrite Hs, H204. reflexivity.
Qed.

End AuthFacts.

(** C3 (as the code has it). On a connected client authentication
    succeeds exactly when the token-generation answer has status 204; the
    two tokens then take the values of their headers, [None] for a header
    that is missing. Any other status raises [RuntimeError] with the
    status code in its message (the body is only logged) and leaves the
    client as it was. *)
Theorem authenticate_succeeds_iff_204 (c : FMCClient) (v : Env)
        (r : Response) (rest : list Reply) :
  _client c = true ->
  script v = Respond r :: rest ->
  let out := FMC._authenticate (c, v) in
  (fst out = Ok tt <-> status_code r = 204)
  /\ (status_code r = 204 ->
      _access_token (fst (snd out)) = Headers.get (resp_headers r) "X-auth-access-token"
      /\ _refresh_token (fst (snd out)) = Headers.get (resp_headers r) "X-auth-refresh-token")
  /\ (status_code r <> 204 ->
      fst out = Raise (RuntimeError ("FMC authentication failed: "
                                       ++ PyStr.of_Z (status_code r)))
      /\ fst (snd out) = c).
Proof.
  intros Hc Hs out. unfold out. rewrite (AuthFacts.authenticate_eq c v Hc), Hs.
  destruct (status_code r =? 204) eqn:E.
  - apply Z.eqb_eq in E. cbn [fst snd]. split; [tauto|]. split; [|congruence].
    intros _. unfold Spec.authenticated.
    destruct (PyStr.truthy (_domain_uuid c)); [split; reflexivity|].
    destruct (PyStr.truthy (Headers.get (resp_headers r) "DOMAIN_UUID"));
      split; reflexivity.
  - apply Z.eqb_neq in E. cbn [fst snd]. split; [|split].
    + split; [intros H; discriminate H | congruence].
    + congruence.
    + intros _. split; reflexivity.
Qed.

Lemma authenticate_succeeds_iff_204_witness :
  let c := FMC.set_client true (Fixture.fresh Fixture.test_settings) in
  let v := Fixture.env_of [Respond (Fixture.token_response "A1" "R1")] in
  let out := FMC._authenticate (c, v) in
  (fst out = Ok tt <-> 204 = 204)
  /\ (204 = 204 ->
      _access_token (fst (snd out)) = Some "A1"
      /\ _refresh_token (fst (snd out)) = Some "R1")
  /\ (204 <> 204 ->
      fst out = Raise (RuntimeError "FMC authentication failed: 204")
      /\ fst (snd out) = c).
Proof.
  intros c v.
  exact (authenticate_succeeds_iff_204 c v (Fixture.token_response "A1" "R1") []
           eq_refl eq_refl).
Defined.

(** C3 fails as stated: a 204 answer that carries neither token header
    still authenticates, leaving both tokens unset, and a refused
    authentication raises an error whose message holds the status code
    but nothing of the body. *)
Lemma authenticate_204_without_tokens :
  let c := FMC.set_client true (Fixture.fresh Fixture.test_settings) in
  let out := FMC._authenticate (c, Fixture.env_of [Respond (Fixture.status_only 204)]) in
  let refused :=
    FMC._authenticate
      (c, Fixture.env_of [Respond (mkResponse 401 [] "bad credentials" None)]) in
  Headers.get (resp_headers (Fixture.status_only 204)) "X-auth-access-token" = None
  /\ Headers.get (resp_headers (Fixture.status_only 204)) "X-auth-refresh-token" = None
  /\ fst out = Ok tt
  /\ _access_token (fst (snd out)) = None
  /\ _refresh_token (fst (snd out)) = None
  /\ fst refused = Raise (RuntimeError "FMC authentication failed: 401").
Proof. vm_compute. repeat split. Qed.

(** C4 (as the code has it). A full re-authentication that succeeds
    leaves the refresh counter at 0; a refresh answered by 204 adds
    exactly 1 to it; and once the counter has reached the ceiling of 3, a
    refresh attempt made while a refresh token is held is a full
    re-authentication: it issues the token-generation request and no
    refresh request. *)
Theorem refresh_counter_discipline (c : FMCClient) (v : Env) :
  _client c = true ->
  _max_refreshes c = 3 ->
  PyStr.truthy (_refresh_token c) = true ->
  (forall w', FMC._authenticate (c, v) = (Ok tt, w') -> _refresh_count (fst w') = 0)
  /\ (forall r rest,
        script v = Respond r :: rest -> status_code r = 204 ->
        exists w', FMC._authenticate (c, v) = (Ok tt, w'))
  /\ (forall r rest,
        _refresh_count c < 3 ->
        script v = Respond r :: rest -> status_code r = 204 ->
        exists c',
          FMC._refresh_auth_token (c, v)
          = (Ok true, (c', Spec.exchanged (Spec.refreshtoken c) rest v))
          /\ _refresh_count c' = _refresh_count c + 1)
  /\ (3 <= _refresh_count c ->
      FMC._refresh_auth_token (c, v) = (FMC._authenticate ;; ret true)%py (c, v)
      /\ exists reply,
          trace (snd (snd (FMC._refresh_auth_token (c, v))))
          = (trace v ++ [Spec.generatetoken (settings c)])%list
          /\ script v = (reply ++ script (snd (snd (FMC._refresh_auth_token (c, v)))))%list
          /\ (List.length reply <= 1)%nat).
Proof.
  intros Hc Hmax Ht. split; [|split; [|split]].
  - intros w'. apply AuthFacts.authenticate_resets_counter.
  - intros r rest Hs H204. rewrite (AuthFacts.authenticate_eq c v Hc), Hs, H204.
    cbn. eauto.
  - intros r rest Hn Hs H204. exists (Spec.refreshed r c). split.
    + apply AuthFacts.refresh_204; auto. lia.
    + reflexivity.
  - intros Hn. split.
    + apply AuthFacts.refresh_at_ceiling; auto. lia.
    + rewrite AuthFacts.refresh_at_ceiling by (auto; lia).
      unfold bind. rewrite (AuthFacts.authenticate_eq c v Hc).
      destruct (script v) as [|[r|] rest].
      * exists []. cbn. auto.
      * exists [Respond r]. destruct (status_code r =? 204); cbn; auto.
      * exists [Broken]. cbn. auto.
Qed.

Lemma refresh_counter_discipline_witness :
  let c := FMC.set_refresh_count 3
             (FMC.set_refresh_token (Some "R1")
                (FMC.set_client true (Fixture.fresh Fixture.test_settings))) in
  let v := Fixture.env_of [Respond (Fixture.token_response "A2" "R2")] in
  FMC._refresh_auth_token (c, v) = (FMC._authenticate ;; ret true)%py (c, v)
  /\ exists reply,
      trace (snd (snd (FMC._refresh_auth_token (c, v))))
      = (trace v ++ [Spec.generatetoken (settings c)])%list
      /\ script v = (reply ++ script (snd (snd (FMC._refresh_auth_token (c, v)))))%list
      /\ (List.length reply <= 1)%nat.
Proof.
  intros c v.
  apply (refresh_counter_discipline c v eq_refl eq_refl eq_refl). cbn. lia.
Defined.

(** C4 fails as stated: a 204 refresh answer without the refresh-token
    header leaves the counter at 3 with no refresh token held, and the
    next refresh attempt then returns [False] at once, with neither a
    re-authentication nor a refresh request; the 401-triggered retry goes
    out with the token already held. *)
Lemma ceiling_without_refresh_token :
  let w3 := snd Fixture.after_three_refreshes in
  let out := FMC.get 1 Fixture.serverversion [] w3 in
  _client (fst w3) = true
  /\ _refresh_count (fst w3) = 3
  /\ _refresh_token (fst w3) = None
  /\ FMC._refresh_auth_token w3 = (Ok false, w3)
  /\ Spec.exchanges (snd (snd out))
     = (Spec.exchanges (snd w3)
          ++ [Http "GET" Fixture.serverversion [("X-auth-access-token", Some "A4")] [];
              Http "GET" Fixture.serverversion [("X-auth-access-token", Some "A4")] []])%list.
Proof. vm_compute. repeat split. Qed.

(** C2 (as the code has it). [close] never fails and leaves the client
    disconnected; on a connected client it clears the access token and
    the refresh token; the refresh counter and the domain identifier keep
    their values; the environment is untouched, and a second [close]
    changes nothing. *)
Theorem close_clears_tokens_only (w : World FMCClient) :
  let out := FMC.close w in
  fst out = Ok tt
  /\ _client (fst (snd out)) = false
  /\ _access_token (fst (snd out))
     = (if _client (fst w) then None else _access_token (fst w))
  /\ _refresh_token (fst (snd out))
     = (if _client (fst w) then None else _refresh_token (fst w))
  /\ _refresh_count (fst (snd out)) = _refresh_count (fst w)
  /\ _domain_uuid (fst (snd out)) = _domain_uuid (fst w)
  /\ snd (snd out) = snd w
  /\ FMC.close (snd out) = (Ok tt, snd out).
Proof.
  destruct w as [c v]. unfold FMC.close, FMC.self, FMC.assign, bind, gets, modify.
  cbn [fst snd]. destruct (_client c) eqn:Hc; cbn.
  - repeat split; reflexivity.
  - rewrite Hc. repeat split; reflexivity.
Qed.

(** C2 fails as stated: after a session that discovered its domain and
    refreshed once, [close] leaves the counter at 1 and the discovered
    domain in place. *)
Lemma close_keeps_counter_and_domain :
  let out := Fixture.refreshed_then_closed in
  fst out = Ok tt
  /\ _client (fst (snd out)) = false
  /\ _access_token (fst (snd out)) = None
  /\ _refresh_token (fst (snd out)) = None
  /\ _refresh_count (fst (snd out)) = 1
  /\ _domain_uuid (fst (snd out)) = Some "dom-1".
Proof. vm_compute. repeat split. Qed.

(* ------------------------------------------------------------------ *)
(** ** Request dispatch *)

Module RequestFacts.
Import FMC Spec.

Lemma exchanges_sleep v d : exchanges (advance d v) = exchanges v.
Proof.
  unfold exchanges, advance. cbn [trace]. rewrite filter_app. cbn.
  now rewrite app_nil_r.
Qed.

(** Waiting for a token neither talks to the server nor consumes its
    answers. *)
Lemma wait_loop_quiet fuel : forall rl v r w',
    RL.wait_loop fuel (rl, v) = (r, w') ->
    script (snd w') = script v /\ exchanges (snd w') = exchanges v.
Proof.
  induction fuel as [|fuel IH]; intros rl v r w' Hrun.
  - rewrite RLFacts.wait_loop_0 in Hrun.
    destruct (RL.ltb (tokens rl) 1); inversion Hrun; subst; auto.
  - rewrite RLFacts.wait_loop_S in Hrun.
    destruct (RL.ltb (tokens rl) 1).
    + destruct (Qeq_bool (refill_rate rl) 0).
      * inversion Hrun; subst; auto.
      * cbv zeta in Hrun. apply IH in Hrun. destruct Hrun as [H1 H2].
        rewrite H1, H2. split; [reflexivity | apply exchanges_sleep].
    + inversion Hrun; subst; auto.
Qed.

Lemma acquire_quiet fuel rl v r w' :
  RL.acquire fuel (rl, v) = (r, w') ->
  script (snd w') = script v /\ exchanges (snd w') = exchanges v.
Proof.
  rewrite RLFacts.acquire_eq.
  destruct (RL.wait_loop fuel (RL.refilled (clock v) rl, v)) as [r1 [rl1 v1]] eqn:Hl.
  apply wait_loop_quiet in Hl. cbn [snd] in Hl.
  destruct r1; intros H; inversion H; subst; exact Hl.
Qed.

Lemma acquire_token_eq fuel c v :
  acquire_token fuel (c, v) =
  let (r, s) := RL.acquire fuel (_rate_limiter c, v) in
  (r, (set_rate_limiter (fst s) c, snd s)).
Proof. reflexivity. Qed.

(** On a ready client the token is granted; only the limiter, the clock
    and the sleeps of the trace change. *)
Lemma acquire_token_ready fuel c v :
  ready c ->
  exists rl' v',
    acquire_token (S fuel) (c, v) = (Ok tt, (set_rate_limiter rl' c, v'))
    /\ script v' = script v /\ exchanges v' = exchanges v
    /\ capacity rl' = capacity (_rate_limiter c)
    /\ refill_rate rl' = refill_rate (_rate_limiter c).
Proof.
  intros (Hc & Hcap & Hrate & Hsem). rewrite acquire_token_eq.
  destruct (RLFacts.acquire_returns fuel (_rate_limiter c) v Hcap Hrate)
    as [[rl' v'] Hacq].
  rewrite Hacq. exists rl', v'. split; [reflexivity|].
  pose proof (acquire_quiet _ _ _ _ _ Hacq) as [H1 H2].
  pose proof (RLFacts.acquire_inv _ _ _ _ _ Hacq) as (_ & H3 & H4 & _).
  auto.
Qed.

(** What [entered] keeps of a ready client and its environment. *)
Lemma entered_ready fuel c v :
  ready c ->
  let w := entered (S fuel) (c, v) in
  acquire_token (S fuel) (c, v) = (Ok tt, on_self give_permit w)
  /\ settings (fst w) = settings c
  /\ _client (fst w) = true
  /\ _access_token (fst w) = _access_token c
  /\ _refresh_token (fst w) = _refresh_token c
  /\ _domain_uuid (fst w) = _domain_uuid c
  /\ _refresh_count (fst w) = _refresh_count c
  /\ _max_refreshes (fst w) = _max_refreshes c
  /\ _connection_semaphore (fst w) = _connection_semaphore c - 1
  /\ script (snd w) = script v
  /\ exchanges (snd w) = exchanges v.
Proof.
  intros Hr. pose proof Hr as (Hc & _).
  destruct (acquire_token_ready fuel c v Hr) as (rl' & v' & Hacq & Hs & He & _).
  unfold entered. rewrite Hacq. cbn.
  repeat split; auto.
  unfold give_permit, take_permit, on_self. cbn.
  replace (_connection_semaphore c - 1 + 1) with (_connection_semaphore c) by lia.
  destruct c; reflexivity.
Qed.

(** [_request] on a ready client: the exchange runs in the entered
    world and the permit is given back whatever its outcome. *)
Lemma request_eq fuel m p h ps c v :
  ready c ->
  _request (S fuel) m p h ps (c, v) =
  let (r, w') := exchange m p h ps (entered (S fuel) (c, v)) in
  (r, on_self give_permit w').
Proof.
  intros Hr. pose proof Hr as (Hc & _ & _ & Hsem).
  destruct (acquire_token_ready fuel c v Hr) as (rl' & v' & Hacq & _).
  unfold _request, self. unfold bind at 1. unfold gets at 1. cbn [fst snd].
  rewrite Hc. cbn [negb]. unfold bind at 1. unfold entered. rewrite Hacq.
  unfold with_semaphore. cbn [fst snd].
  assert (Hle : (_connection_semaphore (set_rate_limiter rl' c) <=? 0) = false)
    by (apply Z.leb_gt; cbn; lia).
  rewrite Hle. reflexivity.
Qed.

Lemma request_closed fuel m p h ps c v :
  _client c = false ->
  _request fuel m p h ps (c, v) = (Raise not_initialized, (c, v)).
Proof.
  intros Hc. unfold _request, self, bind, gets. cbn [fst snd]. now rewrite Hc.
Qed.

End RequestFacts.

Module DispatchFacts.
Import FMC Spec.

(** The exchange of a client that holds an access token, by the first
    answer of the server. *)
Lemma exchange_eq m p h ps c v :
  Headers.sendable h = true -> _access_token c <> None ->
  exchange m p h ps (c, v) =
  let h1 := Headers.set h "X-auth-access-token" (_access_token c) in
  match script v with
  | Respond r :: rest =>
      (rh <- on_401 m p h1 ps r ;; on_429 m p (snd rh) ps (fst rh))
        (c, exchanged (Http m p h1 ps) rest v)
  | Broken :: rest =>
      (Raise TransportError, (c, exchanged (Http m p h1 ps) rest v))
  | [] => (Raise TransportError, (c, exchanged (Http m p h1 ps) [] v))
  end.
Proof.
  intros Hh Ht. unfold exchange, self. unfold bind at 1. unfold gets at 1.
  cbn [fst snd]. unfold bind at 1. rewrite EnvFacts.http_call_eq.
  destruct (_access_token c) as [t|]; [|congruence].
  rewrite (EnvFacts.sendable_set h _ t Hh).
  destruct (script v) as [|[r|] rest]; reflexivity.
Qed.

(** Without an access token the header dict cannot be sent. *)
Lemma exchange_without_token m p h ps c v :
  _access_token c = None ->
  exchange m p h ps (c, v) = (Raise TypeError, (c, v)).
Proof.
  intros Ht. unfold exchange, self. unfold bind at 1. unfold gets at 1.
  cbn [fst snd]. unfold bind at 1. rewrite EnvFacts.http_call_eq, Ht.
  assert (Hs : forall h', Headers.sendable (Headers.set h' "X-auth-access-token" None)
                          = false).
  { unfold Headers.sendable. induction h' as [|[k x] h' IH]; cbn; [reflexivity|].
    destruct (String.eqb k "X-auth-access-token"); cbn; [reflexivity|].
    rewrite IH. apply andb_false_r. }
  now rewrite Hs.
Qed.

Lemma on_401_other m p h ps r w :
  status_code r <> 401 -> on_401 m p h ps r w = (Ok (r, h), w).
Proof.
  intros H. unfold on_401. apply Z.eqb_neq in H. now rewrite H.
Qed.

(** The 401 branch: one refresh attempt, then one call with the token
    held after it. *)
Lemma on_401_eq m p h ps r w :
  status_code r = 401 ->
  on_401 m p h ps r w =
  match _refresh_auth_token w with
  | (Ok _, (c2, v2)) =>
      let h2 := Headers.set h "X-auth-access-token" (_access_token c2) in
      match http_call m p h2 ps (c2, v2) with
      | (Ok r2, w3) => (Ok (r2, h2), w3)
      | (Raise e, w3) => (Raise e, w3)
      | (Diverge, w3) => (Diverge, w3)
      end
  | (Raise e, w2) => (Raise e, w2)
  | (Diverge, w2) => (Diverge, w2)
  end.
Proof.
  intros H. unfold on_401. rewrite H. cbn [Z.eqb Pos.eqb]. unfold bind at 1.
  destruct (_refresh_auth_token w) as [[b| |] [c2 v2]]; reflexivity.
Qed.

Lemma on_429_other m p h ps r w :
  status_code r <> 429 -> on_429 m p h ps r w = (Ok r, w).
Proof.
  intros H. unfold on_429. apply Z.eqb_neq in H. now rewrite H.
Qed.

(** The 429 branch when the header is absent or reads as an integer:
    one sleep of that many seconds (60 by default), then one call whose
    answer is returned whatever its status. *)
Lemma on_429_retry m p h ps r c v n :
  status_code r = 429 ->
  PyStr.int (Headers.get_default (resp_headers r) "Retry-After" "60") = Some n ->
  on_429 m p h ps r (c, v) = http_call m p h ps (c, advance (inject_Z n) v).
Proof.
  intros H Hn. unfold on_429. rewrite H, Hn. reflexivity.
Qed.

Lemma retry_after_absent r :
  Headers.get (resp_headers r) "Retry-After" = None ->
  PyStr.int (Headers.get_default (resp_headers r) "Retry-After" "60") = Some 60.
Proof. intros H. unfold Headers.get_default. now rewrite H. Qed.

(** The 429 branch when the header does not read as an integer. *)
Lemma on_429_unparseable m p h ps r w :
  status_code r = 429 ->
  PyStr.int (Headers.get_default (resp_headers r) "Retry-After" "60") = None ->
  on_429 m p h ps r w = (Raise ValueError, w).
Proof.
  intros H Hn. unfold on_429. rewrite H, Hn. reflexivity.
Qed.

End DispatchFacts.

(** C6 (as the code has it). When the first answer to a request of a
    ready client that holds an access token is a 401,
    [_refresh_auth_token] runs once in the world reached by that
    exchange. If it returns and leaves an access token, the call is
    issued once more with that token, and whatever answer comes that is
    not a 429 (a second 401 in particular) is returned with nothing else
    done: the final world is the one after the refresh plus that single
    exchange; [raise_for_status] then makes a second 401 an
    [HTTPStatusError] for the callers that check the status. If the
    refresh step raises, its exception leaves [_request] and no retry is
    issued. *)
Theorem request_401_single_refresh_and_retry
        (fuel : nat) (m p : string) (h : list (string * option string))
        (ps : list (string * string)) (w : World FMCClient)
        (r1 : Response) (rest : list Reply) :
  Spec.ready (fst w) ->
  Headers.sendable h = true ->
  _access_token (fst w) <> None ->
  script (snd w) = Respond r1 :: rest ->
  status_code r1 = 401 ->
  let w0 := Spec.entered (S fuel) w in
  let h1 := Headers.set h "X-auth-access-token" (_access_token (fst w)) in
  let w1 := (fst w0, Spec.exchanged (Http m p h1 ps) rest (snd w0)) in
  (forall b w2 r2 rest2,
      FMC._refresh_auth_token w1 = (Ok b, w2) ->
      _access_token (fst w2) <> None ->
      script (snd w2) = Respond r2 :: rest2 ->
      status_code r2 <> 429 ->
      let h2 := Headers.set h1 "X-auth-access-token" (_access_token (fst w2)) in
      let w3 := (Spec.give_permit (fst w2),
                 Spec.exchanged (Http m p h2 ps) rest2 (snd w2)) in
      FMC._request (S fuel) m p h ps w = (Ok r2, w3)
      /\ (status_code r2 = 401 ->
          FMC.raise_for_status r2 w3 = (Raise (HTTPStatusError r2), w3)))
  /\ (forall e w2,
        FMC._refresh_auth_token w1 = (Raise e, w2) ->
        FMC._request (S fuel) m p h ps w = (Raise e, on_self Spec.give_permit w2)).
Proof.
  destruct w as [c v]. intros Hr Hh Htok Hs H401 w0 h1 w1.
  cbn [fst snd] in Hr, Hs, h1, Htok.
  pose proof (RequestFacts.entered_ready fuel c v Hr) as Hent. cbv zeta in Hent.
  fold w0 in Hent.
  destruct Hent as (_ & _ & _ & Hacc & _ & _ & _ & _ & _ & Hscr & _).
  assert (Hh1 : Headers.sendable h1 = true).
  { unfold h1. destruct (_access_token c) as [t|]; [|congruence].
    now apply EnvFacts.sendable_set. }
  assert (Hreq : FMC._request (S fuel) m p h ps (c, v)
                 = let (r, w') :=
                     (rh <- FMC.on_401 m p h1 ps r1 ;;
                      FMC.on_429 m p (snd rh) ps (fst rh))%py w1 in
                   (r, on_self Spec.give_permit w')).
  { rewrite (RequestFacts.request_eq fuel m p h ps c v Hr). fold w0.
    unfold w1, h1. destruct w0 as [c0 v0]. cbn [fst snd] in *.
    rewrite DispatchFacts.exchange_eq by (auto; congruence).
    cbv zeta. now rewrite Hscr, Hs, Hacc. }
  rewrite Hreq. unfold bind.
  rewrite DispatchFacts.on_401_eq by assumption.
  split.
  - intros b [c2 v2] r2 rest2 Href Htok2 Hs2 H429. rewrite Href.
    cbv zeta. rewrite EnvFacts.http_call_eq. cbn [fst snd] in *.
    destruct (_access_token c2) as [t2|] eqn:Et2; [|congruence].
    rewrite (EnvFacts.sendable_set h1 _ t2 Hh1), Hs2.
    cbn [fst snd]. rewrite DispatchFacts.on_429_other by assumption.
    split; [reflexivity|].
    intros H2. unfold FMC.raise_for_status, is_success. rewrite H2. reflexivity.
  - intros e w2 Href. rewrite Href. reflexivity.
Qed.

Lemma request_401_single_refresh_and_retry_witness :
  FMC._request 1 "GET" Fixture.serverversion [] [] Fixture.stale_session
  = (Ok (Fixture.status_only 401),
     snd (FMC._request 1 "GET" Fixture.serverversion [] [] Fixture.stale_session)).
Proof.
  pose (w := Fixture.stale_session).
  pose (w0 := Spec.entered 1 w).
  pose (h1 := Headers.set [] "X-auth-access-token" (_access_token (fst w))).
  pose (w1 := (fst w0,
               Spec.exchanged (Http "GET" Fixture.serverversion h1 [])
                 [Respond (Fixture.token_response "new-token" "new-refresh-token");
                  Respond (Fixture.status_only 401)]
                 (snd w0))).
  assert (Hready : Spec.ready (fst w)).
  { vm_compute. repeat split; intros H; discriminate H. }
  assert (Htoken : _access_token (fst w) <> None).
  { vm_compute. intros H; discriminate H. }
  destruct (request_401_single_refresh_and_retry
              0 "GET" Fixture.serverversion [] [] w (Fixture.status_only 401)
              [Respond (Fixture.token_response "new-token" "new-refresh-token");
               Respond (Fixture.status_only 401)]
              Hready eq_refl Htoken eq_refl eq_refl) as [Hretry _].
  destruct (Hretry true (snd (FMC._refresh_auth_token w1)) (Fixture.status_only 401) [])
    as [Heq _].
  - vm_compute. reflexivity.
  - vm_compute. intros H; discriminate H.
  - vm_compute. reflexivity.
  - vm_compute. intros H; discriminate H.
  - fold w. rewrite Heq. reflexivity.
Defined.

(** C6 fails as stated: when the refresh is refused and the fallback
    re-authentication is refused too, the [RuntimeError] of
    [_authenticate] leaves [_request]; the call that met the 401 is not
    issued a second time. *)
Lemma request_401_without_retry :
  let out := Fixture.refused_reauth in
  fst out = Raise (RuntimeError "FMC authentication failed: 403")
  /\ Spec.exchanges (snd (snd out))
     = [Spec.generatetoken Fixture.test_settings;
        Http "GET" Fixture.serverversion [("X-auth-access-token", Some "old-token")] [];
        Http "POST" "/api/fmc_platform/v1/auth/refreshtoken"
             [("X-auth-access-token", Some "old-token");
              ("X-auth-refresh-token", Some "refresh-token")] [];
        Spec.generatetoken Fixture.test_settings;
        Spec.generatetoken Fixture.test_settings]
  /\ script (snd (snd out)) = [Respond (Fixture.json_ok (JObj []))].
Proof. vm_compute. repeat split. Qed.

(** X12 (supporting C1). On a ready client a 429 whose [Retry-After] is
    absent or reads as an integer [n] is followed by one sleep of [n]
    seconds and one more call, whose answer is returned whatever its
    status. *)
Lemma request_429_sleeps_and_retries_once
      (fuel : nat) (m p : string) (h : list (string * option string))
      (ps : list (string * string)) (w : World FMCClient)
      (r1 r2 : Response) (rest : list Reply) (n : Z) :
  Spec.ready (fst w) ->
  Headers.sendable h = true ->
  _access_token (fst w) <> None ->
  script (snd w) = Respond r1 :: Respond r2 :: rest ->
  status_code r1 = 429 ->
  PyStr.int (Headers.get_default (resp_headers r1) "Retry-After" "60") = Some n ->
  let w0 := Spec.entered (S fuel) w in
  let call := Http m p (Headers.set h "X-auth-access-token" (_access_token (fst w))) ps in
  FMC._request (S fuel) m p h ps w
  = (Ok r2,
     (Spec.give_permit (fst w0),
      Spec.exchanged call rest
        (advance (inject_Z n) (Spec.exchanged call (Respond r2 :: rest) (snd w0))))).
Proof.
  destruct w as [c v]. intros Hr Hh Htok Hs H429 Hn w0 call.
  cbn [fst snd] in Hr, Hs, call, Htok.
  pose proof (RequestFacts.entered_ready fuel c v Hr) as Hent. cbv zeta in Hent.
  fold w0 in Hent.
  destruct Hent as (_ & _ & _ & Hacc & _ & _ & _ & _ & _ & Hscr & _).
  rewrite (RequestFacts.request_eq fuel m p h ps c v Hr). fold w0.
  unfold call. destruct w0 as [c0 v0]. cbn [fst snd] in *.
  rewrite DispatchFacts.exchange_eq by (auto; congruence).
  cbv zeta. rewrite Hscr, Hs, Hacc.
  unfold bind. rewrite DispatchFacts.on_401_other by (rewrite H429; discriminate).
  cbn [fst snd]. rewrite (DispatchFacts.on_429_retry _ _ _ _ _ _ _ n H429 Hn).
  rewrite EnvFacts.http_call_eq.
  destruct (_access_token c) as [t|]; [|congruence].
  rewrite (EnvFacts.sendable_set h _ t Hh). reflexivity.
Qed.

(** On a ready client a 429 whose [Retry-After] does not read as an
    integer makes [_request] raise [ValueError] right after the exchange
    that met it: nothing is slept and nothing more is sent. *)
Lemma request_429_unparseable_raises
      (fuel : nat) (m p : string) (h : list (string * option string))
      (ps : list (string * string)) (w : World FMCClient)
      (r1 : Response) (rest : list Reply) :
  Spec.ready (fst w) ->
  Headers.sendable h = true ->
  _access_token (fst w) <> None ->
  script (snd w) = Respond r1 :: rest ->
  status_code r1 = 429 ->
  PyStr.int (Headers.get_default (resp_headers r1) "Retry-After" "60") = None ->
  let w0 := Spec.entered (S fuel) w in
  let call := Http m p (Headers.set h "X-auth-access-token" (_access_token (fst w))) ps in
  FMC._request (S fuel) m p h ps w
  = (Raise ValueError,
     (Spec.give_permit (fst w0), Spec.exchanged call rest (snd w0))).
Proof.
  destruct w as [c v]. intros Hr Hh Htok Hs H429 Hn w0 call.
  cbn [fst snd] in Hr, Hs, call, Htok.
  pose proof (RequestFacts.entered_ready fuel c v Hr) as Hent. cbv zeta in Hent.
  fold w0 in Hent.
  destruct Hent as (_ & _ & _ & Hacc & _ & _ & _ & _ & _ & Hscr & _).
  rewrite (RequestFacts.request_eq fuel m p h ps c v Hr). fold w0.
  unfold call. destruct w0 as [c0 v0]. cbn [fst snd] in *.
  rewrite DispatchFacts.exchange_eq by (auto; congruence).
  cbv zeta. rewrite Hscr, Hs, Hacc.
  unfold bind. rewrite DispatchFacts.on_401_other by (rewrite H429; discriminate).
  cbn [fst snd]. rewrite DispatchFacts.on_429_unparseable by assumption.
  reflexivity.
Qed.

(** C1 at the failing input: a 429 whose [Retry-After] holds an HTTP
    date makes [_request] raise [ValueError]; no sleep is taken and the
    retry is never issued (the next answer stays unread). *)
Theorem retry_after_http_date_raises :
  let out := Fixture.rate_limited_with_date in
  resp_headers Fixture.busy_until_date
  = [("Retry-After", "Wed, 21 Oct 2015 07:28:00 GMT")]
  /\ fst out = Raise ValueError
  /\ trace (snd (snd out))
     = [Spec.generatetoken Fixture.test_settings;
        Http "GET" Fixture.serverversion [("X-auth-access-token", Some "A1")] []]
  /\ script (snd (snd out)) = [Respond (Fixture.json_ok (JObj []))].
Proof. vm_compute. repeat split. Qed.

(* ------------------------------------------------------------------ *)
(** ** Pagination *)

Module PageFacts.
Import FMC Spec.

(** One iteration of the loop of [get_all_items]. *)
Lemma page_loop_S afuel fuel ep ex off acc w :
  page_loop afuel (S fuel) ep ex off acc w =
  match get afuel ep (page_params ex off) w with
  | (Ok r, w') =>
      if is_success r then
        match json_body r with
        | Some data =>
            match page_step data off acc with
            | Stop all_items => (Ok all_items, w')
            | Next all_items =>
                page_loop afuel fuel ep ex (off + limit) all_items w'
            | Fault e => (Raise e, w')
            end
        | None => (Raise JSONDecodeError, w')
        end
      else (Raise (HTTPStatusError r), w')
  | (Raise e, w') => (Raise e, w')
  | (Diverge, w') => (Diverge, w')
  end.
Proof.
  cbn [page_loop]. unfold bind at 1.
  destruct (get afuel ep (page_params ex off) w) as [[r| |] w']; try reflexivity.
  unfold bind at 1. unfold raise_for_status.
  destruct (is_success r); [|reflexivity].
  unfold ret at 1. unfold bind at 1. unfold json_of.
  destruct (json_body r) as [data|]; [|reflexivity].
  unfold ret at 1.
  destruct (page_step data off acc); reflexivity.
Qed.

Lemma dict_get_missing kv key d :
  Json.has_key kv key = false -> Json.dict_get kv key d = d.
Proof.
  induction kv as [|[k x] kv IH]; cbn; [reflexivity|].
  destruct (String.eqb k key); [discriminate | exact IH].
Qed.

(** The decision of an iteration on a page whose items are a list and
    whose declared count is an integer. *)
Lemma page_step_empty kv off acc :
  Json.dict_get kv "items" (JArr []) = JArr [] ->
  page_step (JObj kv) off acc = Stop acc.
Proof. intros H. unfold page_step. now rewrite H. Qed.

Lemma page_step_items kv paging items total off acc :
  Json.dict_get kv "items" (JArr []) = JArr items ->
  items <> [] ->
  Json.dict_get kv "paging" (JObj []) = JObj paging ->
  Json.dict_get paging "count" (JNum 0) = JNum total ->
  page_step (JObj kv) off acc =
  if off + 1000 >=? total then Stop (acc ++ items)%list
  else Next (acc ++ items)%list.
Proof.
  intros Hi Hne Hp Hc. unfold page_step. rewrite Hi, Hp, Hc.
  destruct items; [congruence|]. reflexivity.
Qed.

End PageFacts.



(** The scenario of [test_get_devices]: both devices come back and the
    session shows the token request and a single page request. *)
Example two_devices_one_page_request :
  let out := FMC.get_devices 1 Fixture.devices_session in
  fst out = Ok [JObj [("name", JStr "FTD-01")]; JObj [("name", JStr "FTD-02")]]
  /\ Spec.exchanges (snd (snd out))
     = [Spec.generatetoken Fixture.test_settings;
        Http "GET" Fixture.devices_endpoint
             [("X-auth-access-token", Some "test-access-token")]
             [("limit", "1000"); ("offset", "0"); ("expanded", "true")]].
Proof. vm_compute. split; reflexivity. Qed.

(** C10. When the first page is fetched with a success status and holds a
    non-empty item list, but its body has no paging envelope, or an
    envelope without a count, the count read is 0, the count check holds
    at once and [get_all_items] returns that page's items in the world
    left by that single page fetch: no further request is issued. *)
Theorem get_all_items_without_count_returns_first_page
        (fuel : nat) (ep : string) (ex : bool) (w w' : World FMCClient)
        (r : Response) (kv : list (string * json)) (x : json) (items : list json) :
  FMC.get (S fuel) ep (FMC.page_params ex 0) w = (Ok r, w') ->
  is_success r = true ->
  json_body r = Some (JObj kv) ->
  Json.dict_get kv "items" (JArr []) = JArr (x :: items) ->
  (Json.has_key kv "paging" = false
   \/ exists paging,
       Json.dict_get kv "paging" (JObj []) = JObj paging
       /\ Json.has_key paging "count" = false) ->
  (exists paging,
      Json.dict_get kv "paging" (JObj []) = JObj paging
      /\ Json.dict_get paging "count" (JNum 0) = JNum 0)
  /\ FMC.get_all_items (S fuel) ep ex w = (Ok (x :: items), w').
Proof.
  intros Hget Hok Hbody Hitems Hpaging.
  assert (Hp : exists paging,
             Json.dict_get kv "paging" (JObj []) = JObj paging
             /\ Json.dict_get paging "count" (JNum 0) = JNum 0).
  { destruct Hpaging as [Hno | (paging & Hp & Hno)].
    - exists []. split; [now apply PageFacts.dict_get_missing | reflexivity].
    - exists paging. split; [assumption | now apply PageFacts.dict_get_missing]. }
  split; [exact Hp|]. destruct Hp as (paging & Hp & Hc).
  unfold FMC.get_all_items.
  rewrite PageFacts.page_loop_S, Hget, Hok, Hbody.
  rewrite (PageFacts.page_step_items kv paging (x :: items) 0 0 [])
    by (try assumption; discriminate).
  reflexivity.
Qed.

Lemma get_all_items_without_count_returns_first_page_witness :
  FMC.get_all_items 1 Fixture.devices_endpoint true Fixture.no_envelope_session
  = (Ok [JStr "a"; JStr "b"],
     snd (FMC.get 1 Fixture.devices_endpoint (FMC.page_params true 0)
            Fixture.no_envelope_session))
  /\ script (snd (snd (FMC.get_all_items 1 Fixture.devices_endpoint true
                         Fixture.no_envelope_session)))
     = [Respond (Fixture.json_ok Fixture.no_envelope)].
Proof.
  split.
  - apply (get_all_items_without_count_returns_first_page
             0 Fixture.devices_endpoint true Fixture.no_envelope_session
             (snd (FMC.get 1 Fixture.devices_endpoint (FMC.page_params true 0)
                     Fixture.no_envelope_session))
             (Fixture.json_ok Fixture.no_envelope)
             [("items", JArr [JStr "a"; JStr "b"])] (JStr "a") [JStr "b"]);
      try reflexivity.
    left. reflexivity.
  - vm_compute. reflexivity.
Defined.

(* ------------------------------------------------------------------ *)
(** ** The convenience reads *)

Module ReadFacts.
Import FMC Spec.

(** A read that is [get_all_items] on an endpoint of the session's
    domain. *)
Lemma domain_read_eq fuel suffix w :
  (endpoint <- self (fun c => domain_endpoint c suffix) ;;
   get_all_items fuel endpoint true)%py w
  = get_all_items fuel (domain_endpoint (fst w) suffix) true w.
Proof. destruct w as [c v]. reflexivity. Qed.

Lemma get_deployable_devices_eq fuel w :
  get_deployable_devices fuel w =
  match get_all_items fuel
          (domain_endpoint (fst w) "/deployment/deployabledevices") true w with
  | (Raise (HTTPStatusError r), w') =>
      if status_code r =? 403 then (Ok [], w')
      else (Raise (HTTPStatusError r), w')
  | out => out
  end.
Proof.
  destruct w as [c v]. unfold get_deployable_devices, self.
  unfold bind at 1. unfold gets at 1. cbn [fst snd]. unfold try_except.
  destruct (get_all_items fuel
              (domain_endpoint c "/deployment/deployabledevices") true (c, v))
    as [[l|e|] w']; try reflexivity.
  destruct e; try reflexivity. cbn [is_http_status_error].
  destruct (status_code response =? 403); reflexivity.
Qed.

(** A page request answered by a status outside 2xx, 401 and 429 makes
    [get_all_items] raise the [HTTPStatusError] of that answer. *)
Lemma get_all_items_error_status fuel ep ex c v r rest :
  ready c ->
  _access_token c <> None ->
  script v = Respond r :: rest ->
  is_success r = false -> status_code r <> 401 -> status_code r <> 429 ->
  exists w', get_all_items (S fuel) ep ex (c, v) = (Raise (HTTPStatusError r), w').
Proof.
  intros Hr Htok Hs Hok H401 H429. unfold get_all_items.
  rewrite PageFacts.page_loop_S. unfold get.
  rewrite (RequestFacts.request_eq fuel "GET" ep [] (page_params ex 0) c v Hr).
  pose proof (RequestFacts.entered_ready fuel c v Hr) as Hent. cbv zeta in Hent.
  destruct Hent as (_ & _ & _ & Hacc & _ & _ & _ & _ & _ & Hscr & _).
  destruct (entered (S fuel) (c, v)) as [c0 v0]. cbn [fst snd] in Hscr, Hacc.
  rewrite DispatchFacts.exchange_eq by (auto; congruence).
  cbv zeta. rewrite Hscr, Hs.
  unfold bind. rewrite DispatchFacts.on_401_other by assumption.
  cbn [fst snd]. rewrite DispatchFacts.on_429_other by assumption.
  rewrite Hok. eauto.
Qed.

End ReadFacts.

(** C8. When fetching the deployable devices fails with an
    [HTTPStatusError], [get_deployable_devices] returns the empty list
    if the status is 403 and lets the error through otherwise. No other
    read has this tolerance: the reads of device records, network
    objects and host objects let every [HTTPStatusError] of their fetch
    through, a 403 included; and [get_json], with the reads of the
    server version and of the domain information that go through it,
    raises the [HTTPStatusError] of every answer of the request that is
    not a success, a 403 included. *)
Theorem deployable_devices_tolerates_403_only
        (fuel : nat) (w w' : World FMCClient) (suffix : string) (r : Response)
        (path : string) (params : list (string * string))
        (r0 : Response) (w0 : World FMCClient) :
  (FMC.get_all_items fuel (FMC.domain_endpoint (fst w) suffix) true w
   = (Raise (HTTPStatusError r), w') ->
   (suffix = "/deployment/deployabledevices" ->
    (status_code r = 403 -> FMC.get_deployable_devices fuel w = (Ok [], w'))
    /\ (status_code r <> 403 ->
        FMC.get_deployable_devices fuel w = (Raise (HTTPStatusError r), w')))
   /\ (suffix = "/devices/devicerecords" ->
       FMC.get_devices fuel w = (Raise (HTTPStatusError r), w'))
   /\ (suffix = "/object/networks" ->
       FMC.get_network_objects fuel w = (Raise (HTTPStatusError r), w'))
   /\ (suffix = "/object/hosts" ->
       FMC.get_host_objects fuel w = (Raise (HTTPStatusError r), w')))
  /\ (FMC.get fuel path params w = (Ok r0, w0) ->
      (status_code r0 = 403 -> is_success r0 = false)
      /\ (is_success r0 = false ->
          FMC.get_json fuel path params w = (Raise (HTTPStatusError r0), w0)
          /\ (path = "/api/fmc_platform/v1/info/serverversion" -> params = [] ->
              FMC.get_server_version fuel w = (Raise (HTTPStatusError r0), w0))
          /\ (path = "/api/fmc_platform/v1/info/domain" -> params = [] ->
              FMC.get_domain_info fuel w = (Raise (HTTPStatusError r0), w0)))).
Proof.
  split.
  - intros Hfetch. split; [|split; [|split]]; intros ->.
    + rewrite ReadFacts.get_deployable_devices_eq, Hfetch. split; intros H.
      * now rewrite H.
      * apply Z.eqb_neq in H. now rewrite H.
    + unfold FMC.get_devices. now rewrite ReadFacts.domain_read_eq.
    + unfold FMC.get_network_objects. now rewrite ReadFacts.domain_read_eq.
    + unfold FMC.get_host_objects. now rewrite ReadFacts.domain_read_eq.
  - intros Hget. split.
    + intros H403. unfold is_success. rewrite H403. reflexivity.
    + intros Hbad.
      assert (Hjson : FMC.get_json fuel path params w
                      = (Raise (HTTPStatusError r0), w0)).
      { unfold FMC.get_json. unfold bind at 1. rewrite Hget.
        unfold bind at 1. unfold FMC.raise_for_status. now rewrite Hbad. }
      split; [exact Hjson|].
      split; intros -> ->; exact Hjson.
Qed.

Lemma deployable_devices_tolerates_403_only_witness :
  FMC.get_deployable_devices 1 Fixture.forbidden_session
  = (Ok [],
     snd (FMC.get_all_items 1 Fixture.deployable_endpoint true
            Fixture.forbidden_session))
  /\ FMC.get_server_version 1 Fixture.forbidden_session
     = (Raise (HTTPStatusError (Fixture.status_only 403)),
        snd (FMC.get 1 Fixture.serverversion [] Fixture.forbidden_session))
  /\ fst (FMC.get_devices 1 Fixture.forbidden_session)
     = Raise (HTTPStatusError (Fixture.status_only 403)).
Proof.
  destruct (deployable_devices_tolerates_403_only
              1 Fixture.forbidden_session
              (snd (FMC.get_all_items 1 Fixture.deployable_endpoint true
                      Fixture.forbidden_session))
              "/deployment/deployabledevices" (Fixture.status_only 403)
              Fixture.serverversion [] (Fixture.status_only 403)
              (snd (FMC.get 1 Fixture.serverversion [] Fixture.forbidden_session)))
    as [Hlist Hjson].
  split; [|split].
  - apply Hlist; reflexivity.
  - destruct Hjson as [H403 Hraise]; [vm_compute; reflexivity|].
    apply Hraise; [apply H403|..]; reflexivity.
  - vm_compute. reflexivity.
Defined.

(* ------------------------------------------------------------------ *)
(** ** Invariants of a session *)

Module InvFacts.
Import FMC Spec.

Lemma preserves_ret {St A} (I : St -> Prop) (a : A) : preserves I (ret a).
Proof. intros s r s' H. inversion H; subst. auto. Qed.

Lemma preserves_raise {St A} (I : St -> Prop) e : preserves I (@raise St A e).
Proof. intros s r s' H. inversion H; subst. auto. Qed.

Lemma preserves_diverge {St A} (I : St -> Prop) : preserves I (@diverge St A).
Proof. intros s r s' H. inversion H; subst. auto. Qed.

Lemma preserves_gets {St A} (I : St -> Prop) (f : St -> A) : preserves I (gets f).
Proof. intros s r s' H. inversion H; subst. auto. Qed.

Lemma preserves_bind {St A B} (I : St -> Prop) (m : M St A) (k : A -> M St B) :
  preserves I m -> (forall a, preserves I (k a)) -> preserves I (bind m k).
Proof.
  intros Hm Hk s r s' Hrun Hs. unfold bind in Hrun.
  destruct (m s) as [[a|e|] s1] eqn:E.
  - eapply Hk; eauto.
  - inversion Hrun; subst. eauto.
  - inversion Hrun; subst. eauto.
Qed.

Lemma preserves_try {St A} (I : St -> Prop) (m : M St A) handles h :
  preserves I m -> (forall e, preserves I (h e)) ->
  preserves I (try_except m handles h).
Proof.
  intros Hm Hh s r s' Hrun Hs. unfold try_except in Hrun.
  destruct (m s) as [[a|e|] s1] eqn:E.
  - inversion Hrun; subst. eauto.
  - destruct (handles e).
    + eapply Hh; eauto.
    + inversion Hrun; subst. eauto.
  - inversion Hrun; subst. eauto.
Qed.

Section Invariant.
Variable I : World FMCClient -> Prop.

(** The invariant depends on the environment only through the
    answers still to come, and survives their consumption. *)
Hypothesis I_env :
  forall c v v',
    (exists pre, script v = (pre ++ script v')%list) -> I (c, v) -> I (c, v').

(** It depends on the client only through the stored domain. *)
Hypothesis I_self :
  forall c c' v, _domain_uuid c' = _domain_uuid c -> I (c, v) -> I (c', v).

Hypothesis I_auth : preserves I _authenticate.






















End Invariant.

End InvFacts.

Module DomainFacts.
Import FMC Spec.







End DomainFacts.



(** With nothing configured, an identifier disclosed by the token answer
    is the one used from then on. *)
Example discovered_domain_is_used :
  FMC.domain_uuid
    (fst (Spec.session 1 [Spec.Connect; Spec.GetDevices]
            (Fixture.fresh Fixture.bare_settings, Fixture.env_of Fixture.disclosing)))
  = "other-domain".
Proof. vm_compute. reflexivity. Qed.

(* ------------------------------------------------------------------ *)
(** ** Scenarios of the test suite *)

(** [test_acquire_token] and [test_multiple_acquires]. *)
Example acquire_takes_one_token :
  let out := RL.acquire 1 (RL.init 10 1 0, Fixture.env_of []) in
  fst out = Ok tt /\ (tokens (fst (snd out)) == 9)%Q.
Proof. vm_compute. split; reflexivity. Qed.

Example three_acquires_take_three_tokens :
  let w := (RL.init 5 1 0, Fixture.env_of []) in
  let obs := RL.observe 1 [RL.Acquire; RL.Acquire; RL.Acquire] w in
  map (fun x => snd (fst x)) obs = [Ok tt; Ok tt; Ok tt]
  /\ (tokens (fst (snd (last obs (RL.Acquire, Ok tt, w)))) == 2)%Q.
Proof. vm_compute. split; reflexivity. Qed.

(** An empty bucket makes [acquire] sleep for the missing fraction of a
    token over the rate. *)
Example acquire_on_empty_bucket_sleeps :
  let w := (RL.init 1 2 0, Fixture.env_of []) in
  let obs := RL.observe 1 [RL.Acquire; RL.Acquire] w in
  map (fun x => snd (fst x)) obs = [Ok tt; Ok tt]
  /\ map (fun x => trace (snd (snd x))) obs = [[]; [Sleep ((1 - 0) / 2)]].
Proof. vm_compute. split; reflexivity. Qed.

(** [test_token_refresh_on_401]. *)
Example token_refresh_on_401 :
  let out := Fixture.refresh_session in
  fst out = Ok (JObj [("serverVersion", JStr "7.4.2.3")])
  /\ _access_token (fst (snd out)) = Some "new-token"
  /\ _refresh_count (fst (snd out)) = 1.
Proof. vm_compute. repeat split. Qed.

(** Pagination over several pages, and its stop on an empty page while
    the declared count still promises more. *)
Example three_pages_three_requests :
  let out := Fixture.three_pages in
  fst out = Ok [JStr "a"; JStr "b"; JStr "c"]
  /\ map (fun e => match e with
                   | Http _ _ _ params => params
                   | Sleep _ => []
                   end) (Spec.exchanges (snd (snd out)))
     = [[]; [("limit", "1000"); ("offset", "0")];
        [("limit", "1000"); ("offset", "1000")];
        [("limit", "1000"); ("offset", "2000")]].
Proof. vm_compute. split; reflexivity. Qed.

Example empty_page_stops_the_loop :
  let out := Fixture.dry_second_page in
  fst out = Ok [JStr "a"]
  /\ script (snd (snd out)) = [Fixture.page [JStr "c"] 5000].
Proof. vm_compute. split; reflexivity. Qed.

(* ================================================================== *)
(** * Further properties *)

(* ------------------------------------------------------------------ *)
(** ** The limiter at and beyond its design range *)

Module RLMore.
Import RL.

(** A refill with a non-negative rate and a clock that has not gone back
    takes nothing out of the bucket, up to the capacity. *)
Lemma refilled_keeps rl now m :
  (0 <= refill_rate rl)%Q -> (last_refill rl <= now)%Q ->
  (m <= tokens rl)%Q -> (m <= inject_Z (capacity rl))%Q ->
  (m <= tokens (refilled now rl))%Q.
Proof.
  intros Hrate Hnow Hm Hcap. unfold refilled. cbn [tokens].
  apply Q.min_glb; [exact Hcap|].
  assert (H : (0 <= (now - last_refill rl) * refill_rate rl)%Q).
  { apply Qmult_le_0_compat; lra. }
  lra.
Qed.

Lemma acquire_available fuel rl v :
  (0 <= refill_rate rl)%Q -> (last_refill rl <= clock v)%Q ->
  (1 <= tokens rl)%Q -> (1 <= inject_Z (capacity rl))%Q ->
  acquire fuel (rl, v)
  = (Ok tt, (set_tokens (tokens (refilled (clock v) rl) - 1) (refilled (clock v) rl), v)).
Proof.
  intros Hrate Hnow Ht Hcap. rewrite RLFacts.acquire_eq.
  rewrite RLFacts.wait_loop_done; [reflexivity|].
  now apply refilled_keeps.
Qed.

End RLMore.

(** X1. While a fresh limiter with a non-negative rate is asked for no
    more tokens than its capacity, no [acquire] suspends: every
    operation returns, whatever the fuel, and the trace gains no sleep
    (nor anything else), whatever time passes in between. *)
Theorem acquire_within_capacity_never_sleeps
        (cap : Z) (rate : Q) (v : Env) (fuel : nat) (ops : list RL.Op) :
  (0 <= rate)%Q ->
  RLSpec.demand ops <= cap ->
  let obs := RL.observe fuel ops (RL.init cap rate (clock v), v) in
  List.length obs = List.length ops
  /\ Forall (fun x : RL.Op * Result unit * World RateLimiter =>
               snd (fst x) = Ok tt /\ trace (snd (snd x)) = trace v)
            obs.
Proof.
  intros Hrate Hdem obs. unfold obs. clear obs.
  assert (Hgen : forall ops rl v0,
             refill_rate rl = rate -> capacity rl = cap ->
             (last_refill rl <= clock v0)%Q ->
             (inject_Z (RLSpec.demand ops) <= tokens rl)%Q ->
             RLSpec.demand ops <= cap ->
             List.length (RL.observe fuel ops (rl, v0)) = List.length ops
             /\ Forall (fun x : RL.Op * Result unit * World RateLimiter =>
                          snd (fst x) = Ok tt /\ trace (snd (snd x)) = trace v0)
                       (RL.observe fuel ops (rl, v0))).
  { clear ops Hdem v. induction ops as [|o ops IH]; intros rl v0 Hr Hc Hl Ht Hd.
    - cbn. split; [reflexivity | constructor].
    - assert (Hcap : forall m, m <= cap -> (inject_Z m <= inject_Z (capacity rl))%Q).
      { intros m Hm. rewrite Hc. now rewrite <- Zle_Qle. }
      destruct o as [d| |]; cbn [RL.observe RL.step].
      + (* time passes *)
        unfold modify, on_env. cbn [fst snd].
        set (v1 := mkEnv (clock v0 + Qmax 0 d) (jitter v0) (script v0) (trace v0)).
        assert (Hl1 : (last_refill rl <= clock v1)%Q).
        { cbn [v1 clock]. pose proof (Q.le_max_l 0 d). lra. }
        destruct (IH rl v1 Hr Hc Hl1 Ht Hd) as [IH1 IH2].
        split; [cbn; now rewrite IH1|].
        constructor; [split; reflexivity | exact IH2].
      + (* a refill *)
        unfold RL._refill, monotonic, bind, gets, modify, on_self. cbn [fst snd].
        set (rl1 := RL.refilled (clock v0) rl).
        assert (Hl1 : (last_refill rl1 <= clock v0)%Q) by (cbn; apply Qle_refl).
        assert (Ht1 : (inject_Z (RLSpec.demand ops) <= tokens rl1)%Q).
        { apply RLMore.refilled_keeps;
            [now rewrite Hr | exact Hl | exact Ht | apply Hcap; exact Hd]. }
        destruct (IH rl1 v0 Hr Hc Hl1 Ht1 Hd) as [IH1 IH2].
        split; [cbn; now rewrite IH1|].
        constructor; [split; reflexivity | exact IH2].
      + (* an acquire *)
        assert (Hsucc : RLSpec.demand (RL.Acquire :: ops) = RLSpec.demand ops + 1).
        { unfold RLSpec.demand. cbn [filter RLSpec.is_acquire List.length]. lia. }
        rewrite Hsucc in Ht, Hd. rewrite inject_Z_plus in Ht.
        assert (Hnn : 0 <= RLSpec.demand ops) by (unfold RLSpec.demand; lia).
        assert (Hq : (0 <= inject_Z (RLSpec.demand ops))%Q).
        { change 0%Q with (inject_Z 0). now rewrite <- Zle_Qle. }
        assert (Hone : (1 <= inject_Z (capacity rl))%Q).
        { change 1%Q with (inject_Z 1). apply Hcap. lia. }
        change (inject_Z 1) with 1%Q in Ht.
        assert (Hrate' : (0 <= refill_rate rl)%Q) by now rewrite Hr.
        assert (Hone' : (1 <= tokens rl)%Q) by lra.
        rewrite (RLMore.acquire_available fuel rl v0 Hrate' Hl Hone' Hone).
        set (rl1 := RL.refilled (clock v0) rl).
        assert (Ht1 : (inject_Z (RLSpec.demand ops) + 1 <= tokens rl1)%Q).
        { apply RLMore.refilled_keeps; [exact Hrate' | exact Hl | exact Ht |].
          change 1%Q with (inject_Z 1). rewrite <- inject_Z_plus. apply Hcap. exact Hd. }
        set (rl2 := RL.set_tokens (tokens rl1 - 1) rl1).
        assert (Hl2 : (last_refill rl2 <= clock v0)%Q) by (cbn; apply Qle_refl).
        assert (Ht2 : (inject_Z (RLSpec.demand ops) <= tokens rl2)%Q).
        { cbn [rl2 RL.set_tokens tokens]. lra. }
        assert (Hd2 : RLSpec.demand ops <= cap) by lia.
        destruct (IH rl2 v0 Hr Hc Hl2 Ht2 Hd2) as [IH1 IH2].
        split; [cbn; now rewrite IH1|].
        constructor; [split; reflexivity | exact IH2]. }
  apply Hgen; auto.
  - cbn. apply Qle_refl.
  - cbn. now rewrite <- Zle_Qle.
Qed.

Lemma acquire_within_capacity_never_sleeps_witness :
  let ops := [RL.Acquire; RL.Tick (1 # 3); RL.Acquire; RL.Refill; RL.Acquire] in
  let obs := RL.observe 0 ops (RL.init 3 (1 # 2) 0, Fixture.env_of []) in
  List.length obs = 5%nat
  /\ Forall (fun x : RL.Op * Result unit * World RateLimiter =>
               snd (fst x) = Ok tt /\ trace (snd (snd x)) = [])
            obs.
Proof.
  intros ops.
  apply (acquire_within_capacity_never_sleeps 3 (1 # 2) (Fixture.env_of []) 0 ops).
  - unfold Qle. cbn. lia.
  - vm_compute. intros H; discriminate H.
Defined.

Module RLEdge.
Import RL.

Lemma ltb_lt t : (t < 1)%Q -> ltb t 1 = true.
Proof.
  intros H. unfold ltb. apply negb_true_iff.
  destruct (Qle_bool 1 t) eqn:E; [|reflexivity].
  apply Qle_bool_iff in E. lra.
Qed.

(** With a zero rate a refill adds nothing. *)
Lemma refilled_zero_rate now rl :
  (refill_rate rl == 0)%Q -> (tokens rl < 1)%Q -> (tokens (refilled now rl) < 1)%Q.
Proof.
  intros Hr Ht. unfold refilled. cbn [tokens].
  eapply Qle_lt_trans; [apply Q.le_min_r|]. rewrite Hr. lra.
Qed.

Lemma acquire_zero_rate fuel rl v :
  (refill_rate rl == 0)%Q -> (tokens rl < 1)%Q ->
  acquire (S fuel) (rl, v) = (Raise ZeroDivisionError, (refilled (clock v) rl, v)).
Proof.
  intros Hr Ht. rewrite RLFacts.acquire_eq, RLFacts.wait_loop_S.
  rewrite (ltb_lt _ (refilled_zero_rate (clock v) rl Hr Ht)).
  change (refill_rate (refilled (clock v) rl)) with (refill_rate rl).
  assert (Hz : Qeq_bool (refill_rate rl) 0 = true) by now apply Qeq_bool_iff.
  now rewrite Hz.
Qed.

(** A bucket that can never hold a whole token keeps its caller waiting
    for ever. *)
Lemma wait_loop_starved fuel : forall rl v,
    capacity rl <= 0 -> ~ (refill_rate rl == 0)%Q -> bounded rl ->
    fst (wait_loop fuel (rl, v)) = Diverge
    /\ script (snd (snd (wait_loop fuel (rl, v)))) = script v
    /\ Spec.exchanges (snd (snd (wait_loop fuel (rl, v)))) = Spec.exchanges v.
Proof.
  induction fuel as [|fuel IH]; intros rl v Hcap Hrate Hb.
  - assert (Hlt : (tokens rl < 1)%Q).
    { unfold bounded in Hb. eapply Qle_lt_trans; [exact Hb|].
      change 1%Q with (inject_Z 1). rewrite <- Zlt_Qlt. lia. }
    rewrite RLFacts.wait_loop_0, (ltb_lt _ Hlt). auto.
  - assert (Hlt : (tokens rl < 1)%Q).
    { unfold bounded in Hb. eapply Qle_lt_trans; [exact Hb|].
      change 1%Q with (inject_Z 1). rewrite <- Zlt_Qlt. lia. }
    rewrite RLFacts.wait_loop_S, (ltb_lt _ Hlt).
    assert (Hz : Qeq_bool (refill_rate rl) 0 = false).
    { destruct (Qeq_bool (refill_rate rl) 0) eqn:E; [|reflexivity].
      apply Qeq_bool_iff in E. contradiction. }
    rewrite Hz. cbv zeta.
    destruct (IH (refilled (clock (advance ((1 - tokens rl) / refill_rate rl) v)) rl)
                 (advance ((1 - tokens rl) / refill_rate rl) v))
      as (H1 & H2 & H3); auto using RLFacts.refilled_bounded.
    rewrite H1, H2, H3. split; [reflexivity|]. split; [reflexivity|].
    apply RequestFacts.exchanges_sleep.
Qed.

Lemma acquire_starved fuel rl v :
  capacity rl <= 0 -> ~ (refill_rate rl == 0)%Q ->
  exists w', acquire fuel (rl, v) = (Diverge, w')
             /\ script (snd w') = script v
             /\ Spec.exchanges (snd w') = Spec.exchanges v.
Proof.
  intros Hcap Hrate. rewrite RLFacts.acquire_eq.
  destruct (wait_loop_starved fuel (refilled (clock v) rl) v) as (H1 & H2 & H3);
    auto using RLFacts.refilled_bounded.
  destruct (wait_loop fuel (refilled (clock v) rl, v)) as [r w'].
  cbn [fst snd] in *. subst r. eauto.
Qed.

End RLEdge.

(** X2. A connected client whose limiter has a zero refill rate and less
    than one token cannot send any request: [_request] raises
    [ZeroDivisionError] from the computation of the waiting time, before
    anything is sent, and leaves the limiter in the same condition. A
    client built from settings with a rate limit of 0 has such a
    limiter. *)
Theorem zero_rate_limit_blocks_every_request
        (fuel : nat) (m p : string) (h : list (string * option string))
        (ps : list (string * string)) (c : FMCClient) (v : Env) :
  _client c = true ->
  (refill_rate (_rate_limiter c) == 0)%Q ->
  (tokens (_rate_limiter c) < 1)%Q ->
  let rl' := RL.refilled (clock v) (_rate_limiter c) in
  FMC._request (S fuel) m p h ps (c, v)
  = (Raise ZeroDivisionError, (FMC.set_rate_limiter rl' c, v))
  /\ (refill_rate rl' == 0)%Q /\ (tokens rl' < 1)%Q
  /\ (forall s now c0,
         FMC.init s now = Ok c0 -> fmc_rate_limit s = 0 ->
         (refill_rate (_rate_limiter c0) == 0)%Q /\ (tokens (_rate_limiter c0) < 1)%Q).
Proof.
  intros Hc Hr Ht rl'. split; [|split; [|split]].
  - unfold FMC._request, FMC.self. unfold bind at 1. unfold gets at 1.
    cbn [fst snd]. rewrite Hc. cbn [negb]. unfold bind at 1.
    rewrite RequestFacts.acquire_token_eq.
    rewrite (RLEdge.acquire_zero_rate fuel _ v Hr Ht). reflexivity.
  - exact Hr.
  - now apply RLEdge.refilled_zero_rate.
  - intros s now c0 Hinit Hzero. unfold FMC.init in Hinit.
    destruct (fmc_max_connections s <? 0); [discriminate|].
    inversion Hinit; subst c0. cbn. rewrite Hzero. split; reflexivity.
Qed.

Lemma zero_rate_limit_blocks_every_request_witness :
  let s := mkSettings "fmc.test.local" "test" "test" false None 60 0 10 in
  let w := snd (FMC.connect
                  (Fixture.fresh s,
                   Fixture.env_of [Respond (Fixture.token_response "A1" "R1");
                                   Respond (Fixture.json_ok (JObj []))])) in
  fst (FMC._request 1 "GET" Fixture.serverversion [] [] w) = Raise ZeroDivisionError
  /\ script (snd (snd (FMC._request 1 "GET" Fixture.serverversion [] [] w)))
     = [Respond (Fixture.json_ok (JObj []))].
Proof.
  intros s w.
  destruct (zero_rate_limit_blocks_every_request
              0 "GET" Fixture.serverversion [] [] (fst w) (snd w))
    as [Heq _]; try reflexivity.
  change (fst w, snd w) with w in Heq. rewrite Heq. split; reflexivity.
Defined.

(** X3. A connected client whose limiter has a capacity of zero or less
    and a rate other than zero never gets a token: [_request] does not
    return, whatever the fuel, and nothing is sent meanwhile. A client
    built from settings with a negative rate limit has such a limiter. *)
Theorem starved_limiter_never_admits_a_request
        (fuel : nat) (m p : string) (h : list (string * option string))
        (ps : list (string * string)) (c : FMCClient) (v : Env) :
  _client c = true ->
  capacity (_rate_limiter c) <= 0 ->
  ~ (refill_rate (_rate_limiter c) == 0)%Q ->
  (fst (FMC._request fuel m p h ps (c, v)) = Diverge
   /\ script (snd (snd (FMC._request fuel m p h ps (c, v)))) = script v
   /\ Spec.exchanges (snd (snd (FMC._request fuel m p h ps (c, v)))) = Spec.exchanges v)
  /\ (forall s now c0,
         FMC.init s now = Ok c0 -> fmc_rate_limit s < 0 ->
         capacity (_rate_limiter c0) <= 0
         /\ ~ (refill_rate (_rate_limiter c0) == 0)%Q).
Proof.
  intros Hc Hcap Hrate. split.
  - unfold FMC._request, FMC.self. unfold bind at 1 3 5. unfold gets at 1 2 3.
    cbn [fst snd]. rewrite Hc. cbn [negb]. unfold bind.
    rewrite RequestFacts.acquire_token_eq.
    destruct (RLEdge.acquire_starved fuel (_rate_limiter c) v Hcap Hrate)
      as ([rl' v'] & Heq & Hs & He).
    rewrite Heq. cbn [fst snd] in *. auto.
  - intros s now c0 Hinit Hneg. unfold FMC.init in Hinit.
    destruct (fmc_max_connections s <? 0); [discriminate|].
    inversion Hinit; subst c0. cbn [_rate_limiter RL.init capacity refill_rate].
    split; [lia|]. intros H.
    assert (Hq : (inject_Z (fmc_rate_limit s) < 0)%Q).
    { change 0%Q with (inject_Z 0). now rewrite <- Zlt_Qlt. }
    assert (H60 : (inject_Z (fmc_rate_limit s) / 60 * 60 == inject_Z (fmc_rate_limit s))%Q)
      by (field).
    rewrite H in H60. lra.
Qed.

Lemma starved_limiter_never_admits_a_request_witness :
  let s := mkSettings "fmc.test.local" "test" "test" false None 60 (-5) 10 in
  let w := snd (FMC.connect
                  (Fixture.fresh s,
                   Fixture.env_of [Respond (Fixture.token_response "A1" "R1");
                                   Respond (Fixture.json_ok (JObj []))])) in
  fst (FMC._request 7 "GET" Fixture.serverversion [] [] w) = Diverge.
Proof.
  intros s w.
  destruct (starved_limiter_never_admits_a_request
              7 "GET" Fixture.serverversion [] [] (fst w) (snd w))
    as [[Heq _] _].
  - reflexivity.
  - vm_compute. intros H; discriminate H.
  - vm_compute. intros H; discriminate H.
  - exact Heq.
Defined.

(* ------------------------------------------------------------------ *)
(** ** The rate a limiter enforces *)

Module RateFacts.
Import RL RateSpec.

Section Rate.
Variable cap : Z.
Variables rate t0 : Q.
Hypothesis cap_nonneg : 0 <= cap.
Hypothesis rate_nonneg : (0 <= rate)%Q.

Lemma cap_nonneg_Q : (0 <= inject_Z cap)%Q.
Proof. change 0%Q with (inject_Z 0). now rewrite <- Zle_Qle. Qed.

Lemma refilled_within n rl v :
  within_rate cap rate t0 n (rl, v) ->
  within_rate cap rate t0 n (refilled (clock v) rl, v).
Proof.
  intros (Hc & Hr & Ht & Hl & Hn). cbn [fst snd] in *.
  unfold within_rate, refilled. cbn [fst snd capacity refill_rate tokens last_refill].
  pose proof cap_nonneg_Q as Hcap.
  assert (He : (0 <= (clock v - last_refill rl) * refill_rate rl)%Q).
  { apply Qmult_le_0_compat; [lra | now rewrite Hr]. }
  split; [exact Hc|]. split; [exact Hr|]. split.
  - apply Q.min_glb; [now rewrite Hc | lra].
  - split; [lra|].
    pose proof (Q.le_min_r (inject_Z (capacity rl))
                  (tokens rl + (clock v - last_refill rl) * refill_rate rl)) as Hm.
    rewrite Hr, Hc in Hm. rewrite Hr, Hc. lra.
Qed.

Lemma advance_clock d v : (clock v <= clock (advance d v))%Q.
Proof.
  unfold advance. cbn [clock].
  pose proof (Q.le_max_l 0 d).
  destruct (jitter v) as [|j js]; [lra|]. pose proof (Q.le_max_l 0 j). lra.
Qed.

Lemma wait_loop_within n fuel : forall rl v r w',
    wait_loop fuel (rl, v) = (r, w') ->
    within_rate cap rate t0 n (rl, v) ->
    within_rate cap rate t0 n w' /\ (r = Ok tt -> (1 <= tokens (fst w'))%Q).
Proof.
  induction fuel as [|fuel IH]; intros rl v r w' Hrun Hin.
  - rewrite RLFacts.wait_loop_0 in Hrun.
    destruct (ltb (tokens rl) 1) eqn:Hlt; inversion Hrun; subst;
      (split; [exact Hin|]); intros HH; [discriminate HH|].
    now apply RLFacts.ltb_false.
  - rewrite RLFacts.wait_loop_S in Hrun.
    destruct (ltb (tokens rl) 1) eqn:Hlt.
    + destruct (Qeq_bool (refill_rate rl) 0).
      * inversion Hrun; subst. split; [exact Hin|]. intros HH; discriminate HH.
      * cbv zeta in Hrun. apply IH in Hrun; [exact Hrun|].
        apply refilled_within.
        destruct Hin as (Hc & Hr & Ht & Hl & Hn). cbn [fst snd] in *.
        unfold within_rate. cbn [fst snd]. repeat split; auto.
        pose proof (advance_clock ((1 - tokens rl) / refill_rate rl) v). lra.
    + inversion Hrun; subst. split; [exact Hin|]. intros _.
      now apply RLFacts.ltb_false.
Qed.

(** What an operation grants, within the rate. *)
Lemma step_within fuel o n rl v r w' :
  step fuel o (rl, v) = (r, w') ->
  within_rate cap rate t0 n (rl, v) ->
  within_rate cap rate t0 (n + granted [(o, r, w')]) w'.
Proof.
  destruct o as [d| |]; cbn [step]; intros Hrun Hin.
  - unfold modify, on_env in Hrun. cbn [fst snd] in Hrun.
    inversion Hrun; subst r w'. unfold granted.
    cbn [filter is_granted List.length Z.of_nat]. rewrite Z.add_0_r.
    destruct Hin as (Hc & Hr & Ht & Hl & Hn). cbn [fst snd] in *.
    unfold within_rate. cbn [fst snd clock].
    split; [exact Hc|]. split; [exact Hr|]. split; [exact Ht|].
    split; [|exact Hn].
    pose proof (Q.le_max_l 0 d). lra.
  - unfold _refill, monotonic, bind, gets, modify in Hrun. cbn [fst snd] in Hrun.
    inversion Hrun; subst r w'. unfold granted.
    cbn [filter is_granted List.length Z.of_nat].
    rewrite Z.add_0_r. now apply refilled_within.
  - rewrite RLFacts.acquire_eq in Hrun.
    destruct (wait_loop fuel (refilled (clock v) rl, v)) as [r1 [rl1 v1]] eqn:Hloop.
    apply (wait_loop_within n) in Hloop; [|now apply refilled_within].
    destruct Hloop as [Hin1 Hone].
    destruct r1 as [[]| |]; inversion Hrun; subst r w'; unfold granted;
      cbn [filter is_granted List.length Z.of_nat]; rewrite ?Z.add_0_r; auto.
    specialize (Hone eq_refl). cbn [fst] in Hone.
    destruct Hin1 as (Hc & Hr & Ht & Hl & Hn). cbn [fst snd] in *.
    unfold within_rate, set_tokens.
    cbn [fst snd capacity refill_rate tokens last_refill].
    split; [exact Hc|]. split; [exact Hr|]. split; [lra|]. split; [exact Hl|].
    rewrite inject_Z_plus.
    change (inject_Z (Z.pos (Pos.of_succ_nat 0))) with 1%Q. lra.
Qed.

Lemma last_cons {A} (l : list A) : forall x d, List.last (x :: l) d = List.last l x.
Proof.
  induction l as [|y l IH]; intros x d; [reflexivity|].
  change (List.last (x :: y :: l) d) with (List.last (y :: l) d).
  now rewrite !IH.
Qed.

Lemma granted_cons x obs : granted (x :: obs) = granted [x] + granted obs.
Proof.
  unfold granted. cbn [filter]. destruct (is_granted x); cbn [List.length]; lia.
Qed.

Lemma observe_within fuel ops : forall n w,
    within_rate cap rate t0 n w ->
    within_rate cap rate t0 (n + granted (observe fuel ops w))
      (last_world (observe fuel ops w) w).
Proof.
  induction ops as [|o ops IH]; intros n [rl v] Hin.
  - unfold granted. cbn. now rewrite Z.add_0_r.
  - cbn [observe].
    destruct (step fuel o (rl, v)) as [r w'] eqn:Hstep.
    pose proof (step_within fuel o n rl v r w' Hstep Hin) as Hin'.
    assert (Hlast : forall rest,
               last_world ((o, r, w') :: rest) (rl, v) = last_world rest w').
    { intros rest. unfold last_world. cbn [map snd]. apply last_cons. }
    rewrite Hlast, granted_cons, Z.add_assoc.
    destruct r as [[]| |]; try (apply IH; exact Hin').
    unfold granted at 2. cbn [filter List.length Z.of_nat last_world map List.last].
    now rewrite Z.add_0_r.
Qed.

End Rate.

End RateFacts.

(** X28. The limiter enforces its rate. Along every sequence of
    operations on a fresh limiter with a capacity and a rate that are
    not negative, the number of [acquire] calls that have returned is at
    most the capacity plus the rate times the time that has passed
    since the limiter was created; the burst is bounded by the capacity
    and the sustained throughput by the refill rate, whatever the sleeps
    overshoot. *)
Theorem rate_limiter_enforces_its_rate
        (cap : Z) (rate : Q) (v : Env) (fuel : nat) (ops : list RL.Op) :
  0 <= cap -> (0 <= rate)%Q ->
  let w0 := (RL.init cap rate (clock v), v) in
  let obs := RL.observe fuel ops w0 in
  (inject_Z (RateSpec.granted obs)
   <= inject_Z cap + rate * (clock (snd (RateSpec.last_world obs w0)) - clock v))%Q.
Proof.
  intros Hcap Hrate w0 obs.
  assert (H0 : RateSpec.within_rate cap rate (clock v) 0 w0).
  { unfold RateSpec.within_rate, w0, RL.init.
    cbn [fst snd capacity refill_rate tokens last_refill].
    pose proof (RateFacts.cap_nonneg_Q cap Hcap).
    split; [reflexivity|]. split; [reflexivity|]. split; [assumption|].
    split; [apply Qle_refl|].
    change (inject_Z 0) with 0%Q. lra. }
  pose proof (RateFacts.observe_within cap rate (clock v) Hcap Hrate fuel ops 0 w0 H0)
    as (_ & _ & Ht & Hl & Hn).
  fold obs in Ht, Hl, Hn. rewrite Z.add_0_l in Hn.
  set (wl := RateSpec.last_world obs w0) in *.
  assert (Hmul : (0 <= rate * (clock (snd wl) - last_refill (fst wl)))%Q).
  { apply Qmult_le_0_compat; [exact Hrate | lra]. }
  lra.
Qed.

Lemma rate_limiter_enforces_its_rate_witness :
  let ops := [RL.Acquire; RL.Acquire; RL.Acquire; RL.Tick 1; RL.Acquire] in
  let w0 := (RL.init 2 (1 # 2) 0, Fixture.env_of []) in
  let obs := RL.observe 1 ops w0 in
  RateSpec.granted obs = 4
  /\ (inject_Z (RateSpec.granted obs)
      <= inject_Z 2 + (1 # 2) * (clock (snd (RateSpec.last_world obs w0)) - 0))%Q.
Proof.
  intros ops w0 obs. split; [vm_compute; reflexivity|].
  apply (rate_limiter_enforces_its_rate 2 (1 # 2) (Fixture.env_of []) 1 ops).
  - lia.
  - unfold Qle. cbn. lia.
Defined.

(* ------------------------------------------------------------------ *)
(** ** The connection life cycle *)

Module LifeFacts.
Import FMC Spec SessionSpec.

Lemma connect_connected c v :
  _client c = true -> connect (c, v) = (Ok tt, (c, v)).
Proof.
  intros H. unfold connect, self, bind, gets. cbn [fst snd]. now rewrite H.
Qed.

Lemma connect_disconnected c v :
  _client c = false -> connect (c, v) = _authenticate (set_client true c, v).
Proof.
  intros H. unfold connect, self. unfold bind at 1. unfold gets at 1.
  cbn [fst snd]. rewrite H. reflexivity.
Qed.

Lemma close_eq c v :
  close (c, v) = (Ok tt, (if _client c then closed c else c, v)).
Proof.
  unfold close, self, assign, bind, gets, modify. cbn [fst snd].
  destruct (_client c); reflexivity.
Qed.

Lemma closed_is_closed c : _client (if _client c then closed c else c) = false.
Proof. destruct (_client c) eqn:E; [reflexivity | exact E]. Qed.

(** The reads of a client that is not connected. *)
Lemma page_loop_closed afuel fuel ep ex off acc c v :
  _client c = false ->
  page_loop afuel (S fuel) ep ex off acc (c, v) = (Raise not_initialized, (c, v)).
Proof.
  intros H. rewrite PageFacts.page_loop_S. unfold get.
  now rewrite (RequestFacts.request_closed afuel "GET" ep [] _ c v H).
Qed.

Lemma get_json_closed fuel p ps c v :
  _client c = false ->
  get_json fuel p ps (c, v) = (Raise not_initialized, (c, v)).
Proof.
  intros H. unfold get_json, get. unfold bind at 1.
  now rewrite (RequestFacts.request_closed fuel "GET" p [] ps c v H).
Qed.

Lemma get_all_items_closed fuel ep ex c v :
  _client c = false ->
  get_all_items (S fuel) ep ex (c, v) = (Raise not_initialized, (c, v)).
Proof. intros H. unfold get_all_items. now apply page_loop_closed. Qed.

Lemma call_closed fuel k c v :
  _client c = false -> is_read k = true ->
  call (S fuel) k (c, v) = (Raise not_initialized, (c, v)).
Proof.
  intros H Hk.
  pose proof (fun p ps => get_json_closed (S fuel) p ps c v H) as Hj.
  pose proof (fun ep ex => get_all_items_closed fuel ep ex c v H) as Ha.
  destruct k; try discriminate Hk; cbn [call];
    unfold get_server_version, get_domain_info, get_devices, get_network_objects,
      get_host_objects, get_deployable_devices;
    unfold bind at 1; rewrite ?ReadFacts.domain_read_eq; rewrite ?Hj, ?Ha;
    try reflexivity.
  unfold self. unfold bind at 1. unfold gets at 1. cbn [fst snd].
  unfold try_except. now rewrite Ha.
Qed.

End LifeFacts.

Module RefreshFacts.
Import FMC Spec.

(** [_refresh_auth_token] below the ceiling, with a refresh token held:
    the [try] block and its handler. *)
Lemma refresh_below_ceiling c v :
  _client c = true -> PyStr.truthy (_refresh_token c) = true ->
  _refresh_count c < _max_refreshes c ->
  _refresh_auth_token (c, v)
  = try_except refresh_attempt (fun _ => true)
      (fun _ => _authenticate ;; ret true) (c, v).
Proof.
  intros Hc Ht Hn. unfold _refresh_auth_token, self. unfold bind at 1 2.
  unfold gets at 1 2. cbn [fst snd]. rewrite Hc, Ht. cbn [negb orb].
  unfold bind at 1 2. unfold gets at 1 2. cbn [fst snd].
  assert (Hge : (_refresh_count c >=? _max_refreshes c) = false)
    by (rewrite Z.geb_leb; apply Z.leb_gt; lia).
  now rewrite Hge.
Qed.

(** The refresh request and what its answer leads to. *)
Lemma refresh_attempt_eq c v :
  refresh_attempt (c, v) =
  match script v with
  | Respond r :: rest =>
      if status_code r =? 204
      then (Ok true, (refreshed r c, exchanged (refreshtoken c) rest v))
      else (_authenticate ;; ret true) (c, exchanged (refreshtoken c) rest v)
  | Broken :: rest =>
      (Raise TransportError, (c, exchanged (refreshtoken c) rest v))
  | [] => (Raise TransportError, (c, exchanged (refreshtoken c) [] v))
  end.
Proof.
  unfold refresh_attempt, self. unfold bind at 1 2 3. unfold gets at 1 2.
  cbn [fst snd]. rewrite EnvFacts.http_call_eq.
  rewrite EnvFacts.sendable_app by apply EnvFacts.sendable_optional.
  destruct (script v) as [|[r|] rest]; try reflexivity.
  destruct (status_code r =? 204); reflexivity.
Qed.

End RefreshFacts.

(** X4. Below the ceiling, a refresh that is answered by another status
    than 204, or that fails in transport, falls back to a full
    re-authentication: when the token answer is a 204 the call returns
    [True] with the tokens of that answer and the counter back at 0,
    after exactly the refresh request and one token request. *)
Theorem failed_refresh_falls_back_to_reauthentication
        (c : FMCClient) (v : Env) (a : Reply) (r : Response) (rest : list Reply) :
  _client c = true ->
  PyStr.truthy (_refresh_token c) = true ->
  _refresh_count c < _max_refreshes c ->
  script v = a :: Respond r :: rest ->
  (a = Broken \/ exists r0, a = Respond r0 /\ status_code r0 <> 204) ->
  status_code r = 204 ->
  FMC._refresh_auth_token (c, v)
  = (Ok true,
     (Spec.authenticated r c,
      Spec.exchanged (Spec.generatetoken (settings c)) rest
        (Spec.exchanged (Spec.refreshtoken c) (Respond r :: rest) v)))
  /\ _refresh_count (Spec.authenticated r c) = 0
  /\ _access_token (Spec.authenticated r c)
     = Headers.get (resp_headers r) "X-auth-access-token".
Proof.
  intros Hc Ht Hn Hs Ha H204.
  assert (Hauth : forall v1,
             script v1 = Respond r :: rest ->
             (FMC._authenticate ;; ret true)%py (c, v1)
             = (Ok true,
                (Spec.authenticated r c,
                 Spec.exchanged (Spec.generatetoken (settings c)) rest v1))).
  { intros v1 Hs1. unfold bind. rewrite (AuthFacts.authenticate_eq c v1 Hc), Hs1.
    rewrite H204. reflexivity. }
  split; [|split].
  - rewrite RefreshFacts.refresh_below_ceiling by assumption.
    unfold try_except. rewrite RefreshFacts.refresh_attempt_eq, Hs.
    destruct Ha as [-> | (r0 & -> & Hr0)].
    + apply Hauth. reflexivity.
    + apply Z.eqb_neq in Hr0. rewrite Hr0. rewrite Hauth by reflexivity. reflexivity.
  - unfold Spec.authenticated.
    destruct (PyStr.truthy (_domain_uuid c)); [reflexivity|].
    destruct (PyStr.truthy (Headers.get (resp_headers r) "DOMAIN_UUID")); reflexivity.
  - unfold Spec.authenticated.
    destruct (PyStr.truthy (_domain_uuid c)); [reflexivity|].
    destruct (PyStr.truthy (Headers.get (resp_headers r) "DOMAIN_UUID")); reflexivity.
Qed.

Lemma failed_refresh_falls_back_to_reauthentication_witness :
  let c := FMC.set_refresh_count 1
             (FMC.set_refresh_token (Some "R1")
                (FMC.set_access_token (Some "A1")
                   (FMC.set_client true (Fixture.fresh Fixture.test_settings)))) in
  let v := Fixture.env_of [Respond (Fixture.status_only 500);
                           Respond (Fixture.token_response "A2" "R2")] in
  fst (FMC._refresh_auth_token (c, v)) = Ok true
  /\ _refresh_count (fst (snd (FMC._refresh_auth_token (c, v)))) = 0.
Proof.
  intros c v.
  destruct (failed_refresh_falls_back_to_reauthentication
              c v (Respond (Fixture.status_only 500))
              (Fixture.token_response "A2" "R2") [])
    as (Heq & Hcount & _); try reflexivity.
  - right. exists (Fixture.status_only 500). split; [reflexivity | discriminate].
  - rewrite Heq. split; [reflexivity | exact Hcount].
Defined.

(** X5. When the refresh is answered by another status than 204 and the
    re-authentication that follows is refused as well, the handler of
    the [try] block authenticates once more: a third answer decides, and
    a 204 there makes the call return [True]; otherwise its status is
    the one reported. *)
Theorem refused_reauthentication_is_tried_twice
        (c : FMCClient) (v : Env) (r0 r1 r2 : Response) (rest : list Reply) :
  _client c = true ->
  PyStr.truthy (_refresh_token c) = true ->
  _refresh_count c < _max_refreshes c ->
  script v = Respond r0 :: Respond r1 :: Respond r2 :: rest ->
  status_code r0 <> 204 ->
  status_code r1 <> 204 ->
  let v3 :=
    Spec.exchanged (Spec.generatetoken (settings c)) rest
      (Spec.exchanged (Spec.generatetoken (settings c)) (Respond r2 :: rest)
         (Spec.exchanged (Spec.refreshtoken c) (Respond r1 :: Respond r2 :: rest) v)) in
  (status_code r2 = 204 ->
   FMC._refresh_auth_token (c, v) = (Ok true, (Spec.authenticated r2 c, v3)))
  /\ (status_code r2 <> 204 ->
      FMC._refresh_auth_token (c, v) = (Raise (Spec.auth_failed r2), (c, v3))).
Proof.
  intros Hc Ht Hn Hs H0 H1 v3.
  apply Z.eqb_neq in H0. apply Z.eqb_neq in H1.
  assert (Heq : FMC._refresh_auth_token (c, v)
                = (FMC._authenticate ;; ret true)%py
                    (c, Spec.exchanged (Spec.generatetoken (settings c))
                          (Respond r2 :: rest)
                          (Spec.exchanged (Spec.refreshtoken c)
                             (Respond r1 :: Respond r2 :: rest) v))).
  { rewrite RefreshFacts.refresh_below_ceiling by assumption.
    unfold try_except. rewrite RefreshFacts.refresh_attempt_eq, Hs, H0.
    unfold bind at 1. rewrite (AuthFacts.authenticate_eq c _ Hc).
    cbn [Spec.exchanged script]. rewrite H1. reflexivity. }
  rewrite Heq. unfold bind. rewrite (AuthFacts.authenticate_eq c _ Hc).
  cbn [Spec.exchanged script]. split; intros H2.
  - rewrite H2. reflexivity.
  - apply Z.eqb_neq in H2. rewrite H2. reflexivity.
Qed.

Lemma refused_reauthentication_is_tried_twice_witness :
  let c := FMC.set_refresh_token (Some "R1")
             (FMC.set_access_token (Some "A1")
                (FMC.set_client true (Fixture.fresh Fixture.test_settings))) in
  let v := Fixture.env_of [Respond (Fixture.status_only 500);
                           Respond (Fixture.status_only 503);
                           Respond (Fixture.token_response "A2" "R2")] in
  fst (FMC._refresh_auth_token (c, v)) = Ok true
  /\ Spec.exchanges (snd (snd (FMC._refresh_auth_token (c, v))))
     = [Spec.refreshtoken c; Spec.generatetoken Fixture.test_settings;
        Spec.generatetoken Fixture.test_settings].
Proof.
  intros c v.
  destruct (refused_reauthentication_is_tried_twice
              c v (Fixture.status_only 500) (Fixture.status_only 503)
              (Fixture.token_response "A2" "R2") [])
    as [Heq _]; try reflexivity; try discriminate.
  rewrite (Heq eq_refl). split; reflexivity.
Defined.

(** X6. A [connect] whose authentication is refused raises, yet leaves
    the client marked as connected, with its credentials as they were:
    calling [connect] again then returns at once, sending nothing, so
    the client stays unauthenticated until it is closed. *)
Theorem refused_connect_is_not_retried
        (c : FMCClient) (v : Env) (r : Response) (rest : list Reply) :
  _client c = false ->
  script v = Respond r :: rest ->
  status_code r <> 204 ->
  let out := FMC.connect (c, v) in
  out = (Raise (Spec.auth_failed r),
         (FMC.set_client true c,
          Spec.exchanged (Spec.generatetoken (settings c)) rest v))
  /\ _access_token (fst (snd out)) = _access_token c
  /\ FMC.connect (snd out) = (Ok tt, snd out).
Proof.
  intros Hc Hs Hr out.
  assert (Hout : out = (Raise (Spec.auth_failed r),
                        (FMC.set_client true c,
                         Spec.exchanged (Spec.generatetoken (settings c)) rest v))).
  { unfold out. rewrite (LifeFacts.connect_disconnected c v Hc).
    rewrite (AuthFacts.authenticate_eq (FMC.set_client true c) v eq_refl), Hs.
    apply Z.eqb_neq in Hr. rewrite Hr. reflexivity. }
  rewrite Hout. cbn [fst snd]. split; [reflexivity|]. split; [reflexivity|].
  apply LifeFacts.connect_connected. reflexivity.
Qed.

Lemma refused_connect_is_not_retried_witness :
  let c := Fixture.fresh Fixture.test_settings in
  let v := Fixture.env_of [Respond (Fixture.status_only 401);
                           Respond (Fixture.token_response "A1" "R1")] in
  fst (FMC.connect (c, v)) = Raise (RuntimeError "FMC authentication failed: 401")
  /\ (FMC.connect ;; FMC.connect)%py (snd (FMC.connect (c, v)))
     = (Ok tt, snd (FMC.connect (c, v))).
Proof.
  intros c v.
  destruct (refused_connect_is_not_retried c v (Fixture.status_only 401)
              [Respond (Fixture.token_response "A1" "R1")])
    as (Hout & _ & Hagain); try reflexivity; try discriminate.
  cbv zeta in Hout, Hagain. split.
  - rewrite Hout. reflexivity.
  - unfold bind. rewrite Hagain. exact Hagain.
Defined.

(** X7. After [close], every read of the client raises the
    not-initialized [RuntimeError] and leaves everything as it was: no
    rate-limiter token is taken, nothing is sent and no answer of the
    server is consumed. *)
Theorem reads_after_close_raise_and_send_nothing
        (fuel : nat) (k : Spec.Call) (w : World FMCClient) :
  SessionSpec.is_read k = true ->
  let w' := snd (FMC.close w) in
  Spec.call (S fuel) k w' = (Raise FMC.not_initialized, w')
  /\ snd w' = snd w
  /\ _rate_limiter (fst w') = _rate_limiter (fst w).
Proof.
  intros Hk w'. destruct w as [c v]. unfold w'. rewrite LifeFacts.close_eq.
  cbn [fst snd]. split; [|split].
  - apply LifeFacts.call_closed; [apply LifeFacts.closed_is_closed | exact Hk].
  - reflexivity.
  - destruct (_client c); reflexivity.
Qed.

Lemma reads_after_close_raise_and_send_nothing_witness :
  let w' := snd (FMC.close Fixture.devices_session) in
  Spec.call 1 Spec.GetDevices w' = (Raise FMC.not_initialized, w').
Proof.
  intros w'.
  apply (reads_after_close_raise_and_send_nothing 0 Spec.GetDevices
           Fixture.devices_session eq_refl).
Defined.

(** X8. Closing and connecting again renews the credentials only: with a
    204 token answer the tokens are those of the answer and the refresh
    counter is 0, while a domain identifier already stored survives
    (whatever the new answer discloses) and the rate limiter keeps its
    state. *)
Theorem reconnect_renews_credentials_only
        (c : FMCClient) (v : Env) (r : Response) (rest : list Reply) :
  script v = Respond r :: rest ->
  status_code r = 204 ->
  let out := (FMC.close ;; FMC.connect)%py (c, v) in
  fst out = Ok tt
  /\ _client (fst (snd out)) = true
  /\ _access_token (fst (snd out)) = Headers.get (resp_headers r) "X-auth-access-token"
  /\ _refresh_token (fst (snd out)) = Headers.get (resp_headers r) "X-auth-refresh-token"
  /\ _refresh_count (fst (snd out)) = 0
  /\ (PyStr.truthy (_domain_uuid c) = true ->
      _domain_uuid (fst (snd out)) = _domain_uuid c)
  /\ _rate_limiter (fst (snd out)) = _rate_limiter c
  /\ snd (snd out) = Spec.exchanged (Spec.generatetoken (settings c)) rest v.
Proof.
  intros Hs H204 out.
  set (c1 := if _client c then SessionSpec.closed c else c).
  assert (Hc1 : _client c1 = false) by apply LifeFacts.closed_is_closed.
  assert (Hout : out = (Ok tt, (Spec.authenticated r (FMC.set_client true c1),
                                Spec.exchanged (Spec.generatetoken (settings c1)) rest v))).
  { unfold out, bind. rewrite LifeFacts.close_eq. fold c1.
    rewrite (LifeFacts.connect_disconnected c1 v Hc1).
    rewrite (AuthFacts.authenticate_eq (FMC.set_client true c1) v eq_refl), Hs, H204.
    reflexivity. }
  rewrite Hout. cbn [fst snd].
  assert (Hd : _domain_uuid (FMC.set_client true c1) = _domain_uuid c)
    by (unfold c1; destruct (_client c); reflexivity).
  assert (Hl : _rate_limiter c1 = _rate_limiter c)
    by (unfold c1; destruct (_client c); reflexivity).
  assert (Hset : settings c1 = settings c)
    by (unfold c1; destruct (_client c); reflexivity).
  unfold Spec.authenticated. rewrite Hd, Hset.
  destruct (PyStr.truthy (_domain_uuid c)) eqn:Et.
  - cbn. repeat split; auto.
  - destruct (PyStr.truthy (Headers.get (resp_headers r) "DOMAIN_UUID"));
      cbn; repeat split; auto; discriminate.
Qed.

Lemma reconnect_renews_credentials_only_witness :
  let w := snd Fixture.after_three_refreshes in
  let v := mkEnv (clock (snd w)) (jitter (snd w))
                 [Respond (mkResponse 204
                             [("X-auth-access-token", "B1");
                              ("X-auth-refresh-token", "S1");
                              ("DOMAIN_UUID", "other-domain")] "" None)]
                 (trace (snd w)) in
  let out := (FMC.close ;; FMC.connect)%py (fst w, v) in
  fst out = Ok tt
  /\ _access_token (fst (snd out)) = Some "B1"
  /\ _refresh_count (fst (snd out)) = 0
  /\ _domain_uuid (fst (snd out)) = Some "test-domain-uuid".
Proof.
  intros w v.
  destruct (reconnect_renews_credentials_only (fst w) v
              (mkResponse 204
                 [("X-auth-access-token", "B1"); ("X-auth-refresh-token", "S1");
                  ("DOMAIN_UUID", "other-domain")] "" None) [] eq_refl eq_refl)
    as (H1 & _ & H3 & _ & H5 & H6 & _).
  cbv zeta. repeat split; auto.
Defined.

(* ------------------------------------------------------------------ *)
(** ** What a request leaves alone and how much it uses *)

Module FrameFacts.
Import FMC Spec FrameSpec.

Section Keeps.
Context {B : Type}.
Variable f : FMCClient -> B.

Lemma keeps_ret {A} (a : A) : keeps f (ret a).
Proof. intros w r w' H. inversion H; subst. reflexivity. Qed.

Lemma keeps_raise {A} e : keeps f (@raise (World FMCClient) A e).
Proof. intros w r w' H. inversion H; subst. reflexivity. Qed.

Lemma keeps_diverge {A} : keeps f (@diverge (World FMCClient) A).
Proof. intros w r w' H. inversion H; subst. reflexivity. Qed.

Lemma keeps_self {A} (g : FMCClient -> A) : keeps f (self g).
Proof. intros w r w' H. inversion H; subst. reflexivity. Qed.

Lemma keeps_bind {A C} (m : M (World FMCClient) A) (k : A -> M (World FMCClient) C) :
  keeps f m -> (forall a, keeps f (k a)) -> keeps f (bind m k).
Proof.
  intros Hm Hk w r w' Hrun. unfold bind in Hrun.
  destruct (m w) as [[a|e|] w1] eqn:E.
  - rewrite (Hk a w1 r w' Hrun). eapply Hm; eauto.
  - inversion Hrun; subst. eapply Hm; eauto.
  - inversion Hrun; subst. eapply Hm; eauto.
Qed.

Lemma keeps_try {A} (m : M (World FMCClient) A) handles h :
  keeps f m -> (forall e, keeps f (h e)) -> keeps f (try_except m handles h).
Proof.
  intros Hm Hh w r w' Hrun. unfold try_except in Hrun.
  destruct (m w) as [[a|e|] w1] eqn:E.
  - inversion Hrun; subst. eapply Hm; eauto.
  - destruct (handles e).
    + rewrite (Hh e w1 r w' Hrun). eapply Hm; eauto.
    + inversion Hrun; subst. eapply Hm; eauto.
  - inversion Hrun; subst. eapply Hm; eauto.
Qed.

Lemma keeps_assign (g : FMCClient -> FMCClient) :
  (forall c, f (g c) = f c) -> keeps f (assign g).
Proof. intros Hg [c v] r w' H. inversion H; subst. cbn. apply Hg. Qed.

Lemma keeps_http m p h ps : keeps f (http_call m p h ps).
Proof.
  intros [c v] r w' H. rewrite EnvFacts.http_call_eq in H.
  destruct (Headers.sendable h); [|inversion H; reflexivity].
  destruct (script v) as [|[x|] rest]; inversion H; reflexivity.
Qed.

Lemma keeps_sleep d : keeps f (sleep d).
Proof. intros [c v] r w' H. inversion H; subst. reflexivity. Qed.

(** The projection does not look at the credentials. *)
Hypothesis f_access : forall t c, f (set_access_token t c) = f c.
Hypothesis f_refresh : forall t c, f (set_refresh_token t c) = f c.
Hypothesis f_count : forall n c, f (set_refresh_count n c) = f c.
Hypothesis f_domain : forall d c, f (set_domain_uuid d c) = f c.

Ltac frame :=
  first
    [ solve [auto]
    | apply keeps_ret | apply keeps_raise | apply keeps_diverge
    | apply keeps_self | apply keeps_http | apply keeps_sleep
    | apply keeps_assign; solve [auto]
    | apply keeps_bind; [frame | intros; frame]
    | apply keeps_try; [frame | intros; frame]
    | match goal with
      | |- keeps _ (if ?b then _ else _) => destruct b; frame
      | |- keeps _ (match ?x with _ => _ end) => destruct x; frame
      end ].

Lemma keeps_authenticate : keeps f _authenticate.
Proof. unfold _authenticate. frame. Qed.

Lemma keeps_refresh_attempt : keeps f refresh_attempt.
Proof. pose proof keeps_authenticate. unfold refresh_attempt. frame. Qed.

Lemma keeps_refresh : keeps f _refresh_auth_token.
Proof.
  pose proof keeps_authenticate. pose proof keeps_refresh_attempt.
  unfold _refresh_auth_token. frame.
Qed.

Lemma keeps_on_401 m p h ps r : keeps f (on_401 m p h ps r).
Proof. pose proof keeps_refresh. unfold on_401. frame. Qed.

Lemma keeps_on_429 m p h ps r : keeps f (on_429 m p h ps r).
Proof. unfold on_429. frame. Qed.

Lemma keeps_exchange m p h ps : keeps f (exchange m p h ps).
Proof.
  pose proof keeps_on_401. pose proof keeps_on_429. unfold exchange.
  apply keeps_bind; [frame|]. intros token.
  apply keeps_bind; [frame|]. intros response.
  apply keeps_bind; [auto|]. intros rh. auto.
Qed.

End Keeps.

(** The permit taken for the exchange is given back on every exit. *)
Lemma request_keeps_permits fuel m p h ps :
  keeps _connection_semaphore (_request fuel m p h ps).
Proof.
  intros [c v] r w' H. unfold _request, self in H. unfold bind at 1 in H.
  unfold gets at 1 in H. cbn [fst snd] in H.
  destruct (negb (_client c)); [inversion H; reflexivity|].
  unfold bind in H. rewrite RequestFacts.acquire_token_eq in H.
  destruct (RL.acquire fuel (_rate_limiter c, v)) as [[[]| |] [rl1 v1]];
    cbn [fst snd] in H; try (inversion H; reflexivity).
  unfold with_semaphore in H. cbn [fst snd] in H.
  change (_connection_semaphore (set_rate_limiter rl1 c))
    with (_connection_semaphore c) in H.
  destruct (_connection_semaphore c <=? 0); [inversion H; reflexivity|].
  destruct (exchange m p h ps
              (on_self (set_semaphore (_connection_semaphore c - 1))
                 (set_rate_limiter rl1 c, v1))) as [r1 [c2 v2]] eqn:E.
  inversion H; subst. cbn.
  apply (keeps_exchange _connection_semaphore) in E; try (intros; reflexivity).
  cbn in E. lia.
Qed.

(** A request changes a projection that looks neither at the
    credentials, nor at the limiter, nor at the permits. *)
Lemma request_keeps {B} (f : FMCClient -> B) fuel m p h ps :
  (forall t c, f (set_access_token t c) = f c) ->
  (forall t c, f (set_refresh_token t c) = f c) ->
  (forall n c, f (set_refresh_count n c) = f c) ->
  (forall d c, f (set_domain_uuid d c) = f c) ->
  (forall rl c, f (set_rate_limiter rl c) = f c) ->
  (forall n c, f (set_semaphore n c) = f c) ->
  keeps f (_request fuel m p h ps).
Proof.
  intros Ha Hr Hn Hd Hl Hs [c v] r w' H. unfold _request, self in H.
  unfold bind at 1 in H. unfold gets at 1 in H. cbn [fst snd] in H.
  destruct (negb (_client c)); [inversion H; reflexivity|].
  unfold bind in H. rewrite RequestFacts.acquire_token_eq in H.
  destruct (RL.acquire fuel (_rate_limiter c, v)) as [[[]| |] [rl1 v1]];
    cbn [fst snd] in H; try (inversion H; subst; cbn; apply Hl).
  unfold with_semaphore in H. cbn [fst snd] in H.
  destruct (_connection_semaphore (set_rate_limiter rl1 c) <=? 0);
    [inversion H; subst; cbn; apply Hl|].
  match type of H with
  | (let '(_, _) := exchange m p h ps ?w0 in _) = _ =>
      destruct (exchange m p h ps w0) as [r1 [c2 v2]] eqn:E
  end.
  inversion H; subst. cbn.
  apply (keeps_exchange f Ha Hr Hn Hd) in E. cbn in E.
  rewrite Hs, E, Hs. apply Hl.
Qed.

End FrameFacts.

(** X9. Whatever its outcome (a response, an exception of the exchange
    or of the refresh), [_request] leaves the number of free connection
    permits, the connection flag, the settings and the refresh ceiling
    as it found them. *)
Theorem request_gives_back_its_permit
        (fuel : nat) (m p : string) (h : list (string * option string))
        (ps : list (string * string)) (w : World FMCClient) :
  let c' := fst (snd (FMC._request fuel m p h ps w)) in
  _connection_semaphore c' = _connection_semaphore (fst w)
  /\ _client c' = _client (fst w)
  /\ settings c' = settings (fst w)
  /\ _max_refreshes c' = _max_refreshes (fst w).
Proof.
  intros c'. unfold c'.
  destruct (FMC._request fuel m p h ps w) as [r w'] eqn:E. cbn [fst snd].
  split; [|split; [|split]].
  - exact (FrameFacts.request_keeps_permits fuel m p h ps w r w' E).
  - apply (FrameFacts.request_keeps _client fuel m p h ps) with (r := r);
      try (intros; reflexivity); exact E.
  - apply (FrameFacts.request_keeps settings fuel m p h ps) with (r := r);
      try (intros; reflexivity); exact E.
  - apply (FrameFacts.request_keeps _max_refreshes fuel m p h ps) with (r := r);
      try (intros; reflexivity); exact E.
Qed.

Module CostFacts.
Import FMC Spec FrameSpec.

Lemma consumes_weaken {A} n n' (m : M (World FMCClient) A) :
  (n <= n')%nat -> consumes n m -> consumes n' m.
Proof.
  intros Hn Hm w r w' H. destruct (Hm w r w' H) as (pre & H1 & H2).
  exists pre. split; [exact H1 | lia].
Qed.

Lemma consumes_pure {A} (m : M (World FMCClient) A) :
  (forall w r w', m w = (r, w') -> script (snd w') = script (snd w)) ->
  consumes 0 m.
Proof.
  intros Hm w r w' H. exists []. rewrite (Hm w r w' H). split; [reflexivity | cbn; lia].
Qed.

Lemma consumes_ret {A} (a : A) : consumes 0 (ret a).
Proof. apply consumes_pure. intros w r w' H. now inversion H. Qed.

Lemma consumes_raise {A} e : consumes 0 (@raise (World FMCClient) A e).
Proof. apply consumes_pure. intros w r w' H. now inversion H. Qed.

Lemma consumes_diverge {A} : consumes 0 (@diverge (World FMCClient) A).
Proof. apply consumes_pure. intros w r w' H. now inversion H. Qed.

Lemma consumes_self {A} (g : FMCClient -> A) : consumes 0 (self g).
Proof. apply consumes_pure. intros w r w' H. now inversion H. Qed.

Lemma consumes_assign g : consumes 0 (assign g).
Proof. apply consumes_pure. intros [c v] r w' H. now inversion H. Qed.

Lemma consumes_sleep d : consumes 0 (@sleep FMCClient d).
Proof. apply consumes_pure. intros [c v] r w' H. now inversion H. Qed.

Lemma consumes_http m p h ps : consumes 1 (@http_call FMCClient m p h ps).
Proof.
  intros [c v] r w' H. rewrite EnvFacts.http_call_eq in H.
  destruct (Headers.sendable h).
  - destruct (script v) as [|[x|] rest] eqn:E; inversion H; subst; cbn [snd];
      rewrite E; cbn [Spec.exchanged script].
    + exists []. split; [reflexivity | cbn; lia].
    + exists [Respond x]. split; [reflexivity | cbn; lia].
    + exists [Broken]. split; [reflexivity | cbn; lia].
  - inversion H; subst. exists []. split; [reflexivity | cbn; lia].
Qed.

Lemma consumes_bind {A C} a b (m : M (World FMCClient) A)
      (k : A -> M (World FMCClient) C) :
  consumes a m -> (forall x, consumes b (k x)) -> consumes (a + b) (bind m k).
Proof.
  intros Hm Hk w r w' Hrun. unfold bind in Hrun.
  destruct (m w) as [[x|e|] w1] eqn:E.
  - destruct (Hm w _ w1 E) as (p1 & H1 & L1).
    destruct (Hk x w1 r w' Hrun) as (p2 & H2 & L2).
    exists (p1 ++ p2)%list. rewrite H1, H2, app_assoc, length_app.
    split; [reflexivity | lia].
  - inversion Hrun; subst. destruct (Hm w _ w' E) as (p1 & H1 & L1).
    exists p1. split; [exact H1 | lia].
  - inversion Hrun; subst. destruct (Hm w _ w' E) as (p1 & H1 & L1).
    exists p1. split; [exact H1 | lia].
Qed.

Lemma consumes_try {A} a b (m : M (World FMCClient) A) handles h :
  consumes a m -> (forall e, consumes b (h e)) ->
  consumes (a + b) (try_except m handles h).
Proof.
  intros Hm Hh w r w' Hrun. unfold try_except in Hrun.
  destruct (m w) as [[x|e|] w1] eqn:E.
  - inversion Hrun; subst. destruct (Hm w _ w' E) as (p1 & H1 & L1).
    exists p1. split; [exact H1 | lia].
  - destruct (handles e).
    + destruct (Hm w _ w1 E) as (p1 & H1 & L1).
      destruct (Hh e w1 r w' Hrun) as (p2 & H2 & L2).
      exists (p1 ++ p2)%list. rewrite H1, H2, app_assoc, length_app.
      split; [reflexivity | lia].
    + inversion Hrun; subst. destruct (Hm w _ w' E) as (p1 & H1 & L1).
      exists p1. split; [exact H1 | lia].
  - inversion Hrun; subst. destruct (Hm w _ w' E) as (p1 & H1 & L1).
    exists p1. split; [exact H1 | lia].
Qed.

Lemma consumes_authenticate : consumes 1 _authenticate.
Proof.
  intros [c v] r w' H. destruct (_client c) eqn:Hc.
  - rewrite (AuthFacts.authenticate_eq c v Hc) in H.
    destruct (script v) as [|[x|] rest] eqn:E.
    + inversion H; subst. exists []. cbn. rewrite E. split; [reflexivity | lia].
    + exists [Respond x]. destruct (status_code x =? 204); inversion H; subst;
        cbn; rewrite E; split; try reflexivity; lia.
    + inversion H; subst. exists [Broken]. cbn. rewrite E. split; [reflexivity | lia].
  - rewrite (AuthFacts.authenticate_closed c v Hc) in H. inversion H; subst.
    exists []. split; [reflexivity | cbn; lia].
Qed.

Lemma consumes_refresh_attempt : consumes 2 refresh_attempt.
Proof.
  unfold refresh_attempt.
  apply (consumes_bind 0 2); [apply consumes_self|]. intros access.
  apply (consumes_bind 0 2); [apply consumes_self|]. intros refresh.
  apply (consumes_bind 1 1); [apply consumes_http|]. intros response.
  destruct (status_code response =? 204).
  - apply (consumes_weaken 0); [lia|].
    repeat (apply (consumes_bind 0 0);
            [first [apply consumes_assign | apply consumes_self] | intros ?]).
    apply consumes_ret.
  - apply (consumes_bind 1 0); [apply consumes_authenticate|]. intros _.
    apply consumes_ret.
Qed.

Lemma consumes_refresh : consumes 3 _refresh_auth_token.
Proof.
  unfold _refresh_auth_token.
  apply (consumes_bind 0 3); [apply consumes_self|]. intros open.
  apply (consumes_bind 0 3); [apply consumes_self|]. intros refresh.
  destruct (negb open || negb (PyStr.truthy refresh))%bool.
  { apply (consumes_weaken 0); [lia | apply consumes_ret]. }
  apply (consumes_bind 0 3); [apply consumes_self|]. intros n.
  apply (consumes_bind 0 3); [apply consumes_self|]. intros mx.
  destruct (n >=? mx).
  - apply (consumes_weaken (1 + 0)); [lia|].
    apply consumes_bind; [apply consumes_authenticate | intros _; apply consumes_ret].
  - apply (consumes_try 2 1); [apply consumes_refresh_attempt|]. intros e.
    apply (consumes_bind 1 0); [apply consumes_authenticate|]. intros _.
    apply consumes_ret.
Qed.

Lemma consumes_on_401 m p h ps r : consumes 4 (on_401 m p h ps r).
Proof.
  unfold on_401. destruct (status_code r =? 401).
  - apply (consumes_bind 3 1); [apply consumes_refresh|]. intros _.
    apply (consumes_bind 0 1); [apply consumes_self|]. intros token.
    apply (consumes_bind 1 0); [apply consumes_http|]. intros response.
    apply consumes_ret.
  - apply (consumes_weaken 0); [lia | apply consumes_ret].
Qed.

Lemma consumes_on_429 m p h ps r : consumes 1 (on_429 m p h ps r).
Proof.
  unfold on_429. destruct (status_code r =? 429).
  - destruct (PyStr.int (Headers.get_default (resp_headers r) "Retry-After" "60")).
    + apply (consumes_bind 0 1); [apply consumes_sleep|]. intros _.
      apply consumes_http.
    + apply (consumes_weaken 0); [lia | apply consumes_raise].
  - apply (consumes_weaken 0); [lia | apply consumes_ret].
Qed.

Lemma consumes_exchange m p h ps : consumes 6 (exchange m p h ps).
Proof.
  unfold exchange.
  apply (consumes_bind 0 6); [apply consumes_self|]. intros token.
  apply (consumes_bind 1 5); [apply consumes_http|]. intros response.
  apply (consumes_bind 4 1); [apply consumes_on_401|]. intros rh.
  apply consumes_on_429.
Qed.

Lemma consumes_acquire fuel : consumes 0 (acquire_token fuel).
Proof.
  apply consumes_pure. intros [c v] r w' H.
  rewrite RequestFacts.acquire_token_eq in H.
  destruct (RL.acquire fuel (_rate_limiter c, v)) as [r1 [rl1 v1]] eqn:E.
  inversion H; subst. cbn [snd].
  apply RequestFacts.acquire_quiet in E. tauto.
Qed.

Lemma consumes_semaphore {A} n (body : M (World FMCClient) A) :
  consumes n body -> consumes n (with_semaphore body).
Proof.
  intros Hb [c v] r w' H. unfold with_semaphore in H. cbn [fst snd] in H.
  destruct (_connection_semaphore c <=? 0).
  - inversion H; subst. exists []. split; [reflexivity | cbn; lia].
  - match type of H with
    | (let '(_, _) := body ?w0 in _) = _ =>
        destruct (body w0) as [r1 w1] eqn:E
    end.
    inversion H; subst. apply Hb in E. cbn [snd on_self] in *. exact E.
Qed.

Lemma consumes_request fuel m p h ps : consumes 6 (_request fuel m p h ps).
Proof.
  unfold _request.
  apply (consumes_bind 0 6); [apply consumes_self|]. intros open.
  destruct (negb open).
  - apply (consumes_weaken 0); [lia | apply consumes_raise].
  - apply (consumes_bind 0 6); [apply consumes_acquire|]. intros _.
    apply consumes_semaphore, consumes_exchange.
Qed.

End CostFacts.

(** X10. One call of [_request] reads at most six answers of the
    server, in order: the call, the refresh with its two possible
    re-authentications, the retry after the 401 and the retry after the
    429. The same bound holds for [get_json]. *)
Theorem request_reads_at_most_six_answers
        (fuel : nat) (m p : string) (h : list (string * option string))
        (ps : list (string * string)) (w : World FMCClient) :
  (exists pre,
      script (snd w) = (pre ++ script (snd (snd (FMC._request fuel m p h ps w))))%list
      /\ (List.length pre <= 6)%nat)
  /\ (exists pre,
         script (snd w) = (pre ++ script (snd (snd (FMC.get_json fuel p ps w))))%list
         /\ (List.length pre <= 6)%nat).
Proof.
  split.
  - destruct (FMC._request fuel m p h ps w) as [r w'] eqn:E.
    exact (CostFacts.consumes_request fuel m p h ps w r w' E).
  - destruct (FMC.get_json fuel p ps w) as [r w'] eqn:E. cbn [snd].
    assert (Hj : FrameSpec.consumes 6 (FMC.get_json fuel p ps)).
    { unfold FMC.get_json, FMC.get.
      apply (CostFacts.consumes_bind 6 0); [apply CostFacts.consumes_request|].
      intros resp. unfold FMC.raise_for_status, FMC.json_of.
      apply (CostFacts.consumes_bind 0 0).
      - destruct (is_success resp);
          [apply CostFacts.consumes_ret | apply CostFacts.consumes_raise].
      - intros _. destruct (json_body resp);
          [apply CostFacts.consumes_ret | apply CostFacts.consumes_raise]. }
    exact (Hj w r w' E).
Qed.

(** The bound is reached. *)
Example longest_request_reads_six_answers :
  let out := Scenario.longest_request in
  fst out = Ok (Fixture.json_ok (JObj []))
  /\ script (snd (snd out)) = [Respond (Fixture.status_only 500)]
  /\ List.length (Spec.exchanges (snd (snd out))) = 7%nat
  /\ RLSpec.sleeps (snd (snd out)) = [Sleep (inject_Z 1)].
Proof. vm_compute. repeat split. Qed.

(** X11. A 401 followed by a 429 on the retry runs through both
    branches: after the refresh the call is retried with the token then
    held; when that retry is answered by a 429 whose [Retry-After] is
    absent or an integer [n], the client sleeps [n] seconds and issues
    the call a third time, with the same headers, and returns that third
    answer. *)
Theorem request_401_then_429_retries_twice
        (fuel : nat) (m p : string) (h : list (string * option string))
        (ps : list (string * string)) (w : World FMCClient)
        (r1 : Response) (rest : list Reply) :
  Spec.ready (fst w) ->
  Headers.sendable h = true ->
  _access_token (fst w) <> None ->
  script (snd w) = Respond r1 :: rest ->
  status_code r1 = 401 ->
  let w0 := Spec.entered (S fuel) w in
  let h1 := Headers.set h "X-auth-access-token" (_access_token (fst w)) in
  let w1 := (fst w0, Spec.exchanged (Http m p h1 ps) rest (snd w0)) in
  forall b w2 r2 r3 rest3 n,
    FMC._refresh_auth_token w1 = (Ok b, w2) ->
    _access_token (fst w2) <> None ->
    script (snd w2) = Respond r2 :: Respond r3 :: rest3 ->
    status_code r2 = 429 ->
    PyStr.int (Headers.get_default (resp_headers r2) "Retry-After" "60") = Some n ->
    let call := Http m p (Headers.set h1 "X-auth-access-token" (_access_token (fst w2))) ps in
    FMC._request (S fuel) m p h ps w
    = (Ok r3,
       (Spec.give_permit (fst w2),
        Spec.exchanged call rest3
          (advance (inject_Z n)
             (Spec.exchanged call (Respond r3 :: rest3) (snd w2))))).
Proof.
  destruct w as [c v]. intros Hr Hh Htok Hs H401 w0 h1 w1.
  cbn [fst snd] in Hr, Hs, h1, Htok.
  intros b [c2 v2] r2 r3 rest3 n Href Htok2 Hs2 H429 Hn call.
  cbn [fst snd] in Htok2, Hs2, call.
  pose proof (RequestFacts.entered_ready fuel c v Hr) as Hent. cbv zeta in Hent.
  fold w0 in Hent.
  destruct Hent as (_ & _ & _ & Hacc & _ & _ & _ & _ & _ & Hscr & _).
  assert (Hh1 : Headers.sendable h1 = true).
  { unfold h1. destruct (_access_token c) as [t|]; [|congruence].
    now apply EnvFacts.sendable_set. }
  rewrite (RequestFacts.request_eq fuel m p h ps c v Hr). fold w0.
  assert (Hex : FMC.exchange m p h ps w0
                = (rh <- FMC.on_401 m p h1 ps r1 ;;
                   FMC.on_429 m p (snd rh) ps (fst rh))%py w1).
  { unfold w1, h1. destruct w0 as [c0 v0]. cbn [fst snd] in *.
    rewrite DispatchFacts.exchange_eq by (auto; congruence).
    cbv zeta. now rewrite Hscr, Hs, Hacc. }
  rewrite Hex. unfold bind. rewrite DispatchFacts.on_401_eq by assumption.
  rewrite Href. cbv zeta. rewrite EnvFacts.http_call_eq.
  destruct (_access_token c2) as [t2|] eqn:Et2; [|congruence].
  rewrite (EnvFacts.sendable_set h1 _ t2 Hh1), Hs2. cbn [fst snd].
  rewrite (DispatchFacts.on_429_retry _ _ _ _ _ _ _ n H429 Hn).
  rewrite EnvFacts.http_call_eq, (EnvFacts.sendable_set h1 _ t2 Hh1).
  reflexivity.
Qed.

Lemma request_401_then_429_retries_twice_witness :
  fst (FMC._request 1 "GET" Fixture.serverversion [] [] Scenario.stale_then_busy)
  = Ok (Fixture.json_ok (JObj [])).
Proof.
  set (w := Scenario.stale_then_busy).
  pose (w0 := Spec.entered 1 w).
  pose (h1 := Headers.set [] "X-auth-access-token" (_access_token (fst w))).
  pose (rest := [Respond (Fixture.token_response "A2" "R2");
                 Respond Scenario.busy_one_second;
                 Respond (Fixture.json_ok (JObj []))]).
  pose (w1 := (fst w0,
               Spec.exchanged (Http "GET" Fixture.serverversion h1 []) rest (snd w0))).
  assert (Hready : Spec.ready (fst w)).
  { vm_compute. repeat split; intros H; discriminate H. }
  assert (Htoken : _access_token (fst w) <> None).
  { vm_compute. intros H; discriminate H. }
  assert (Htoken2 : _access_token (fst (snd (FMC._refresh_auth_token w1))) <> None).
  { vm_compute. intros H; discriminate H. }
  rewrite (request_401_then_429_retries_twice
             0 "GET" Fixture.serverversion [] [] w (Fixture.status_only 401) rest
             Hready eq_refl Htoken eq_refl eq_refl
             true (snd (FMC._refresh_auth_token w1))
             Scenario.busy_one_second (Fixture.json_ok (JObj [])) [] 1
             eq_refl Htoken2 eq_refl eq_refl eq_refl).
  reflexivity.
Defined.

Lemma request_429_sleeps_and_retries_once_witness :
  FMC._request 1 "GET" Fixture.serverversion [] [] Scenario.busy_then_stale
  = (Ok (Fixture.status_only 401),
     snd (FMC._request 1 "GET" Fixture.serverversion [] [] Scenario.busy_then_stale))
  /\ _access_token
       (fst (snd (FMC._request 1 "GET" Fixture.serverversion [] []
                    Scenario.busy_then_stale)))
     = Some "A1".
Proof.
  set (w := Scenario.busy_then_stale).
  assert (Hready : Spec.ready (fst w)).
  { vm_compute. repeat split; intros H; discriminate H. }
  assert (Htoken : _access_token (fst w) <> None).
  { vm_compute. intros H; discriminate H. }
  pose proof (request_429_sleeps_and_retries_once
                0 "GET" Fixture.serverversion [] [] w
                Scenario.busy_one_second (Fixture.status_only 401)
                [Respond (Fixture.token_response "A2" "R2")] 1
                Hready eq_refl Htoken eq_refl eq_refl eq_refl) as Heq.
  cbv zeta in Heq. rewrite Heq. split; reflexivity.
Defined.

(* ------------------------------------------------------------------ *)
(** ** Listings over several pages *)

Module ListingFacts.
Import FMC Spec PageSpec.

Lemma exchanges_exchanged m p h ps rest v :
  exchanges (exchanged (Http m p h ps) rest v)
  = (exchanges v ++ [Http m p h ps])%list.
Proof. unfold exchanges, exchanged. cbn [trace]. now rewrite filter_app. Qed.

Lemma success_is_plain r :
  is_success r = true -> status_code r <> 401 /\ status_code r <> 429.
Proof.
  unfold is_success. intros H. apply andb_true_iff in H. destruct H as [_ H].
  apply Z.leb_le in H. lia.
Qed.

(** A GET that is answered by neither 401 nor 429: the answer is
    returned after that one exchange, and the client is as ready as it
    was, with the same credentials. *)
Lemma get_plain fuel p ps c v r rest :
  ready c -> _access_token c <> None ->
  script v = Respond r :: rest ->
  status_code r <> 401 -> status_code r <> 429 ->
  exists c' v',
    get (S fuel) p ps (c, v) = (Ok r, (c', v'))
    /\ ready c'
    /\ _access_token c' = _access_token c
    /\ script v' = rest
    /\ exchanges v'
       = (exchanges v ++ [Http "GET" p [("X-auth-access-token", _access_token c)] ps])%list.
Proof.
  intros Hr Htok Hs H401 H429. unfold get.
  rewrite (RequestFacts.request_eq fuel "GET" p [] ps c v Hr).
  destruct (RequestFacts.acquire_token_ready fuel c v Hr)
    as (rl' & v0 & Hacq & Hscr & Hex & Hcap & Hrate).
  unfold entered. rewrite Hacq. unfold on_self. cbn [snd fst].
  rewrite DispatchFacts.exchange_eq by (cbn; auto).
  cbv zeta. cbn [fst snd]. rewrite Hscr, Hs.
  unfold bind. rewrite DispatchFacts.on_401_other by assumption.
  cbn [fst snd]. rewrite DispatchFacts.on_429_other by assumption.
  eexists. eexists. split; [reflexivity|].
  destruct Hr as (Hc & Hc1 & Hc2 & Hc3).
  split; [|split; [|split]].
  - unfold ready, give_permit, take_permit. cbn. rewrite Hcap, Hrate.
    repeat split; auto; lia.
  - reflexivity.
  - reflexivity.
  - cbn [snd]. rewrite exchanges_exchanged, Hex. reflexivity.
Qed.

Lemma page_step_of pg off acc kv :
  well_formed pg -> json_body (answer pg) = Some (JObj kv) ->
  page_step (JObj kv) off acc =
  match page_items pg with
  | [] => Stop acc
  | _ => if off + 1000 >=? page_total pg
         then Stop (acc ++ page_items pg)%list
         else Next (acc ++ page_items pg)%list
  end.
Proof.
  intros (_ & kv' & paging & Hb & Hi & Hp & Hc) Hkv.
  rewrite Hb in Hkv. inversion Hkv; subst kv'.
  destruct (page_items pg) as [|x l] eqn:E.
  - now apply PageFacts.page_step_empty.
  - apply (PageFacts.page_step_items kv paging (x :: l) (page_total pg));
      [assumption | discriminate | assumption | assumption].
Qed.

(** The loop over pages after each of which it goes on. *)
Lemma page_loop_continuing afuel ep ex pgs :
  forall fuel off acc c v rest,
    ready c -> _access_token c <> None ->
    Forall well_formed pgs -> continuing off pgs ->
    script v = (answers pgs ++ rest)%list ->
    exists c' v',
      page_loop (S afuel) (List.length pgs + fuel) ep ex off acc (c, v)
      = page_loop (S afuel) fuel ep ex (off + 1000 * Z.of_nat (List.length pgs))
                  (acc ++ items_of pgs) (c', v')
      /\ ready c'
      /\ _access_token c' = _access_token c
      /\ script v' = rest
      /\ exchanges v'
         = (exchanges v
              ++ page_requests ep (_access_token c) ex off (List.length pgs))%list.
Proof.
  induction pgs as [|pg pgs IH]; intros fuel off acc c v rest Hr Htok Hwf Hcont Hs.
  - exists c, v. cbn [List.length Nat.add items_of flat_map page_requests Z.of_nat].
    rewrite Z.mul_0_r, Z.add_0_r, !app_nil_r. auto.
  - inversion Hwf as [|? ? Hpg Hwf']; subst.
    destruct Hcont as (Hne & Hlt & Hcont').
    cbn [answers map app] in Hs. fold (answers pgs) in Hs.
    pose proof Hpg as (Hok & kv & paging & Hb & Hi & Hp & Hc).
    destruct (success_is_plain _ Hok) as [H401 H429].
    destruct (get_plain afuel ep (page_params ex off) c v (answer pg)
                (answers pgs ++ rest)%list Hr Htok Hs H401 H429)
      as (c1 & v1 & Hget & Hr1 & Htok1 & Hs1 & Hex1).
    cbn [List.length Nat.add]. rewrite PageFacts.page_loop_S, Hget, Hok, Hb.
    rewrite (PageFacts.page_step_items kv paging (page_items pg) (page_total pg))
      by assumption.
    assert (Hgo : (off + 1000 >=? page_total pg) = false)
      by (rewrite Z.geb_leb; apply Z.leb_gt; lia).
    rewrite Hgo. unfold limit.
    assert (Htok1' : _access_token c1 <> None) by (rewrite Htok1; exact Htok).
    destruct (IH fuel (off + 1000) (acc ++ page_items pg)%list c1 v1 rest
                Hr1 Htok1' Hwf' Hcont' Hs1)
      as (c2 & v2 & Heq & Hr2 & Htok2 & Hs2 & Hex2).
    exists c2, v2. rewrite Heq.
    replace (off + 1000 + 1000 * Z.of_nat (List.length pgs))
      with (off + 1000 * Z.of_nat (S (List.length pgs))) by lia.
    cbn [items_of flat_map]. fold (items_of pgs). rewrite <- app_assoc.
    split; [reflexivity|]. split; [exact Hr2|].
    split; [congruence|]. split; [exact Hs2|].
    rewrite Hex2, Hex1, Htok1, <- app_assoc. reflexivity.
Qed.

(** The turn of the loop at a page at which it stops. *)
Lemma page_loop_stopping afuel fuel ep ex off acc c v pg rest :
  ready c -> _access_token c <> None ->
  well_formed pg -> stopping off pg ->
  script v = Respond (answer pg) :: rest ->
  exists c' v',
    page_loop (S afuel) (S fuel) ep ex off acc (c, v)
    = (Ok (acc ++ page_items pg)%list, (c', v'))
    /\ ready c'
    /\ _access_token c' = _access_token c
    /\ script v' = rest
    /\ exchanges v'
       = (exchanges v ++ page_requests ep (_access_token c) ex off 1)%list.
Proof.
  intros Hr Htok Hpg Hstop Hs.
  pose proof Hpg as (Hok & kv & paging & Hb & Hi & Hp & Hc).
  destruct (success_is_plain _ Hok) as [H401 H429].
  destruct (get_plain afuel ep (page_params ex off) c v (answer pg) rest
              Hr Htok Hs H401 H429)
    as (c1 & v1 & Hget & Hr1 & Htok1 & Hs1 & Hex1).
  exists c1, v1. rewrite PageFacts.page_loop_S, Hget, Hok, Hb.
  rewrite (page_step_of pg off acc kv Hpg Hb).
  split; [|auto].
  destruct (page_items pg) as [|x l] eqn:E.
  - now rewrite app_nil_r.
  - destruct Hstop as [Hnil|Hge]; [rewrite E in Hnil; discriminate Hnil|].
    assert (Hgo : (off + 1000 >=? page_total pg) = true)
      by (rewrite Z.geb_leb; apply Z.leb_le; lia).
    now rewrite Hgo.
Qed.

(** The turn of the loop at an answer that is not a page. *)
Lemma page_loop_refused afuel fuel ep ex off acc c v r rest :
  ready c -> _access_token c <> None ->
  script v = Respond r :: rest ->
  status_code r <> 401 -> status_code r <> 429 ->
  match json_body r with Some (JObj _) => is_success r = false | _ => True end ->
  exists c' v',
    page_loop (S afuel) (S fuel) ep ex off acc (c, v)
    = (Raise (if is_success r
              then match json_body r with
                   | None => JSONDecodeError
                   | Some _ => AttributeError
                   end
              else HTTPStatusError r), (c', v'))
    /\ ready c'
    /\ _access_token c' = _access_token c
    /\ script v' = rest
    /\ exchanges v'
       = (exchanges v ++ page_requests ep (_access_token c) ex off 1)%list.
Proof.
  intros Hr Htok Hs H401 H429 Hbad.
  destruct (get_plain afuel ep (page_params ex off) c v r rest
              Hr Htok Hs H401 H429)
    as (c1 & v1 & Hget & Hr1 & Htok1 & Hs1 & Hex1).
  exists c1, v1. rewrite PageFacts.page_loop_S, Hget.
  split; [|auto].
  destruct (is_success r); [|reflexivity].
  destruct (json_body r) as [[| | | | |kv]|]; try reflexivity.
  discriminate Hbad.
Qed.

Lemma page_requests_app ep tok ex n : forall off m,
  (page_requests ep tok ex off n
     ++ page_requests ep tok ex (off + 1000 * Z.of_nat n) m)%list
  = page_requests ep tok ex off (n + m).
Proof.
  induction n as [|n IH]; intros off m.
  - cbn [page_requests app Nat.add Z.of_nat]. now rewrite Z.mul_0_r, Z.add_0_r.
  - cbn [page_requests app Nat.add]. f_equal.
    rewrite <- IH. do 2 f_equal. lia.
Qed.

(** The listing up to an answer that is not a page. *)
Lemma get_all_items_refused fuel ep ex pgs r c v rest :
  ready c -> _access_token c <> None ->
  Forall well_formed pgs -> continuing 0 pgs ->
  script v = (answers pgs ++ Respond r :: rest)%list ->
  status_code r <> 401 -> status_code r <> 429 ->
  match json_body r with Some (JObj _) => is_success r = false | _ => True end ->
  (List.length pgs < fuel)%nat ->
  exists c' v',
    get_all_items fuel ep ex (c, v)
    = (Raise (if is_success r
              then match json_body r with
                   | None => JSONDecodeError
                   | Some _ => AttributeError
                   end
              else HTTPStatusError r), (c', v'))
    /\ ready c'
    /\ _access_token c' = _access_token c
    /\ script v' = rest
    /\ exchanges v'
       = (exchanges v
            ++ page_requests ep (_access_token c) ex 0 (S (List.length pgs)))%list.
Proof.
  intros Hr Htok Hwf Hcont Hs H401 H429 Hbad Hfuel.
  destruct fuel as [|f]; [lia|]. unfold get_all_items.
  destruct (page_loop_continuing f ep ex pgs (S (f - List.length pgs)) 0 [] c v
              (Respond r :: rest) Hr Htok Hwf Hcont Hs)
    as (c1 & v1 & Heq & Hr1 & Htok1 & Hs1 & Hex1).
  replace (List.length pgs + S (f - List.length pgs))%nat with (S f) in Heq by lia.
  rewrite Heq.
  assert (Htok1' : _access_token c1 <> None) by (rewrite Htok1; exact Htok).
  destruct (page_loop_refused f (f - List.length pgs) ep ex
              (0 + 1000 * Z.of_nat (List.length pgs)) ([] ++ items_of pgs)%list
              c1 v1 r rest Hr1 Htok1' Hs1 H401 H429 Hbad)
    as (c2 & v2 & Heq2 & Hr2 & Htok2 & Hs2 & Hex2).
  exists c2, v2. rewrite Heq2. split; [reflexivity|]. split; [exact Hr2|].
  split; [congruence|]. split; [exact Hs2|].
  rewrite Hex2, Hex1, Htok1, <- app_assoc, page_requests_app.
  now rewrite Nat.add_1_r.
Qed.

Lemma well_formed_page items total : well_formed (page items total).
Proof.
  split; [reflexivity|].
  exists [("items", JArr items); ("paging", JObj [("count", JNum total)])],
         [("count", JNum total)].
  repeat split.
Qed.

End ListingFacts.

(** X13. A listing served in several pages: while each page has items
    and declares a count beyond the next offset the loop goes on, and it
    returns at the first page that is empty or whose count is reached.
    The result is the items of all these pages in the order served; one
    GET was sent per page, with the offsets 0, 1000, 2000, ... and the
    same access token, and the client is ready for the next call. *)
Theorem get_all_items_concatenates_the_pages
        (fuel : nat) (ep : string) (ex : bool) (pgs : list PageSpec.Page)
        (last : PageSpec.Page) (w : World FMCClient) (rest : list Reply) :
  Spec.ready (fst w) -> _access_token (fst w) <> None ->
  Forall PageSpec.well_formed pgs -> PageSpec.well_formed last ->
  PageSpec.continuing 0 pgs ->
  PageSpec.stopping (1000 * Z.of_nat (List.length pgs)) last ->
  script (snd w) = (PageSpec.answers (pgs ++ [last]) ++ rest)%list ->
  (List.length pgs < fuel)%nat ->
  exists w',
    FMC.get_all_items fuel ep ex w
    = (Ok (PageSpec.items_of (pgs ++ [last])), w')
    /\ Spec.ready (fst w')
    /\ _access_token (fst w') = _access_token (fst w)
    /\ script (snd w') = rest
    /\ Spec.exchanges (snd w')
       = (Spec.exchanges (snd w)
            ++ PageSpec.page_requests ep (_access_token (fst w)) ex 0
                 (S (List.length pgs)))%list.
Proof.
  destruct w as [c v]. cbn [fst snd].
  intros Hr Htok Hwf Hlast Hcont Hstop Hs Hfuel.
  unfold PageSpec.answers in Hs. rewrite map_app, <- app_assoc in Hs.
  cbn [map app] in Hs. fold (PageSpec.answers pgs) in Hs.
  destruct fuel as [|f]; [lia|]. unfold FMC.get_all_items.
  destruct (ListingFacts.page_loop_continuing f ep ex pgs (S (f - List.length pgs))
              0 [] c v (Respond (PageSpec.answer last) :: rest) Hr Htok Hwf Hcont Hs)
    as (c1 & v1 & Heq & Hr1 & Htok1 & Hs1 & Hex1).
  replace (List.length pgs + S (f - List.length pgs))%nat with (S f) in Heq by lia.
  rewrite Heq.
  assert (Htok1' : _access_token c1 <> None) by (rewrite Htok1; exact Htok).
  destruct (ListingFacts.page_loop_stopping f (f - List.length pgs) ep ex
              (0 + 1000 * Z.of_nat (List.length pgs))
              ([] ++ PageSpec.items_of pgs)%list
              c1 v1 last rest Hr1 Htok1' Hlast Hstop Hs1)
    as (c2 & v2 & Heq2 & Hr2 & Htok2 & Hs2 & Hex2).
  exists (c2, v2). rewrite Heq2. cbn [fst snd].
  split.
  - unfold PageSpec.items_of. rewrite flat_map_app. cbn [flat_map app].
    now rewrite app_nil_r.
  - split; [exact Hr2|]. split; [congruence|]. split; [exact Hs2|].
    rewrite Hex2, Hex1, Htok1, <- app_assoc, ListingFacts.page_requests_app.
    now rewrite Nat.add_1_r.
Qed.

Lemma get_all_items_concatenates_the_pages_witness :
  let w := PageSpec.listing_session
             (PageSpec.answers (PageSpec.first_pages ++ [PageSpec.final_page])
                ++ [Respond (Fixture.status_only 500)]) in
  exists w',
    FMC.get_all_items 3 Fixture.devices_endpoint false w
    = (Ok [JStr "a"; JStr "b"; JStr "c"], w')
    /\ Spec.ready (fst w')
    /\ _access_token (fst w') = Some "A1"
    /\ script (snd w') = [Respond (Fixture.status_only 500)]
    /\ Spec.exchanges (snd w')
       = (Spec.exchanges (snd w)
            ++ PageSpec.page_requests Fixture.devices_endpoint (Some "A1") false 0 3)%list.
Proof.
  intros w.
  apply (get_all_items_concatenates_the_pages
           3 Fixture.devices_endpoint false PageSpec.first_pages PageSpec.final_page
           w [Respond (Fixture.status_only 500)]).
  - vm_compute. repeat split; intros H; discriminate H.
  - vm_compute. intros H; discriminate H.
  - repeat constructor; apply ListingFacts.well_formed_page.
  - apply ListingFacts.well_formed_page.
  - vm_compute. repeat split; intros H; discriminate H.
  - right. vm_compute. intros H; discriminate H.
  - reflexivity.
  - cbn. lia.
Defined.

(** X14. A page request that is refused after earlier pages were
    fetched (a status outside 2xx, 401 and 429) makes [get_all_items]
    raise the [HTTPStatusError] of that answer: the items already
    fetched are not returned. Nothing more is sent after the refused
    request. *)
Theorem refused_page_loses_the_fetched_items
        (fuel : nat) (ep : string) (ex : bool) (pgs : list PageSpec.Page)
        (r : Response) (w : World FMCClient) (rest : list Reply) :
  Spec.ready (fst w) -> _access_token (fst w) <> None ->
  Forall PageSpec.well_formed pgs -> PageSpec.continuing 0 pgs ->
  script (snd w) = (PageSpec.answers pgs ++ Respond r :: rest)%list ->
  is_success r = false -> status_code r <> 401 -> status_code r <> 429 ->
  (List.length pgs < fuel)%nat ->
  exists w',
    FMC.get_all_items fuel ep ex w = (Raise (HTTPStatusError r), w')
    /\ Spec.ready (fst w')
    /\ script (snd w') = rest
    /\ Spec.exchanges (snd w')
       = (Spec.exchanges (snd w)
            ++ PageSpec.page_requests ep (_access_token (fst w)) ex 0
                 (S (List.length pgs)))%list.
Proof.
  destruct w as [c v]. cbn [fst snd].
  intros Hr Htok Hwf Hcont Hs Hok H401 H429 Hfuel.
  destruct (ListingFacts.get_all_items_refused fuel ep ex pgs r c v rest
              Hr Htok Hwf Hcont Hs H401 H429)
    as (c' & v' & Heq & Hr' & _ & Hs' & Hex'); [|exact Hfuel|].
  - rewrite Hok. now destruct (json_body r) as [[| | | | |kv]|].
  - rewrite Hok in Heq. exists (c', v'). cbn [fst snd]. auto.
Qed.

Lemma refused_page_loses_the_fetched_items_witness :
  let w := PageSpec.listing_session
             (PageSpec.answers PageSpec.first_pages
                ++ [Respond (Fixture.status_only 500);
                    Respond (PageSpec.answer PageSpec.final_page)]) in
  exists w',
    FMC.get_all_items 3 Fixture.devices_endpoint true w
    = (Raise (HTTPStatusError (Fixture.status_only 500)), w')
    /\ Spec.ready (fst w')
    /\ script (snd w') = [Respond (PageSpec.answer PageSpec.final_page)]
    /\ Spec.exchanges (snd w')
       = (Spec.exchanges (snd w)
            ++ PageSpec.page_requests Fixture.devices_endpoint (Some "A1") true 0 3)%list.
Proof.
  intros w.
  apply (refused_page_loses_the_fetched_items
           3 Fixture.devices_endpoint true PageSpec.first_pages
           (Fixture.status_only 500) w
           [Respond (PageSpec.answer PageSpec.final_page)]).
  - vm_compute. repeat split; intros H; discriminate H.
  - vm_compute. intros H; discriminate H.
  - repeat constructor; apply ListingFacts.well_formed_page.
  - vm_compute. repeat split; intros H; discriminate H.
  - reflexivity.
  - reflexivity.
  - vm_compute. intros H; discriminate H.
  - vm_compute. intros H; discriminate H.
  - cbn. lia.
Defined.

(** X15. When the deployable devices are served in several pages and a
    later page request is answered by 403, [get_deployable_devices]
    returns the empty list, not the items of the pages it had fetched;
    the page requests went to the deployment endpoint of the session's
    domain, expanded. *)
Theorem forbidden_page_empties_the_deployable_devices
        (fuel : nat) (pgs : list PageSpec.Page)
        (r : Response) (w : World FMCClient) (rest : list Reply) :
  Spec.ready (fst w) -> _access_token (fst w) <> None ->
  Forall PageSpec.well_formed pgs -> PageSpec.continuing 0 pgs ->
  script (snd w) = (PageSpec.answers pgs ++ Respond r :: rest)%list ->
  status_code r = 403 ->
  (List.length pgs < fuel)%nat ->
  exists w',
    FMC.get_deployable_devices fuel w = (Ok [], w')
    /\ script (snd w') = rest
    /\ Spec.exchanges (snd w')
       = (Spec.exchanges (snd w)
            ++ PageSpec.page_requests
                 (FMC.domain_endpoint (fst w) "/deployment/deployabledevices")
                 (_access_token (fst w)) true 0 (S (List.length pgs)))%list.
Proof.
  destruct w as [c v]. cbn [fst snd].
  intros Hr Htok Hwf Hcont Hs H403 Hfuel.
  assert (Hok : is_success r = false).
  { unfold is_success. rewrite H403. reflexivity. }
  destruct (ListingFacts.get_all_items_refused fuel
              (FMC.domain_endpoint c "/deployment/deployabledevices") true
              pgs r c v rest Hr Htok Hwf Hcont Hs)
    as (c' & v' & Heq & _ & _ & Hs' & Hex'); [lia|lia| |exact Hfuel|].
  - rewrite Hok. now destruct (json_body r) as [[| | | | |kv]|].
  - rewrite Hok in Heq. exists (c', v').
    rewrite ReadFacts.get_deployable_devices_eq. cbn [fst snd].
    rewrite Heq, H403. auto.
Qed.

Lemma forbidden_page_empties_the_deployable_devices_witness :
  let w := PageSpec.listing_session
             (PageSpec.answers PageSpec.first_pages
                ++ [Respond (Fixture.status_only 403)]) in
  exists w',
    FMC.get_deployable_devices 3 w = (Ok [], w')
    /\ script (snd w') = []
    /\ Spec.exchanges (snd w')
       = (Spec.exchanges (snd w)
            ++ PageSpec.page_requests Fixture.deployable_endpoint (Some "A1") true 0 3)%list.
Proof.
  intros w.
  apply (forbidden_page_empties_the_deployable_devices
           3 PageSpec.first_pages (Fixture.status_only 403) w []).
  - vm_compute. repeat split; intros H; discriminate H.
  - vm_compute. intros H; discriminate H.
  - repeat constructor; apply ListingFacts.well_formed_page.
  - vm_compute. repeat split; intros H; discriminate H.
  - reflexivity.
  - reflexivity.
  - cbn. lia.
Defined.

(** X16. A page answered with a success status whose body is not an
    object aborts the listing, whatever was fetched before: a body that
    is not JSON raises [JSONDecodeError] and a JSON value that is not an
    object raises [AttributeError]. *)
Theorem malformed_page_aborts_the_listing
        (fuel : nat) (ep : string) (ex : bool) (pgs : list PageSpec.Page)
        (r : Response) (w : World FMCClient) (rest : list Reply) :
  Spec.ready (fst w) -> _access_token (fst w) <> None ->
  Forall PageSpec.well_formed pgs -> PageSpec.continuing 0 pgs ->
  script (snd w) = (PageSpec.answers pgs ++ Respond r :: rest)%list ->
  is_success r = true ->
  (forall kv, json_body r <> Some (JObj kv)) ->
  (List.length pgs < fuel)%nat ->
  exists w',
    FMC.get_all_items fuel ep ex w
    = (Raise (match json_body r with
              | None => JSONDecodeError
              | Some _ => AttributeError
              end), w')
    /\ script (snd w') = rest.
Proof.
  destruct w as [c v]. cbn [fst snd].
  intros Hr Htok Hwf Hcont Hs Hok Hbody Hfuel.
  destruct (ListingFacts.success_is_plain r Hok) as [H401 H429].
  destruct (ListingFacts.get_all_items_refused fuel ep ex pgs r c v rest
              Hr Htok Hwf Hcont Hs H401 H429)
    as (c' & v' & Heq & _ & _ & Hs' & _); [|exact Hfuel|].
  - destruct (json_body r) as [[| | | | |kv]|]; auto.
    exfalso. now apply (Hbody kv).
  - rewrite Hok in Heq. exists (c', v'). cbn [fst snd]. auto.
Qed.

Lemma malformed_page_aborts_the_listing_witness :
  let w := PageSpec.listing_session
             (PageSpec.answers PageSpec.first_pages
                ++ [Respond (Fixture.json_ok (JArr [JStr "c"]))]) in
  exists w',
    FMC.get_all_items 3 Fixture.devices_endpoint true w = (Raise AttributeError, w')
    /\ script (snd w') = [].
Proof.
  intros w.
  apply (malformed_page_aborts_the_listing
           3 Fixture.devices_endpoint true PageSpec.first_pages
           (Fixture.json_ok (JArr [JStr "c"])) w []).
  - vm_compute. repeat split; intros H; discriminate H.
  - vm_compute. intros H; discriminate H.
  - repeat constructor; apply ListingFacts.well_formed_page.
  - vm_compute. repeat split; intros H; discriminate H.
  - reflexivity.
  - reflexivity.
  - intros kv H. discriminate H.
  - cbn. lia.
Defined.

(* ------------------------------------------------------------------ *)
(** ** Where the credentials go *)

Module SecretFacts.
Import FMC Spec SecretSpec.

Lemma carries_set h k v :
  String.eqb (PyStr.lower k) "authorization" = false ->
  carries_authorization (Headers.set h k v) = carries_authorization h.
Proof.
  intros Hk. induction h as [|[k' x] h IH]; cbn [Headers.set].
  - unfold carries_authorization. cbn. rewrite Hk. reflexivity.
  - destruct (String.eqb k' k) eqn:E.
    + apply String.eqb_eq in E. subst k'. reflexivity.
    + unfold carries_authorization in *. cbn [existsb fst]. now rewrite IH.
Qed.

Lemma carries_token h t :
  carries_authorization (Headers.set h "X-auth-access-token" t)
  = carries_authorization h.
Proof. now apply carries_set. Qed.

(** A step with a postcondition on its value. *)
Lemma bind_post {St A B} (I : St -> Prop) (Q : A -> Prop)
      (m : M St A) (k : A -> M St B) :
  (forall s a s', m s = (Ok a, s') -> I s -> Q a) ->
  preserves I m ->
  (forall a, Q a -> preserves I (k a)) ->
  preserves I (bind m k).
Proof.
  intros Hq Hm Hk s r s' Hrun Hs. unfold bind in Hrun.
  destruct (m s) as [[a|e|] s1] eqn:E.
  - eapply (Hk a); eauto.
  - inversion Hrun; subst. eauto.
  - inversion Hrun; subst. eauto.
Qed.

Lemma d_self {A} (f : FMCClient -> A) : preserves all_discreet (self f).
Proof. apply InvFacts.preserves_gets. Qed.

Lemma d_assign (f : FMCClient -> FMCClient) : preserves all_discreet (assign f).
Proof. intros [c v] r s' H Hs. inversion H; subst. exact Hs. Qed.

Lemma d_http m p h ps :
  discreet (Http m p h ps) -> preserves all_discreet (http_call m p h ps).
Proof.
  intros Hd [c v] r s' H Hs. rewrite EnvFacts.http_call_eq in H.
  unfold all_discreet in *. cbn [snd] in Hs.
  destruct (Headers.sendable h); [|inversion H; subst; exact Hs].
  destruct (script v) as [|[x|] rest]; inversion H; subst; cbn [snd];
    rewrite ListingFacts.exchanges_exchanged; apply Forall_app; split; auto.
Qed.

Lemma d_plain m p h ps :
  carries_authorization h = false -> preserves all_discreet (http_call m p h ps).
Proof. intros Hh. apply d_http. cbn. rewrite Hh. discriminate. Qed.

Lemma d_sleep d : preserves all_discreet (sleep d).
Proof.
  intros [c v] r s' H Hs. inversion H; subst.
  unfold all_discreet, on_env in *. cbn [fst snd] in *.
  now rewrite RequestFacts.exchanges_sleep.
Qed.

Lemma d_acquire fuel : preserves all_discreet (acquire_token fuel).
Proof.
  intros [c v] r s' H Hs. rewrite RequestFacts.acquire_token_eq in H.
  destruct (RL.acquire fuel (_rate_limiter c, v)) as [r1 [rl1 v1]] eqn:E.
  inversion H; subst. unfold all_discreet in *. cbn [fst snd] in *.
  apply RequestFacts.acquire_quiet in E. cbn [snd] in E. destruct E as [_ E].
  now rewrite E.
Qed.

Lemma d_semaphore {A} (body : M (World FMCClient) A) :
  preserves all_discreet body -> preserves all_discreet (with_semaphore body).
Proof.
  intros Hb [c v] r s' H Hs. unfold with_semaphore in H. cbn [fst snd] in H.
  destruct (_connection_semaphore c <=? 0).
  - inversion H; subst. exact Hs.
  - destruct (body (on_self (set_semaphore (_connection_semaphore c - 1)) (c, v)))
      as [r1 [c1 v1]] eqn:E.
    inversion H; subst. unfold all_discreet. cbn [snd on_self].
    exact (Hb _ _ _ E Hs).
Qed.

Ltac discreetly :=
  first
    [ solve [auto]
    | apply InvFacts.preserves_ret | apply InvFacts.preserves_raise
    | apply InvFacts.preserves_diverge
    | apply d_self | apply d_assign | apply d_sleep | apply d_acquire
    | apply d_plain; solve [auto]
    | apply InvFacts.preserves_bind; [discreetly | intros; discreetly]
    | apply InvFacts.preserves_try; [discreetly | intros; discreetly]
    | apply d_semaphore; discreetly
    | match goal with
      | |- preserves _ (if ?b then _ else _) => destruct b; discreetly
      | |- preserves _ (match ?x with _ => _ end) => destruct x; discreetly
      end ].

(** The token request is the one that carries the credentials. *)
Lemma d_authenticate : preserves all_discreet _authenticate.
Proof.
  unfold _authenticate.
  apply InvFacts.preserves_bind; [apply d_self|]. intros open.
  destruct (negb open); [apply InvFacts.preserves_raise|].
  apply InvFacts.preserves_bind; [apply d_self|]. intros s.
  apply InvFacts.preserves_bind.
  - apply d_http. cbn. intros _. split; reflexivity.
  - intros response. discreetly.
Qed.

Lemma d_refresh_attempt : preserves all_discreet refresh_attempt.
Proof.
  pose proof d_authenticate. unfold refresh_attempt.
  apply InvFacts.preserves_bind; [apply d_self|]. intros access.
  apply InvFacts.preserves_bind; [apply d_self|]. intros refresh.
  apply InvFacts.preserves_bind.
  - apply d_plain. destruct (PyStr.truthy access), (PyStr.truthy refresh); reflexivity.
  - intros response. discreetly.
Qed.

Lemma d_refresh : preserves all_discreet _refresh_auth_token.
Proof.
  pose proof d_authenticate. pose proof d_refresh_attempt.
  unfold _refresh_auth_token. discreetly.
Qed.

Lemma d_on_429 m p h ps r :
  carries_authorization h = false -> preserves all_discreet (on_429 m p h ps r).
Proof. intros Hh. unfold on_429. discreetly. Qed.

Lemma on_401_headers m p h ps r w rh w' :
  on_401 m p h ps r w = (Ok rh, w') ->
  carries_authorization h = false -> carries_authorization (snd rh) = false.
Proof.
  unfold on_401. intros Hrun Hh. destruct (status_code r =? 401).
  - unfold bind at 1 in Hrun.
    destruct (_refresh_auth_token w) as [[b|e|] w1]; try discriminate Hrun.
    unfold self in Hrun. unfold bind at 1 in Hrun. unfold gets at 1 in Hrun.
    unfold bind at 1 in Hrun.
    destruct (http_call m p _ ps w1) as [[r2|e|] w2]; inversion Hrun; subst.
    cbn [snd]. now rewrite carries_token.
  - inversion Hrun; subst. exact Hh.
Qed.

Lemma d_on_401 m p h ps r :
  carries_authorization h = false -> preserves all_discreet (on_401 m p h ps r).
Proof.
  intros Hh. pose proof d_refresh. unfold on_401.
  destruct (status_code r =? 401); [|apply InvFacts.preserves_ret].
  apply InvFacts.preserves_bind; [auto|]. intros b.
  apply InvFacts.preserves_bind; [apply d_self|]. intros token.
  apply InvFacts.preserves_bind; [|intros; apply InvFacts.preserves_ret].
  apply d_plain. now rewrite carries_token.
Qed.

Lemma d_exchange m p h ps :
  carries_authorization h = false -> preserves all_discreet (exchange m p h ps).
Proof.
  intros Hh. unfold exchange.
  apply InvFacts.preserves_bind; [apply d_self|]. intros token.
  assert (Hh1 : carries_authorization (Headers.set h "X-auth-access-token" token)
                = false) by now rewrite carries_token.
  apply InvFacts.preserves_bind; [now apply d_plain|]. intros response.
  apply (bind_post all_discreet (fun rh => carries_authorization (snd rh) = false)).
  - intros s rh s' Hrun _. exact (on_401_headers _ _ _ _ _ _ _ _ Hrun Hh1).
  - now apply d_on_401.
  - intros rh Hrh. now apply d_on_429.
Qed.

Lemma d_get fuel p ps : preserves all_discreet (get fuel p ps).
Proof.
  pose proof (d_exchange "GET" p [] ps eq_refl). unfold get, _request. discreetly.
Qed.

Lemma d_get_json fuel p ps : preserves all_discreet (get_json fuel p ps).
Proof.
  pose proof d_get. unfold get_json, raise_for_status, json_of.
  apply InvFacts.preserves_bind; [auto|]. intros r. discreetly.
Qed.

Lemma d_page_loop afuel fuel : forall ep ex off acc,
    preserves all_discreet (page_loop afuel fuel ep ex off acc).
Proof.
  pose proof d_get.
  induction fuel as [|fuel IH]; intros ep ex off acc; cbn [page_loop].
  - discreetly.
  - unfold raise_for_status, json_of.
    apply InvFacts.preserves_bind; [auto|]. intros r.
    apply InvFacts.preserves_bind; [discreetly|]. intros _.
    apply InvFacts.preserves_bind; [discreetly|]. intros data.
    destruct (page_step data off acc); [discreetly | apply IH | discreetly].
Qed.

Lemma d_call fuel c : preserves all_discreet (call fuel c).
Proof.
  pose proof d_authenticate. pose proof d_get_json.
  assert (Hall : forall ep ex, preserves all_discreet (get_all_items fuel ep ex))
    by (intros; apply d_page_loop).
  destruct c; cbn [call];
    unfold connect, close, get_server_version, get_domain_info, get_devices,
      get_network_objects, get_host_objects, get_deployable_devices;
    discreetly.
Qed.

Lemma d_session fuel calls : forall w,
    all_discreet w -> all_discreet (session fuel calls w).
Proof.
  induction calls as [|c calls IH]; intros w Hw; cbn [session]; [exact Hw|].
  destruct (call fuel c w) as [r w'] eqn:E.
  pose proof (d_call fuel c w r w' E Hw) as Hw'.
  destruct r; auto.
Qed.

End SecretFacts.

(** X30. The credentials go to the token endpoint only. Along every
    session of the client (connect, close and the reads, in any order
    and whatever the server answers), a request that carries an
    [Authorization] header is a POST to the token-generation endpoint:
    no refresh request, data request or retry ever carries the user
    name and the password. *)
Theorem credentials_go_to_the_token_endpoint_only
        (fuel : nat) (calls : list Spec.Call) (w : World FMCClient) :
  SecretSpec.all_discreet w ->
  SecretSpec.all_discreet (Spec.session fuel calls w).
Proof. apply SecretFacts.d_session. Qed.

Lemma credentials_go_to_the_token_endpoint_only_witness :
  let w := (Fixture.fresh Fixture.test_settings,
            Fixture.env_of Fixture.three_refreshes) in
  let calls := [Spec.Connect; Spec.GetServerVersion; Spec.GetDevices; Spec.Close;
                Spec.Connect] in
  SecretSpec.all_discreet (Spec.session 1 calls w)
  /\ List.length (Spec.exchanges (snd (Spec.session 1 calls w))) = 8%nat.
Proof.
  intros w calls. split; [|vm_compute; reflexivity].
  apply (credentials_go_to_the_token_endpoint_only 1 calls w).
  constructor.
Defined.

(* ------------------------------------------------------------------ *)
(** ** The application: resources, tools and the server's life cycle *)

Module AppFacts.
Import FMC Spec AppSpec Py.

Lemma get_client_set a w :
  _fmc_client (fst w) = Some a -> Resources.get_client w = (Ok a, w).
Proof.
  intros H. unfold Resources.get_client, bind, gets. now rewrite H.
Qed.

Lemma get_client_unset w :
  _fmc_client (fst w) = None ->
  Resources.get_client w = (Raise Resources.no_client, w).
Proof.
  intros H. unfold Resources.get_client, bind, gets. now rewrite H.
Qed.

(** A computation after [get_client()]. *)
Lemma with_client_set {A} a (k : nat -> M (World App) A) w :
  _fmc_client (fst w) = Some a ->
  (client <- Resources.get_client ;; k client)%py w = k a w.
Proof. intros H. unfold bind at 1. now rewrite (get_client_set a w H). Qed.

Lemma with_client_unset {A} (k : nat -> M (World App) A) w :
  _fmc_client (fst w) = None ->
  (client <- Resources.get_client ;; k client)%py w
  = (Raise Resources.no_client, w).
Proof. intros H. unfold bind at 1. now rewrite (get_client_unset w H). Qed.

(** A method run on the object a global names. *)
Lemma on_object_eq {A} a (m : M (World FMCClient) A) w c :
  object_at a w = Some c ->
  Heap.on_object a m w
  = (fst (m (c, snd w)),
     (Heap.set_objects (Heap.store a (fst (snd (m (c, snd w)))) (objects (fst w)))
        (fst w),
      snd (snd (m (c, snd w))))).
Proof.
  unfold object_at, Heap.on_object. intros ->.
  now destruct (m (c, snd w)) as [r [c' v']].
Qed.

Lemma on_object_around {A} (m : M (World FMCClient) A) w :
  Heap.on_object 0 m (around w)
  = (fst (m w), around (snd (m w))).
Proof.
  destruct w as [c v]. unfold Heap.on_object, around. cbn.
  now destruct (m (c, v)) as [r [c' v']].
Qed.

Lemma store_at l : forall a c c',
    nth_error l a = Some c -> nth_error (Heap.store a c' l) a = Some c'.
Proof.
  induction l as [|x l IH]; intros [|a] c c' H; cbn in *; try discriminate;
    [reflexivity | eauto].
Qed.

Lemma store_same l : forall a c, nth_error l a = Some c -> Heap.store a c l = l.
Proof.
  induction l as [|x l IH]; intros [|a] c H; cbn in *; try discriminate.
  - now inversion H.
  - f_equal. eauto.
Qed.

(** The summaries, by the fields they read. *)
Lemma summary_eq {St} (k : Listing) (d : json) (s : St) :
  match k with
  | Devices => Resources.device_summary d s
  | NetworkObjects => Resources.object_summary d s
  | Deployable => Resources.deployment_summary d s
  end
  = (match fields (keys_of k) d with
     | Some kv => Ok (JObj kv)
     | None => Raise AttributeError
     end, s).
Proof. destruct k, d; reflexivity. Qed.

Lemma for_each_eq {St A B} (body : A -> M St B) (f : A -> option B) e :
  (forall x s, body x s = (match f x with Some y => Ok y | None => Raise e end, s)) ->
  forall l s,
    for_each body l s
    = (match sequence (map f l) with Some ys => Ok ys | None => Raise e end, s).
Proof.
  intros Hb. induction l as [|x l IH]; intros s; cbn [for_each map sequence];
    [reflexivity|].
  unfold bind at 1. rewrite Hb. destruct (f x) as [y|]; [|reflexivity].
  unfold bind at 1. rewrite IH.
  now destruct (sequence (map f l)).
Qed.

(** A resource that summarises a listing, by what the read returns. *)
Lemma resource_eq dumps fuel k a w :
  _fmc_client (fst w) = Some a ->
  resource_of dumps fuel k w
  = match Heap.on_object a (read_of fuel k) w with
    | (Ok l, w') =>
        (match sequence (map (fields (keys_of k)) l) with
         | Some summary =>
             Ok (dumps (Some 2)
                   (JObj (match k with
                          | Devices => [("devices", JArr (map JObj summary));
                                        ("count", JNum (len summary))]
                          | NetworkObjects =>
                              [("networkObjects", JArr (map JObj summary));
                               ("count", JNum (len summary))]
                          | Deployable =>
                              [("deployableDevices", JArr (map JObj summary));
                               ("count", JNum (len summary));
                               ("hasPendingChanges", JBool (0 <? len summary))]
                          end)))
         | None => Raise AttributeError
         end, w')
    | (Raise e, w') => (Raise e, w')
    | (Diverge, w') => (Diverge, w')
    end.
Proof.
  intros Ha.
  assert (Hseq : forall l : list json,
             sequence (map (fun d => option_map JObj (fields (keys_of k) d)) l)
             = option_map (map JObj) (sequence (map (fields (keys_of k)) l))).
  { induction l as [|d l IH]; [reflexivity|]. cbn [map sequence].
    destruct (fields (keys_of k) d); [|reflexivity]. cbn [option_map].
    rewrite IH. now destruct (sequence (map (fields (keys_of k)) l)). }
  assert (Hlen : forall l : list (list (string * json)), len (map JObj l) = len l).
  { intros l. unfold len. now rewrite length_map. }
  destruct k; cbn [resource_of read_of];
    unfold Resources.list_devices, Resources.list_network_objects,
      Resources.get_deployment_status;
    rewrite (with_client_set a _ w Ha); unfold bind at 1;
    match goal with
    | |- context [Heap.on_object a ?m w] =>
        destruct (Heap.on_object a m w) as [[l|e|] w']; try reflexivity
    end;
    unfold bind at 1.
  - rewrite (for_each_eq _ (fun d => option_map JObj (fields (keys_of Devices) d))
               AttributeError).
    + rewrite Hseq. destruct (sequence _); [|reflexivity]. cbn [option_map].
      unfold ret. now rewrite Hlen.
    + intros x s. rewrite (summary_eq Devices x s).
      now destruct (fields (keys_of Devices) x).
  - rewrite (for_each_eq _ (fun d => option_map JObj (fields (keys_of NetworkObjects) d))
               AttributeError).
    + rewrite Hseq. destruct (sequence _); [|reflexivity]. cbn [option_map].
      unfold ret. now rewrite Hlen.
    + intros x s. rewrite (summary_eq NetworkObjects x s).
      now destruct (fields (keys_of NetworkObjects) x).
  - rewrite (for_each_eq _ (fun d => option_map JObj (fields (keys_of Deployable) d))
               AttributeError).
    + rewrite Hseq. destruct (sequence _); [|reflexivity]. cbn [option_map].
      unfold ret. now rewrite Hlen.
    + intros x s. rewrite (summary_eq Deployable x s).
      now destruct (fields (keys_of Deployable) x).
Qed.

Lemma dict_get_present kv key d d' v :
  Json.dict_get kv key d = v -> v <> d -> Json.dict_get kv key d' = v.
Proof.
  induction kv as [|[k x] kv IH]; cbn; intros H Hne; [congruence|].
  destruct (String.eqb k key); auto.
Qed.

Lemma status_entry_eq {St} (d : json) (s : St) :
  Tools.status_entry d s
  = (match status_of d with Some r => Ok r | None => Raise AttributeError end, s).
Proof. destruct d; reflexivity. Qed.

(** The status check without a filter, by what the read returns. *)
Lemma check_eq dumps lower fuel name a w :
  _fmc_client (fst w) = Some a ->
  PyStr.truthy name = false ->
  Tools.check_deployment_status dumps lower fuel name w
  = match Heap.on_object a (FMC.get_deployable_devices fuel) w with
    | (Ok l, w') =>
        (match sequence (map status_of l) with
         | Some results =>
             Ok (dumps (Some 2)
                   (JObj [("filter", JStr "all devices");
                          ("devices", JArr (map JObj results));
                          ("count", JNum (len results));
                          ("allDevicesSynced",
                           JBool (match results with
                                  | [] => true
                                  | _ => Tools.all_up_to_date results
                                  end));
                          ("summary",
                           JStr (if Tools.all_up_to_date results
                                 then "All devices are in sync"
                                 else PyStr.of_Z (Tools.pending results)
                                        ++ " device(s) have pending changes"))]))
         | None => Raise AttributeError
         end, w')
    | (Raise e, w') => (Raise e, w')
    | (Diverge, w') => (Diverge, w')
    end.
Proof.
  intros Ha Hn. unfold Tools.check_deployment_status.
  rewrite (with_client_set a _ w Ha). unfold bind at 1.
  destruct (Heap.on_object a (get_deployable_devices fuel) w) as [[l|e|] w'];
    try reflexivity.
  assert (Hl : Tools.filter_label name = "all devices").
  { destruct name as [n|]; [|reflexivity]. cbn in Hn |- *.
    destruct (String.eqb n ""); [reflexivity | discriminate Hn]. }
  rewrite Hl.
  assert (Hf : (match name with
                | Some n => if String.eqb n "" then ret l
                            else comprehension (Tools.named lower n) l
                | None => ret l
                end) w' = (Ok l, w')).
  { destruct name as [n|]; [|reflexivity]. cbn in Hn.
    destruct (String.eqb n ""); [reflexivity | discriminate Hn]. }
  unfold bind at 1. rewrite Hf. unfold bind at 1.
  rewrite (for_each_eq _ status_of AttributeError)
    by (intros; apply status_entry_eq).
  now destruct (sequence (map status_of l)).
Qed.

(** A filter that no device passes. *)
Lemma comprehension_none {St} lower n (l : list json) (s : St) :
  Forall (named_otherwise lower n) l ->
  comprehension (Tools.named lower n) l s = (Ok [], s).
Proof.
  induction 1 as [|d l (kv & x & -> & Hx & Hne) _ IH]; [reflexivity|].
  assert (Hd : Tools.named lower n (JObj kv) s = (Ok false, s)).
  { unfold Tools.named, get_, bind, ret. rewrite Hx.
    apply String.eqb_neq in Hne. now rewrite Hne. }
  cbn [comprehension]. unfold bind at 1. rewrite Hd.
  unfold bind at 1. now rewrite IH.
Qed.

(** The status check on an empty listing. *)
Lemma check_empty dumps lower fuel name a w w' :
  _fmc_client (fst w) = Some a ->
  Heap.on_object a (FMC.get_deployable_devices fuel) w = (Ok [], w') ->
  Tools.check_deployment_status dumps lower fuel name w
  = (Ok (dumps (Some 2)
           (JObj [("filter", JStr (Tools.filter_label name));
                  ("devices", JArr []); ("count", JNum 0);
                  ("allDevicesSynced", JBool true);
                  ("summary", JStr "All devices are in sync")])), w').
Proof.
  intros Ha Hread. unfold Tools.check_deployment_status.
  rewrite (with_client_set a _ w Ha). unfold bind at 1. rewrite Hread.
  unfold bind at 1.
  assert (Hf : (match name with
                | Some n => if String.eqb n "" then ret []
                            else comprehension (Tools.named lower n) []
                | None => ret []
                end) w' = (Ok (@nil json), w')).
  { destruct name as [n|]; [|reflexivity]. now destruct (String.eqb n ""). }
  rewrite Hf. reflexivity.
Qed.

Lemma get_deployment_status_eq dumps fuel :
  Resources.get_deployment_status dumps fuel = resource_of dumps fuel Deployable.
Proof. reflexivity. Qed.

(** The entries of devices that are all up to date. *)
Lemma results_up_to_date l :
  Forall up_to_date l ->
  exists summary results,
    sequence (map (fields (keys_of Deployable)) l) = Some summary
    /\ len summary = len l
    /\ sequence (map status_of l) = Some results
    /\ len results = len l
    /\ Tools.all_up_to_date results = true
    /\ Forall (fun r => Json.dict_get r "hasPendingChanges" JNull = JBool false) results.
Proof.
  unfold len. induction 1 as [|d l (kv & -> & Hup) _ IH].
  - exists [], []. repeat split; constructor.
  - destruct IH as (summary & results & Hs & Hls & Hr & Hlr & Hall & Hpend).
    cbn [map sequence fields status_of]. rewrite Hs, Hr. cbn [option_map].
    eexists. eexists. split; [reflexivity|]. split; [cbn [List.length]; lia|].
    split; [reflexivity|]. split; [cbn [List.length]; lia|].
    rewrite (dict_get_present kv "upToDate" JNull (JBool true) (JBool true) Hup)
      by discriminate.
    split.
    + cbn. rewrite Hup. exact Hall.
    + constructor; [reflexivity | exact Hpend].
Qed.

(** The entries of devices whose records have no flag. *)
Lemma results_unflagged l :
  Forall unflagged l ->
  exists results,
    sequence (map status_of l) = Some results
    /\ len results = len l
    /\ (l <> [] -> Tools.all_up_to_date results = false)
    /\ Tools.pending results = len l
    /\ Forall (fun r => Json.dict_get r "hasPendingChanges" JNull = JBool false
                        /\ Json.dict_get r "upToDate" JNull = JNull) results.
Proof.
  unfold Tools.pending, len. induction 1 as [|d l (kv & -> & Hno) _ IH].
  - exists []. repeat split; try constructor. intros H; now elim H.
  - destruct IH as (results & Hr & Hlr & Hall & Hpend & Hres).
    cbn [map sequence status_of]. rewrite Hr. cbn [option_map].
    eexists. split; [reflexivity|].
    rewrite !(PageFacts.dict_get_missing kv "upToDate" _ Hno).
    split; [cbn [List.length]; lia|]. split; [intros _; reflexivity|].
    split.
    + cbn. cbn in Hpend. lia.
    + constructor; [split; reflexivity | exact Hres].
Qed.

End AppFacts.

(** X17. While [resources._fmc_client] is unset, every registered
    resource and tool raises [RuntimeError("FMC client not
    initialized")] and touches nothing, with one exception: a search for
    a string that is not an address returns the error payload, since the
    address is checked before the client is looked up. *)
Theorem handlers_without_a_client
        (dumps : option Z -> json -> string) (lower : string -> string)
        (IPAddress IPNetwork : Type)
        (ip_address : json -> option IPAddress)
        (ip_network : json -> option IPNetwork)
        (address_eqb : IPAddress -> IPAddress -> bool)
        (address_in : IPAddress -> IPNetwork -> bool)
        (fuel : nat) (h : Server.Handler) (w : World App) :
  _fmc_client (fst w) = None ->
  Server.handle dumps lower ip_address ip_network address_eqb address_in fuel h w
  = (match h with
     | Server.search_object_by_ip ip =>
         match ip_address (JStr ip) with
         | None =>
             Ok (dumps None (JObj [("error", JStr ("Invalid IP address: " ++ ip))]))
         | Some _ => Raise Resources.no_client
         end
     | _ => Raise Resources.no_client
     end, w).
Proof.
  intros H.
  destruct h; cbn [Server.handle];
    unfold Resources.get_system_info, Resources.list_devices,
      Resources.list_network_objects, Resources.get_deployment_status,
      Tools.check_deployment_status, Tools.search_object_by_ip;
    try (now rewrite AppFacts.with_client_unset).
  destruct (ip_address (JStr ip_address0)); [|reflexivity].
  now rewrite AppFacts.with_client_unset.
Qed.

Lemma handlers_without_a_client_witness :
  let w := AppSpec.unset Fixture.devices_session in
  AppSpec.handle_plainly 1 Server.devices_list_resource w
  = (Raise Resources.no_client, w)
  /\ AppSpec.handle_plainly 1 (Server.search_object_by_ip "") w
     = (Ok (AppSpec.render (JObj [("error", JStr "Invalid IP address: ")])), w).
Proof.
  intros w. split.
  - apply (handlers_without_a_client
             AppSpec.on_one_line PyStr.lower string unit AppSpec.named_address
             AppSpec.no_network String.eqb (fun _ _ => false) 1
             Server.devices_list_resource w).
    reflexivity.
  - apply (handlers_without_a_client
             AppSpec.on_one_line PyStr.lower string unit AppSpec.named_address
             AppSpec.no_network String.eqb (fun _ _ => false) 1
             (Server.search_object_by_ip "") w).
    reflexivity.
Defined.

(** X18. The resources that summarise a listing (devices, network
    objects, deployable devices) disclose of each item the values at the
    keys of their summary only: two listings that agree on these values,
    item by item, give the same result, be it the same text or the same
    [AttributeError] for an item that is not an object. *)
Theorem resources_disclose_summary_fields_only
        (dumps : option Z -> json -> string) (fuel : nat) (k : AppSpec.Listing)
        (a1 a2 : nat) (w1 w2 w1' w2' : World App) (l1 l2 : list json) :
  _fmc_client (fst w1) = Some a1 ->
  _fmc_client (fst w2) = Some a2 ->
  Heap.on_object a1 (AppSpec.read_of fuel k) w1 = (Ok l1, w1') ->
  Heap.on_object a2 (AppSpec.read_of fuel k) w2 = (Ok l2, w2') ->
  map (AppSpec.fields (AppSpec.keys_of k)) l1
  = map (AppSpec.fields (AppSpec.keys_of k)) l2 ->
  fst (AppSpec.resource_of dumps fuel k w1)
  = fst (AppSpec.resource_of dumps fuel k w2).
Proof.
  intros H1 H2 R1 R2 Heq.
  rewrite (AppFacts.resource_eq dumps fuel k a1 w1 H1), R1.
  rewrite (AppFacts.resource_eq dumps fuel k a2 w2 H2), R2.
  cbn [fst]. now rewrite Heq.
Qed.

Lemma resources_disclose_summary_fields_only_witness :
  let w1 := AppSpec.serving [AppSpec.ftd "FTD-01" [("accessPolicy", JStr "inside")]] in
  let w2 := AppSpec.serving [AppSpec.ftd "FTD-01" [("accessPolicy", JStr "outside")]] in
  fst (Resources.list_devices AppSpec.on_one_line 3 w1)
  = fst (Resources.list_devices AppSpec.on_one_line 3 w2).
Proof.
  intros w1 w2.
  apply (resources_disclose_summary_fields_only
           AppSpec.on_one_line 3 AppSpec.Devices 0 0 w1 w2
           (snd (Heap.on_object 0 (FMC.get_devices 3) w1))
           (snd (Heap.on_object 0 (FMC.get_devices 3) w2))
           [AppSpec.ftd "FTD-01" [("accessPolicy", JStr "inside")]]
           [AppSpec.ftd "FTD-01" [("accessPolicy", JStr "outside")]]);
    vm_compute; reflexivity.
Defined.

(** X19. A deployable-devices read that is refused with 403 is reported
    as a clean state: the resource answers with no device, a count of 0
    and [hasPendingChanges] false, and the tool, with or without a
    filter, with [allDevicesSynced] true and the summary that all
    devices are in sync. *)
Theorem forbidden_deployment_reads_as_nothing_pending
        (dumps : option Z -> json -> string) (lower : string -> string)
        (fuel : nat) (a : nat) (w : World App) (c c' : FMCClient) (v' : Env)
        (r : Response) (name : option string) :
  _fmc_client (fst w) = Some a ->
  AppSpec.object_at a w = Some c ->
  FMC.get_all_items fuel (FMC.domain_endpoint c "/deployment/deployabledevices")
    true (c, snd w)
  = (Raise (HTTPStatusError r), (c', v')) ->
  status_code r = 403 ->
  let w' := (Heap.set_objects (Heap.store a c' (objects (fst w))) (fst w), v') in
  Resources.get_deployment_status dumps fuel w
  = (Ok (dumps (Some 2)
           (JObj [("deployableDevices", JArr []); ("count", JNum 0);
                  ("hasPendingChanges", JBool false)])), w')
  /\ Tools.check_deployment_status dumps lower fuel name w
     = (Ok (dumps (Some 2)
              (JObj [("filter", JStr (Tools.filter_label name));
                     ("devices", JArr []); ("count", JNum 0);
                     ("allDevicesSynced", JBool true);
                     ("summary", JStr "All devices are in sync")])), w').
Proof.
  intros Ha Hc Hfetch H403 w'.
  assert (Hread : Heap.on_object a (FMC.get_deployable_devices fuel) w = (Ok [], w')).
  { rewrite (AppFacts.on_object_eq a _ w c Hc).
    rewrite ReadFacts.get_deployable_devices_eq. cbn [fst snd].
    rewrite Hfetch, H403. reflexivity. }
  split.
  - rewrite AppFacts.get_deployment_status_eq.
    rewrite (AppFacts.resource_eq dumps fuel AppSpec.Deployable a w Ha).
    cbn [AppSpec.read_of]. rewrite Hread. reflexivity.
  - now apply (AppFacts.check_empty dumps lower fuel name a w w' Ha).
Qed.

Lemma forbidden_deployment_reads_as_nothing_pending_witness :
  let w := AppSpec.around Fixture.forbidden_session in
  fst (Resources.get_deployment_status AppSpec.on_one_line 1 w)
  = Ok (AppSpec.render
          (JObj [("deployableDevices", JArr []); ("count", JNum 0);
                 ("hasPendingChanges", JBool false)]))
  /\ fst (Tools.check_deployment_status AppSpec.on_one_line PyStr.lower 1
            (Some "FTD-01") w)
     = Ok (AppSpec.render
             (JObj [("filter", JStr "FTD-01");
                    ("devices", JArr []); ("count", JNum 0);
                    ("allDevicesSynced", JBool true);
                    ("summary", JStr "All devices are in sync")])).
Proof.
  intros w.
  set (out := FMC.get_all_items 1 Fixture.deployable_endpoint true
                Fixture.forbidden_session).
  destruct (forbidden_deployment_reads_as_nothing_pending
              AppSpec.on_one_line PyStr.lower 1 0 w (fst Fixture.forbidden_session)
              (fst (snd out)) (snd (snd out)) (Fixture.status_only 403)
              (Some "FTD-01"))
    as [H1 H2]; try reflexivity.
  rewrite H1, H2. split; reflexivity.
Defined.

(** X20. The resource and the tool disagree on devices that are all up
    to date: for a non-empty listing in which every device has
    [upToDate] true, the resource reports [hasPendingChanges] true (it
    counts the devices listed), while the tool reports every device
    without pending changes, [allDevicesSynced] true and the summary
    that all devices are in sync. *)
Theorem up_to_date_devices_are_pending_for_the_resource
        (dumps : option Z -> json -> string) (lower : string -> string)
        (fuel : nat) (a : nat) (w w' : World App) (devices : list json) :
  _fmc_client (fst w) = Some a ->
  Heap.on_object a (FMC.get_deployable_devices fuel) w = (Ok devices, w') ->
  devices <> [] ->
  Forall AppSpec.up_to_date devices ->
  (exists summary,
      Resources.get_deployment_status dumps fuel w
      = (Ok (dumps (Some 2)
               (JObj [("deployableDevices", JArr summary);
                      ("count", JNum (Py.len devices));
                      ("hasPendingChanges", JBool true)])), w'))
  /\ (exists results,
         Tools.check_deployment_status dumps lower fuel None w
         = (Ok (dumps (Some 2)
                  (JObj [("filter", JStr "all devices");
                         ("devices", JArr (map JObj results));
                         ("count", JNum (Py.len devices));
                         ("allDevicesSynced", JBool true);
                         ("summary", JStr "All devices are in sync")])), w')
         /\ Forall (fun r => Json.dict_get r "hasPendingChanges" JNull = JBool false)
                   results).
Proof.
  intros Ha Hread Hne Hup.
  destruct (AppFacts.results_up_to_date devices Hup)
    as (summary & results & Hs & Hls & Hr & Hlr & Hall & Hpend).
  split.
  - exists (map JObj summary).
    rewrite AppFacts.get_deployment_status_eq.
    rewrite (AppFacts.resource_eq dumps fuel AppSpec.Deployable a w Ha).
    cbn [AppSpec.read_of]. rewrite Hread, Hs, Hls.
    assert (Hpos : (0 <? Py.len devices) = true).
    { apply Z.ltb_lt. unfold Py.len. destruct devices; [congruence|]. cbn. lia. }
    now rewrite Hpos.
  - exists results. split; [|exact Hpend].
    rewrite (AppFacts.check_eq dumps lower fuel None a w Ha eq_refl).
    rewrite Hread, Hr, Hall, Hlr. now destruct results.
Qed.

Lemma up_to_date_devices_are_pending_for_the_resource_witness :
  let devices := [AppSpec.ftd "FTD-01" [("upToDate", JBool true)];
                  AppSpec.ftd "FTD-02" [("upToDate", JBool true)]] in
  let w := AppSpec.serving devices in
  (exists summary,
      fst (Resources.get_deployment_status AppSpec.on_one_line 3 w)
      = Ok (AppSpec.render
              (JObj [("deployableDevices", JArr summary); ("count", JNum 2);
                     ("hasPendingChanges", JBool true)])))
  /\ (exists results,
         fst (Tools.check_deployment_status AppSpec.on_one_line PyStr.lower 3 None w)
         = Ok (AppSpec.render
                 (JObj [("filter", JStr "all devices");
                        ("devices", JArr (map JObj results));
                        ("count", JNum 2);
                        ("allDevicesSynced", JBool true);
                        ("summary", JStr "All devices are in sync")]))).
Proof.
  intros devices w.
  destruct (up_to_date_devices_are_pending_for_the_resource
              AppSpec.on_one_line PyStr.lower 3 0 w
              (snd (Heap.on_object 0 (FMC.get_deployable_devices 3) w)) devices)
    as [[summary H1] [results [H2 _]]].
  - reflexivity.
  - vm_compute. reflexivity.
  - discriminate.
  - repeat constructor; eexists; (split; [reflexivity|reflexivity]).
  - split.
    + exists summary. now rewrite H1.
    + exists results. now rewrite H2.
Defined.

(** X21. A device whose record has no [upToDate] flag is reported both
    ways by the tool: its entry says [hasPendingChanges] false, while
    [allDevicesSynced] is false and the summary counts it among the
    devices with pending changes. *)
Theorem unflagged_devices_are_reported_both_ways
        (dumps : option Z -> json -> string) (lower : string -> string)
        (fuel : nat) (a : nat) (w w' : World App) (devices : list json) :
  _fmc_client (fst w) = Some a ->
  Heap.on_object a (FMC.get_deployable_devices fuel) w = (Ok devices, w') ->
  devices <> [] ->
  Forall AppSpec.unflagged devices ->
  exists results,
    Tools.check_deployment_status dumps lower fuel None w
    = (Ok (dumps (Some 2)
             (JObj [("filter", JStr "all devices");
                    ("devices", JArr (map JObj results));
                    ("count", JNum (Py.len devices));
                    ("allDevicesSynced", JBool false);
                    ("summary",
                     JStr (PyStr.of_Z (Py.len devices)
                             ++ " device(s) have pending changes"))])), w')
    /\ Forall (fun r => Json.dict_get r "hasPendingChanges" JNull = JBool false
                        /\ Json.dict_get r "upToDate" JNull = JNull) results.
Proof.
  intros Ha Hread Hne Hun.
  destruct (AppFacts.results_unflagged devices Hun)
    as (results & Hr & Hlr & Hall & Hpend & Hres).
  exists results. split; [|exact Hres].
  rewrite (AppFacts.check_eq dumps lower fuel None a w Ha eq_refl).
  rewrite Hread, Hr, (Hall Hne), Hlr, Hpend.
  destruct results; [|reflexivity].
  exfalso. unfold Py.len in Hlr. destruct devices; [congruence|]. cbn in Hlr. lia.
Qed.

Lemma unflagged_devices_are_reported_both_ways_witness :
  let devices := [AppSpec.ftd "FTD-01" [("canBeDeployed", JBool true)]] in
  let w := AppSpec.serving devices in
  exists results,
    fst (Tools.check_deployment_status AppSpec.on_one_line PyStr.lower 3 None w)
    = Ok (AppSpec.render
            (JObj [("filter", JStr "all devices");
                   ("devices", JArr (map JObj results));
                   ("count", JNum 1);
                   ("allDevicesSynced", JBool false);
                   ("summary", JStr "1 device(s) have pending changes")]))
    /\ Forall (fun r => Json.dict_get r "hasPendingChanges" JNull = JBool false
                        /\ Json.dict_get r "upToDate" JNull = JNull) results.
Proof.
  intros devices w.
  destruct (unflagged_devices_are_reported_both_ways
              AppSpec.on_one_line PyStr.lower 3 0 w
              (snd (Heap.on_object 0 (FMC.get_deployable_devices 3) w)) devices)
    as [results [H1 H2]].
  - reflexivity.
  - vm_compute. reflexivity.
  - discriminate.
  - repeat constructor; eexists; (split; [reflexivity|reflexivity]).
  - exists results. split; [now rewrite H1 | exact H2].
Defined.

(** X22. A filter that no listed device passes is reported as a clean
    state: when every device has a name that differs from the one asked
    for, letter case apart, the tool answers with no device, a count of
    0, [allDevicesSynced] true and the summary that all devices are in
    sync, whatever the state of the devices listed. *)
Theorem unmatched_filter_reads_as_all_synced
        (dumps : option Z -> json -> string) (lower : string -> string)
        (fuel : nat) (a : nat) (w w' : World App) (devices : list json)
        (n : string) :
  _fmc_client (fst w) = Some a ->
  Heap.on_object a (FMC.get_deployable_devices fuel) w = (Ok devices, w') ->
  n <> "" ->
  Forall (AppSpec.named_otherwise lower n) devices ->
  Tools.check_deployment_status dumps lower fuel (Some n) w
  = (Ok (dumps (Some 2)
           (JObj [("filter", JStr n);
                  ("devices", JArr []); ("count", JNum 0);
                  ("allDevicesSynced", JBool true);
                  ("summary", JStr "All devices are in sync")])), w').
Proof.
  intros Ha Hread Hn Hother. unfold Tools.check_deployment_status.
  rewrite (AppFacts.with_client_set a _ w Ha). unfold bind at 1. rewrite Hread.
  apply String.eqb_neq in Hn. unfold Tools.filter_label. rewrite Hn.
  unfold bind at 1.
  now rewrite (AppFacts.comprehension_none lower n devices w' Hother).
Qed.

Lemma unmatched_filter_reads_as_all_synced_witness :
  let devices := [AppSpec.ftd "FTD-01" [("upToDate", JBool false)]] in
  let w := AppSpec.serving devices in
  fst (Tools.check_deployment_status AppSpec.on_one_line PyStr.lower 3
         (Some "ftd-02") w)
  = Ok (AppSpec.render
          (JObj [("filter", JStr "ftd-02");
                 ("devices", JArr []); ("count", JNum 0);
                 ("allDevicesSynced", JBool true);
                 ("summary", JStr "All devices are in sync")])).
Proof.
  intros devices w.
  rewrite (unmatched_filter_reads_as_all_synced
             AppSpec.on_one_line PyStr.lower 3 0 w
             (snd (Heap.on_object 0 (FMC.get_deployable_devices 3) w)) devices
             "ftd-02").
  - reflexivity.
  - reflexivity.
  - vm_compute. reflexivity.
  - discriminate.
  - repeat constructor. exists [("name", JStr "FTD-01"); ("upToDate", JBool false)], "FTD-01".
    split; [reflexivity|]. split; [reflexivity|]. vm_compute. discriminate.
Defined.

(* ------------------------------------------------------------------ *)
(** ** Serving: what the handlers do to the application *)

Module ServeFacts.
Import FMC Spec AppSpec Py FrameSpec.

Lemma request_keeps_client fuel m p h ps : keeps _client (_request fuel m p h ps).
Proof. apply FrameFacts.request_keeps; intros; reflexivity. Qed.

Lemma get_json_keeps_client fuel p ps : keeps _client (get_json fuel p ps).
Proof.
  unfold get_json, get, raise_for_status, json_of.
  apply FrameFacts.keeps_bind; [apply request_keeps_client|]. intros r.
  apply FrameFacts.keeps_bind.
  - destruct (is_success r);
      [apply FrameFacts.keeps_ret | apply FrameFacts.keeps_raise].
  - intros _. destruct (json_body r);
      [apply FrameFacts.keeps_ret | apply FrameFacts.keeps_raise].
Qed.

Lemma page_loop_keeps_client afuel fuel : forall ep ex off acc,
    keeps _client (page_loop afuel fuel ep ex off acc).
Proof.
  induction fuel as [|fuel IH]; intros ep ex off acc; cbn [page_loop].
  - apply FrameFacts.keeps_diverge.
  - unfold get, raise_for_status, json_of.
    apply FrameFacts.keeps_bind; [apply request_keeps_client|]. intros r.
    apply FrameFacts.keeps_bind.
    { destruct (is_success r);
        [apply FrameFacts.keeps_ret | apply FrameFacts.keeps_raise]. }
    intros _. apply FrameFacts.keeps_bind.
    { destruct (json_body r);
        [apply FrameFacts.keeps_ret | apply FrameFacts.keeps_raise]. }
    intros data. destruct (page_step data off acc);
      [apply FrameFacts.keeps_ret | apply IH | apply FrameFacts.keeps_raise].
Qed.

Lemma get_all_items_keeps_client fuel ep ex :
  keeps _client (get_all_items fuel ep ex).
Proof. apply page_loop_keeps_client. Qed.

(** No read closes or opens the connection. *)
Lemma read_keeps_client fuel (k : Call) :
  SessionSpec.is_read k = true -> keeps _client (call fuel k).
Proof.
  intros Hk.
  destruct k; try discriminate Hk; cbn [call];
    unfold get_server_version, get_domain_info, get_devices, get_network_objects,
      get_host_objects, get_deployable_devices;
    (apply FrameFacts.keeps_bind; [|intros; apply FrameFacts.keeps_ret]);
    try apply get_json_keeps_client;
    try apply get_all_items_keeps_client;
    (apply FrameFacts.keeps_bind; [apply FrameFacts.keeps_self|]); intros ep;
    try apply get_all_items_keeps_client.
  apply FrameFacts.keeps_try; [apply get_all_items_keeps_client|].
  intros e. destruct e; try apply FrameFacts.keeps_raise.
  destruct (status_code response =? 403);
    [apply FrameFacts.keeps_ret | apply FrameFacts.keeps_raise].
Qed.

Lemma keeps_value {A} (m : M (World FMCClient) A) :
  keeps _client (m ;; ret tt)%py -> keeps _client m.
Proof.
  intros H w r w' Hrun.
  apply (H w (match r with Ok _ => Ok tt | Raise e => Raise e | Diverge => Diverge end) w').
  unfold bind. rewrite Hrun. now destruct r.
Qed.

Lemma get_server_version_keeps_client fuel : keeps _client (get_server_version fuel).
Proof. apply keeps_value, (read_keeps_client fuel GetServerVersion eq_refl). Qed.

Lemma get_devices_keeps_client fuel : keeps _client (get_devices fuel).
Proof. apply keeps_value, (read_keeps_client fuel GetDevices eq_refl). Qed.

Lemma get_network_objects_keeps_client fuel : keeps _client (get_network_objects fuel).
Proof. apply keeps_value, (read_keeps_client fuel GetNetworkObjects eq_refl). Qed.

Lemma get_host_objects_keeps_client fuel : keeps _client (get_host_objects fuel).
Proof. apply keeps_value, (read_keeps_client fuel GetHostObjects eq_refl). Qed.

Lemma get_deployable_devices_keeps_client fuel :
  keeps _client (get_deployable_devices fuel).
Proof. apply keeps_value, (read_keeps_client fuel GetDeployableDevices eq_refl). Qed.

(** A method that keeps the connection flag, run on the object the
    globals name, keeps the application serving. *)
Lemma on_object_serving {A} a (m : M (World FMCClient) A) :
  keeps _client m -> preserves (serving_at a) (Heap.on_object a m).
Proof.
  intros Hk w r w' Hrun (Hs & Hf & c & Hc & Hopen).
  rewrite (AppFacts.on_object_eq a m w c Hc) in Hrun.
  inversion Hrun; subst. unfold serving_at, object_at. cbn [fst snd].
  split; [exact Hs|]. split; [exact Hf|].
  exists (fst (snd (m (c, snd w)))). split.
  - cbn. eapply AppFacts.store_at. exact Hc.
  - rewrite <- Hopen. destruct (m (c, snd w)) as [r1 w1] eqn:E.
    exact (Hk _ _ _ E).
Qed.

(** A computation after [get_client()], while serving. *)
Lemma with_client_serving {A} a (k : nat -> M (World App) A) :
  preserves (serving_at a) (k a) ->
  preserves (serving_at a) (client <- Resources.get_client ;; k client)%py.
Proof.
  intros Hk w r w' Hrun Hs. pose proof Hs as (_ & Hf & _).
  rewrite (AppFacts.with_client_set a _ w Hf) in Hrun. eapply Hk; eauto.
Qed.

(** Computations that leave the state alone. *)
Lemma quiet_preserves {St A} (I : St -> Prop) (m : M St A) :
  quiet m -> preserves I m.
Proof. intros Hq s r s' Hrun Hs. specialize (Hq s). rewrite Hrun in Hq. now subst. Qed.

Lemma quiet_ret {St A} (a : A) : quiet (@ret St A a).
Proof. intros s. reflexivity. Qed.

Lemma quiet_raise {St A} e : quiet (@raise St A e).
Proof. intros s. reflexivity. Qed.

Lemma quiet_bind {St A B} (m : M St A) (k : A -> M St B) :
  quiet m -> (forall a, quiet (k a)) -> quiet (bind m k).
Proof.
  intros Hm Hk s. unfold bind. specialize (Hm s).
  destruct (m s) as [[a| |] s1]; cbn in Hm; subst; [apply Hk | reflexivity..].
Qed.

Lemma quiet_try {St A} (m : M St A) handles h :
  quiet m -> (forall e, quiet (h e)) -> quiet (try_except m handles h).
Proof.
  intros Hm Hh s. unfold try_except. specialize (Hm s).
  destruct (m s) as [[a|e|] s1]; cbn in Hm; subst; try reflexivity.
  destruct (handles e); [apply Hh | reflexivity].
Qed.

Lemma quiet_get {St} d key default : quiet (@get_ St d key default).
Proof. destruct d; intros st; reflexivity. Qed.

Lemma quiet_for_each {St A B} (body : A -> M St B) l :
  (forall x, quiet (body x)) -> quiet (for_each body l).
Proof.
  intros Hb. induction l as [|x l IH]; cbn [for_each]; [apply quiet_ret|].
  apply quiet_bind; [apply Hb|]. intros y.
  apply quiet_bind; [apply IH|]. intros ys. apply quiet_ret.
Qed.

Lemma quiet_comprehension {St A} (keep : A -> M St bool) l :
  (forall x, quiet (keep x)) -> quiet (comprehension keep l).
Proof.
  intros Hb. induction l as [|x l IH]; cbn [comprehension]; [apply quiet_ret|].
  apply quiet_bind; [apply Hb|]. intros y.
  apply quiet_bind; [apply IH|]. intros ys. apply quiet_ret.
Qed.

Ltac quiet :=
  first
    [ solve [auto]
    | apply quiet_ret | apply quiet_raise | apply quiet_get
    | apply quiet_bind; [quiet | intros; quiet]
    | apply quiet_try; [quiet | intros; quiet]
    | apply quiet_for_each; intros; quiet
    | apply quiet_comprehension; intros; quiet
    | match goal with
      | |- quiet (if ?b then _ else _) => destruct b; quiet
      | |- quiet (match ?x with _ => _ end) => destruct x; quiet
      end ].

Lemma quiet_device_summary {St} d : quiet (@Resources.device_summary St d).
Proof. unfold Resources.device_summary. quiet. Qed.

Lemma quiet_object_summary {St} d : quiet (@Resources.object_summary St d).
Proof. unfold Resources.object_summary. quiet. Qed.

Lemma quiet_deployment_summary {St} d : quiet (@Resources.deployment_summary St d).
Proof. unfold Resources.deployment_summary. quiet. Qed.

Lemma quiet_status_entry {St} d : quiet (@Tools.status_entry St d).
Proof. unfold Tools.status_entry. quiet. Qed.

Lemma quiet_match_entry {St} kind obj value :
  quiet (@Tools.match_entry St kind obj value).
Proof. unfold Tools.match_entry. quiet. Qed.

Lemma quiet_named {St} lower n d : quiet (@Tools.named lower St n d).
Proof. unfold Tools.named. quiet. Qed.

Section Library.
Variable dumps : option Z -> json -> string.
Variable lower : string -> string.
Variables IPAddress IPNetwork : Type.
Variable ip_address : json -> option IPAddress.
Variable ip_network : json -> option IPNetwork.
Variable address_eqb : IPAddress -> IPAddress -> bool.
Variable address_in : IPAddress -> IPNetwork -> bool.

Lemma quiet_network_match {St} search_ip obj :
  quiet (@Tools.network_match _ _ ip_address ip_network address_eqb address_in
           St search_ip obj).
Proof.
  pose proof (@quiet_match_entry St).
  unfold Tools.network_match, Tools.slash_in, Tools.parsed. quiet.
Qed.

Lemma quiet_host_match {St} search_ip obj :
  quiet (@Tools.host_match _ ip_address address_eqb St search_ip obj).
Proof.
  pose proof (@quiet_match_entry St).
  unfold Tools.host_match, Tools.parsed. quiet.
Qed.

(** Every handler keeps the application serving. *)
Lemma handle_serving fuel a h :
  preserves (serving_at a)
    (Server.handle dumps lower ip_address ip_network address_eqb address_in fuel h).
Proof.
  pose proof (@quiet_device_summary (World App)).
  pose proof (@quiet_object_summary (World App)).
  pose proof (@quiet_deployment_summary (World App)).
  pose proof (@quiet_status_entry (World App)).
  pose proof (@quiet_named (World App) lower).
  pose proof (@quiet_network_match (World App)).
  pose proof (@quiet_host_match (World App)).
  destruct h; cbn [Server.handle];
    unfold Resources.get_system_info, Resources.list_devices,
      Resources.list_network_objects, Resources.get_deployment_status,
      Tools.check_deployment_status, Tools.search_object_by_ip;
    try (destruct (ip_address (JStr ip_address0));
         [|apply InvFacts.preserves_ret]);
    apply with_client_serving.
  - apply InvFacts.preserves_bind;
      [apply on_object_serving, get_server_version_keeps_client|].
    intros. apply InvFacts.preserves_ret.
  - apply InvFacts.preserves_bind;
      [apply on_object_serving, get_devices_keeps_client|].
    intros. apply quiet_preserves. quiet.
  - apply InvFacts.preserves_bind;
      [apply on_object_serving, get_network_objects_keeps_client|].
    intros. apply quiet_preserves. quiet.
  - apply InvFacts.preserves_bind;
      [apply on_object_serving, get_deployable_devices_keeps_client|].
    intros. apply quiet_preserves. quiet.
  - apply InvFacts.preserves_bind;
      [apply on_object_serving, get_network_objects_keeps_client|].
    intros. apply InvFacts.preserves_bind;
      [apply on_object_serving, get_host_objects_keeps_client|].
    intros. apply quiet_preserves. quiet.
  - apply InvFacts.preserves_bind;
      [apply on_object_serving, get_deployable_devices_keeps_client|].
    intros. apply quiet_preserves. quiet.
Qed.

End Library.

End ServeFacts.

(* ------------------------------------------------------------------ *)
(** ** The life cycle of the server *)

Module LifespanFacts.
Import FMC Spec AppSpec Py.

Lemma nth_error_last (l : list FMCClient) c :
  nth_error (l ++ [c]) (List.length l) = Some c.
Proof. induction l as [|x l IH]; [reflexivity | exact IH]. Qed.

Lemma store_last (l : list FMCClient) c c' :
  Heap.store (List.length l) c' (l ++ [c]) = (l ++ [c'])%list.
Proof. induction l as [|x l IH]; [reflexivity|]. cbn. now rewrite IH. Qed.

Lemma init_ok s now :
  0 <= fmc_max_connections s ->
  exists c0,
    FMC.init s now = Ok c0
    /\ settings c0 = s /\ _client c0 = false
    /\ _access_token c0 = None /\ _refresh_token c0 = None.
Proof.
  intros H. unfold FMC.init.
  assert (Hlt : (fmc_max_connections s <? 0) = false) by (apply Z.ltb_ge; lia).
  rewrite Hlt. eexists. split; [reflexivity|]. repeat split.
Qed.

Lemma authenticated_client r c : _client (authenticated r c) = _client c.
Proof.
  unfold authenticated. destruct (PyStr.truthy (_domain_uuid c)); [reflexivity|].
  destruct (PyStr.truthy (Headers.get (resp_headers r) "DOMAIN_UUID")); reflexivity.
Qed.

(** [startup] up to the answer to the token request. *)
Lemma startup_eq s w c0 :
  FMC.init s (clock (snd w)) = Ok c0 ->
  settings c0 = s -> _client c0 = false ->
  Server.startup s w =
  let a := List.length (objects (fst w)) in
  let call := generatetoken s in
  let opened c v :=
    (mkApp (objects (fst w) ++ [c]) (Some a) (_fmc_client (fst w)), v) in
  match script (snd w) with
  | Respond r :: rest =>
      if status_code r =? 204
      then (Ok tt,
            (mkApp (objects (fst w) ++ [authenticated r (set_client true c0)])
                   (Some a) (Some a),
             exchanged call rest (snd w)))
      else (Raise (auth_failed r),
            opened (set_client true c0) (exchanged call rest (snd w)))
  | Broken :: rest =>
      (Raise TransportError, opened (set_client true c0) (exchanged call rest (snd w)))
  | [] =>
      (Raise TransportError, opened (set_client true c0) (exchanged call [] (snd w)))
  end.
Proof.
  intros Hinit Hset Hclosed. destruct w as [[objs sc fc] v]. cbn [fst snd] in *.
  unfold Server.startup, Server.new_client, monotonic.
  unfold bind at 1 2. unfold gets at 1. cbn [fst snd]. rewrite Hinit.
  unfold Heap.new. cbn [fst snd objects Heap.set_objects server_client _fmc_client].
  unfold bind at 1. unfold Server.set_server_client at 1, modify at 1, on_self at 1.
  cbn [fst snd objects server_client _fmc_client].
  unfold bind at 1. unfold Heap.on_object.
  unfold Heap.set_objects. cbn [fst snd objects server_client _fmc_client].
  rewrite nth_error_last.
  rewrite (LifeFacts.connect_disconnected c0 v Hclosed).
  rewrite (AuthFacts.authenticate_eq (set_client true c0) v eq_refl).
  change (settings (set_client true c0)) with (settings c0). rewrite Hset.
  destruct (script v) as [|[r|] rest]; cbn [fst snd];
    unfold Heap.set_objects; cbn [objects server_client _fmc_client];
    rewrite ?store_last; try reflexivity.
  destruct (status_code r =? 204); cbn [fst snd]; rewrite store_last; reflexivity.
Qed.

(** [shutdown] while serving. *)
Lemma shutdown_serving a w :
  serving_at a w ->
  exists w', Server.shutdown w = (Ok tt, w') /\ shut_at a w' /\ snd w' = snd w.
Proof.
  intros (Hs & Hf & c & Hc & Hopen). unfold Server.shutdown.
  unfold bind at 1. unfold gets at 1. rewrite Hs.
  unfold bind at 1. rewrite (AppFacts.on_object_eq a close w c Hc).
  rewrite LifeFacts.close_eq, Hopen. cbn [fst snd].
  eexists. split; [reflexivity|]. split; [|reflexivity].
  unfold shut_at, object_at. cbn. split; [reflexivity|]. split; [exact Hf|].
  exists (SessionSpec.closed c). split; [eapply AppFacts.store_at; exact Hc|].
  repeat split.
Qed.

(** A read that raises, with the value it would return left out. *)
Lemma raised_read {A} (m : M (World FMCClient) A) w e w' :
  (m ;; ret tt)%py w = (Raise e, w') -> m w = (Raise e, w').
Proof.
  unfold bind. destruct (m w) as [[x|e'|] w1]; intros H; inversion H; reflexivity.
Qed.

(** A read on the closed object the resources name. *)
Lemma on_object_closed {A} fuel (k : Call) (m : M (World FMCClient) A) a w :
  call (S fuel) k = (m ;; ret tt)%py ->
  SessionSpec.is_read k = true ->
  shut_at a w ->
  Heap.on_object a m w = (Raise not_initialized, w).
Proof.
  intros Hk Hread (_ & _ & c & Hc & Hclosed & _).
  rewrite (AppFacts.on_object_eq a m w c Hc).
  pose proof (LifeFacts.call_closed fuel k c (snd w) Hclosed Hread) as Hcall.
  rewrite Hk in Hcall. apply raised_read in Hcall. rewrite Hcall. cbn [fst snd].
  unfold object_at in Hc. rewrite (AppFacts.store_same _ a c Hc).
  destruct w as [[objs sc fc] v]. reflexivity.
Qed.

End LifespanFacts.

(** X23. When the token request of the startup is refused, [lifespan]
    raises the authentication error before it reaches its [try]: what
    would be served never runs and the [finally] block never does, so
    that the client object just created stays open (its [close] is
    never called), [server._client] names it and
    [resources._fmc_client] is left as it was. *)
Theorem refused_startup_leaves_the_client_open
        {A : Type} (s : FMCSettings) (serving : M (World App) A) (w : World App)
        (r : Response) (rest : list Reply) :
  0 <= fmc_max_connections s ->
  script (snd w) = Respond r :: rest ->
  status_code r <> 204 ->
  let a := List.length (objects (fst w)) in
  exists w',
    Server.lifespan s serving w = (Raise (Spec.auth_failed r), w')
    /\ server_client (fst w') = Some a
    /\ _fmc_client (fst w') = _fmc_client (fst w)
    /\ (exists c, AppSpec.object_at a w' = Some c
                  /\ _client c = true /\ _access_token c = None)
    /\ script (snd w') = rest
    /\ Spec.exchanges (snd w')
       = (Spec.exchanges (snd w) ++ [Spec.generatetoken s])%list.
Proof.
  intros Hmax Hs H204 a.
  destruct (LifespanFacts.init_ok s (clock (snd w)) Hmax)
    as (c0 & Hinit & Hset & Hclosed & Htok & _).
  unfold Server.lifespan. unfold bind at 1.
  rewrite (LifespanFacts.startup_eq s w c0 Hinit Hset Hclosed). cbv zeta.
  rewrite Hs. apply Z.eqb_neq in H204. rewrite H204.
  eexists. split; [reflexivity|]. cbn [fst snd server_client _fmc_client].
  split; [reflexivity|]. split; [reflexivity|]. split.
  - exists (FMC.set_client true c0). unfold AppSpec.object_at. cbn [fst objects].
    split; [apply LifespanFacts.nth_error_last|]. split; [reflexivity | exact Htok].
  - split; [reflexivity|]. apply ListingFacts.exchanges_exchanged.
Qed.

Lemma refused_startup_leaves_the_client_open_witness :
  let w := AppSpec.cold [Respond (Fixture.status_only 403);
                         Respond (Fixture.json_ok Fixture.two_devices)] in
  exists w',
    Server.lifespan Fixture.test_settings
      (AppSpec.handle_plainly 3 Server.devices_list_resource) w
    = (Raise (RuntimeError "FMC authentication failed: 403"), w')
    /\ server_client (fst w') = Some 0%nat
    /\ _fmc_client (fst w') = None
    /\ (exists c, AppSpec.object_at 0 w' = Some c
                  /\ _client c = true /\ _access_token c = None)
    /\ script (snd w') = [Respond (Fixture.json_ok Fixture.two_devices)]
    /\ Spec.exchanges (snd w') = [Spec.generatetoken Fixture.test_settings].
Proof.
  intros w.
  apply (refused_startup_leaves_the_client_open
           Fixture.test_settings
           (AppSpec.handle_plainly 3 Server.devices_list_resource) w
           (Fixture.status_only 403)
           [Respond (Fixture.json_ok Fixture.two_devices)]).
  - cbn. lia.
  - reflexivity.
  - cbn. lia.
Defined.

(** X24. A run of the server closes the client it opened: when the
    token request of the startup is granted and what is served keeps
    the application serving (as every handler does), then, however the
    serving ends short of never ending, the [finally] block has closed
    the client and dropped its tokens and [server._client] is unset;
    [resources._fmc_client] still names the closed object. *)
Theorem lifespan_closes_the_client_it_opened
        {A : Type} (s : FMCSettings) (serving : M (World App) A) (w w' : World App)
        (r : Response) (rest : list Reply) (res : Result A) :
  0 <= fmc_max_connections s ->
  script (snd w) = Respond r :: rest ->
  status_code r = 204 ->
  let a := List.length (objects (fst w)) in
  Spec.preserves (AppSpec.serving_at a) serving ->
  Server.lifespan s serving w = (res, w') ->
  res <> Diverge ->
  AppSpec.shut_at a w'
  /\ exists w1 w2,
      AppSpec.serving_at a w1 /\ serving w1 = (res, w2) /\ snd w' = snd w2.
Proof.
  intros Hmax Hs H204 a Hserving Hrun Hres.
  destruct (LifespanFacts.init_ok s (clock (snd w)) Hmax)
    as (c0 & Hinit & Hset & Hclosed & _).
  unfold Server.lifespan in Hrun. unfold bind at 1 in Hrun.
  rewrite (LifespanFacts.startup_eq s w c0 Hinit Hset Hclosed) in Hrun.
  cbv zeta in Hrun. rewrite Hs, H204 in Hrun. cbn [Z.eqb Pos.eqb] in Hrun.
  fold a in Hrun.
  set (w1 := (mkApp (objects (fst w) ++ [Spec.authenticated r (FMC.set_client true c0)])
                    (Some a) (Some a),
              Spec.exchanged (Spec.generatetoken s) rest (snd w))) in Hrun.
  assert (H1 : AppSpec.serving_at a w1).
  { unfold AppSpec.serving_at, AppSpec.object_at, w1. cbn [fst objects server_client
      _fmc_client].
    split; [reflexivity|]. split; [reflexivity|].
    eexists. split; [apply LifespanFacts.nth_error_last|].
    now rewrite LifespanFacts.authenticated_client. }
  unfold Server.try_finally in Hrun.
  destruct (serving w1) as [res1 w2] eqn:Eserve.
  pose proof (Hserving w1 res1 w2 Eserve H1) as H2.
  destruct (LifespanFacts.shutdown_serving a w2 H2) as (w3 & Hshut & Hdown & Henv).
  destruct res1 as [x|e|]; rewrite ?Hshut in Hrun; inversion Hrun; subst;
    try (split; [exact Hdown | exists w1, w2; auto]).
  now elim Hres.
Qed.

Lemma lifespan_closes_the_client_it_opened_witness :
  AppSpec.shut_at 0 (snd AppSpec.one_run)
  /\ exists w1 w2,
      AppSpec.serving_at 0 w1
      /\ AppSpec.handle_plainly 3 Server.devices_list_resource w1
         = (fst AppSpec.one_run, w2)
      /\ snd (snd AppSpec.one_run) = snd w2.
Proof.
  apply (lifespan_closes_the_client_it_opened
           Fixture.test_settings
           (AppSpec.handle_plainly 3 Server.devices_list_resource)
           (AppSpec.cold [Respond (Fixture.token_response "A1" "R1");
                          Respond (Fixture.json_ok Fixture.two_devices)])
           (snd AppSpec.one_run)
           (Fixture.token_response "A1" "R1")
           [Respond (Fixture.json_ok Fixture.two_devices)]
           (fst AppSpec.one_run)).
  - cbn. lia.
  - reflexivity.
  - reflexivity.
  - apply ServeFacts.handle_serving.
  - unfold AppSpec.one_run. now destruct (Server.lifespan _ _ _).
  - vm_compute. intros H; discriminate H.
Defined.

(** X25. No handler closes, replaces or forgets the client: while both
    globals name a connected client object, every registered resource
    and tool leaves them naming that object, still connected, whatever
    the server answers and however the handler ends. *)
Theorem handlers_keep_the_client_connected
        (dumps : option Z -> json -> string) (lower : string -> string)
        (IPAddress IPNetwork : Type)
        (ip_address : json -> option IPAddress)
        (ip_network : json -> option IPNetwork)
        (address_eqb : IPAddress -> IPAddress -> bool)
        (address_in : IPAddress -> IPNetwork -> bool)
        (fuel : nat) (a : nat) (h : Server.Handler) (w w' : World App)
        (res : Result string) :
  AppSpec.serving_at a w ->
  Server.handle dumps lower ip_address ip_network address_eqb address_in fuel h w
  = (res, w') ->
  AppSpec.serving_at a w'.
Proof.
  intros Hs Hrun.
  exact (ServeFacts.handle_serving dumps lower IPAddress IPNetwork ip_address
           ip_network address_eqb address_in fuel a h w res w' Hrun Hs).
Qed.

Lemma handlers_keep_the_client_connected_witness :
  let w := AppSpec.around Fixture.forbidden_session in
  AppSpec.serving_at 0
    (snd (AppSpec.handle_plainly 3 Server.devices_list_resource w))
  /\ fst (AppSpec.handle_plainly 3 Server.devices_list_resource w)
     = Raise (HTTPStatusError (Fixture.status_only 403)).
Proof.
  intros w. split; [|vm_compute; reflexivity].
  apply (handlers_keep_the_client_connected
           AppSpec.on_one_line PyStr.lower string unit AppSpec.named_address
           AppSpec.no_network String.eqb (fun _ _ => false) 3 0
           Server.devices_list_resource w
           (snd (AppSpec.handle_plainly 3 Server.devices_list_resource w))
           (fst (AppSpec.handle_plainly 3 Server.devices_list_resource w))).
  - split; [reflexivity|]. split; [reflexivity|].
    eexists. split; [reflexivity|]. reflexivity.
  - unfold AppSpec.handle_plainly. now destruct (Server.handle _ _ _ _ _ _ _ _ _).
Defined.

(** X26. After a shutdown the resources still name the closed client:
    every registered resource and tool then raises the client's
    [RuntimeError("Client not initialized. Call connect() first.")],
    not the resources' own error for an unset client, and sends
    nothing; a search for a string that is not an address still
    returns its error payload. *)
Theorem handlers_after_shutdown_find_no_connection
        (dumps : option Z -> json -> string) (lower : string -> string)
        (IPAddress IPNetwork : Type)
        (ip_address : json -> option IPAddress)
        (ip_network : json -> option IPNetwork)
        (address_eqb : IPAddress -> IPAddress -> bool)
        (address_in : IPAddress -> IPNetwork -> bool)
        (fuel : nat) (a : nat) (h : Server.Handler) (w : World App) :
  AppSpec.shut_at a w ->
  Server.handle dumps lower ip_address ip_network address_eqb address_in (S fuel) h w
  = (match h with
     | Server.search_object_by_ip ip =>
         match ip_address (JStr ip) with
         | None =>
             Ok (dumps None (JObj [("error", JStr ("Invalid IP address: " ++ ip))]))
         | Some _ => Raise FMC.not_initialized
         end
     | _ => Raise FMC.not_initialized
     end, w).
Proof.
  intros Hshut. pose proof Hshut as (_ & Hf & _).
  assert (Hv := LifespanFacts.on_object_closed fuel Spec.GetServerVersion
                  (FMC.get_server_version (S fuel)) a w eq_refl eq_refl Hshut).
  assert (Hd := LifespanFacts.on_object_closed fuel Spec.GetDevices
                  (FMC.get_devices (S fuel)) a w eq_refl eq_refl Hshut).
  assert (Hn := LifespanFacts.on_object_closed fuel Spec.GetNetworkObjects
                  (FMC.get_network_objects (S fuel)) a w eq_refl eq_refl Hshut).
  assert (Hp := LifespanFacts.on_object_closed fuel Spec.GetDeployableDevices
                  (FMC.get_deployable_devices (S fuel)) a w eq_refl eq_refl Hshut).
  destruct h; cbn [Server.handle];
    unfold Resources.get_system_info, Resources.list_devices,
      Resources.list_network_objects, Resources.get_deployment_status,
      Tools.check_deployment_status, Tools.search_object_by_ip;
    try (destruct (ip_address (JStr ip_address0)); [|reflexivity]);
    rewrite (AppFacts.with_client_set a _ w Hf); unfold bind at 1;
    rewrite ?Hv, ?Hd, ?Hn, ?Hp; reflexivity.
Qed.

Lemma handlers_after_shutdown_find_no_connection_witness :
  let w := snd AppSpec.one_run in
  AppSpec.handle_plainly 1 Server.system_info_resource w
  = (Raise FMC.not_initialized, w).
Proof.
  intros w.
  apply (handlers_after_shutdown_find_no_connection
           AppSpec.on_one_line PyStr.lower string unit AppSpec.named_address
           AppSpec.no_network String.eqb (fun _ _ => false) 0 0
           Server.system_info_resource w).
  split; [reflexivity|]. split; [reflexivity|].
  eexists. split; [reflexivity|]. repeat split.
Defined.

(* ------------------------------------------------------------------ *)
(** ** The search tool *)

Module SearchFacts.
Import FMC Spec AppSpec Py.

(** A loop whose body fails on some items only, and leaves the state
    alone. *)
Lemma for_each_total {St A B} (body : A -> M St B) (p : A -> bool) e :
  (forall x s, p x = true -> exists y, body x s = (Ok y, s)) ->
  (forall x s, p x = false -> body x s = (Raise e, s)) ->
  forall l s,
    if forallb p l
    then exists ys, for_each body l s = (Ok ys, s) /\ List.length ys = List.length l
    else for_each body l s = (Raise e, s).
Proof.
  intros Hok Hbad. induction l as [|x l IH]; intros s; cbn [forallb for_each].
  - exists []. split; reflexivity.
  - unfold bind. destruct (p x) eqn:Ex; cbn [andb].
    + destruct (Hok x s Ex) as [y Hy]. rewrite Hy.
      specialize (IH s). destruct (forallb p l).
      * destruct IH as (ys & Hys & Hlen). rewrite Hys.
        exists (y :: ys). split; [reflexivity | cbn; now rewrite Hlen].
      * now rewrite IH.
    + now rewrite (Hbad x s Ex).
Qed.

Lemma match_entry_dict {St} kind kv value (s : St) :
  exists m, Tools.match_entry kind (JObj kv) value s = (Ok m, s).
Proof. eexists. reflexivity. Qed.

Section Library.
Variables IPAddress IPNetwork : Type.
Variable ip_address : json -> option IPAddress.
Variable ip_network : json -> option IPNetwork.
Variable address_eqb : IPAddress -> IPAddress -> bool.
Variable address_in : IPAddress -> IPNetwork -> bool.

(** On a dict the bodies of both loops end normally, whatever the dict
    holds at [value]. *)
Lemma network_match_dict {St} search_ip d (s : St) :
  is_dict d = true ->
  exists o,
    Tools.network_match ip_address ip_network address_eqb address_in search_ip d s
    = (Ok o, s).
Proof.
  destruct d as [| | | | |kv]; try discriminate. intros _.
  unfold Tools.network_match, Tools.match_entry, get_, Tools.slash_in, Tools.parsed,
    try_except, bind, ret, raise.
  destruct (Json.dict_get kv "value" (JStr "")) as [|b|n|x|l|kv'];
    cbn [Tools.value_or_type_error]; eauto;
    match goal with
    | |- context [if ?b then _ else _] => destruct b
    end;
    match goal with
    | |- context [ip_network ?v] =>
        destruct (ip_network v) as [net|]; cbn [Tools.value_or_type_error]; eauto;
        destruct (address_in search_ip net); eauto
    | |- context [ip_address ?v] =>
        destruct (ip_address v) as [ad|]; cbn [Tools.value_or_type_error]; eauto;
        destruct (address_eqb ad search_ip); eauto
    end.
Qed.

Lemma host_match_dict {St} search_ip d (s : St) :
  is_dict d = true ->
  exists o, Tools.host_match ip_address address_eqb search_ip d s = (Ok o, s).
Proof.
  destruct d as [| | | | |kv]; try discriminate. intros _.
  unfold Tools.host_match, Tools.match_entry, get_, Tools.parsed,
    try_except, bind, ret, raise.
  destruct (ip_address (Json.dict_get kv "value" (JStr ""))) as [ad|];
    cbn [Tools.value_or_type_error]; eauto.
  destruct (address_eqb ad search_ip); eauto.
Qed.

Lemma network_match_other {St} search_ip d (s : St) :
  is_dict d = false ->
  Tools.network_match ip_address ip_network address_eqb address_in search_ip d s
  = (Raise AttributeError, s).
Proof. destruct d; try discriminate; reflexivity. Qed.

Lemma host_match_other {St} search_ip d (s : St) :
  is_dict d = false ->
  Tools.host_match ip_address address_eqb search_ip d s = (Raise AttributeError, s).
Proof. destruct d; try discriminate; reflexivity. Qed.

Lemma appended_length (l : list (option json)) :
  (List.length (Tools.appended l) <= List.length l)%nat.
Proof. induction l as [|[m|] l IH]; cbn; lia. Qed.

End Library.

End SearchFacts.

(** X27. The search tolerates whatever an object holds at [value], and
    nothing else: when every item of both listings is an object, the
    search returns its payload, with at most one match per item and a
    count that is the number of matches, be the values missing, of
    another type or unreadable as an address; when some item is not an
    object the search raises [AttributeError] after both listings were
    fetched. *)
Theorem search_tolerates_unreadable_values
        (dumps : option Z -> json -> string)
        (IPAddress IPNetwork : Type)
        (ip_address : json -> option IPAddress)
        (ip_network : json -> option IPNetwork)
        (address_eqb : IPAddress -> IPAddress -> bool)
        (address_in : IPAddress -> IPNetwork -> bool)
        (fuel : nat) (ip : string) (search_ip : IPAddress) (a : nat)
        (w w1 w2 : World App) (networks hosts : list json) :
  ip_address (JStr ip) = Some search_ip ->
  _fmc_client (fst w) = Some a ->
  Heap.on_object a (FMC.get_network_objects fuel) w = (Ok networks, w1) ->
  Heap.on_object a (FMC.get_host_objects fuel) w1 = (Ok hosts, w2) ->
  let search :=
    Tools.search_object_by_ip dumps ip_address ip_network address_eqb address_in
      fuel ip w in
  if forallb AppSpec.is_dict (networks ++ hosts)
  then exists matches,
      search
      = (Ok (dumps (Some 2)
               (JObj [("searchedIP", JStr ip); ("matches", JArr matches);
                      ("count", JNum (Py.len matches))])), w2)
      /\ (List.length matches <= List.length networks + List.length hosts)%nat
  else search = (Raise AttributeError, w2).
Proof.
  intros Hip Ha Hn Hh search. unfold search, Tools.search_object_by_ip.
  rewrite Hip, (AppFacts.with_client_set a _ w Ha).
  unfold bind. rewrite Hn. cbv beta iota. rewrite Hh. cbv beta iota.
  rewrite forallb_app.
  pose proof (SearchFacts.for_each_total
                (Tools.network_match ip_address ip_network address_eqb address_in
                   search_ip)
                AppSpec.is_dict AttributeError
                (fun x s => SearchFacts.network_match_dict IPAddress IPNetwork
                              ip_address ip_network address_eqb address_in
                              search_ip x s)
                (fun x s => SearchFacts.network_match_other IPAddress IPNetwork
                              ip_address ip_network address_eqb address_in
                              search_ip x s)
                networks w2) as Hnet.
  pose proof (SearchFacts.for_each_total
                (Tools.host_match ip_address address_eqb search_ip)
                AppSpec.is_dict AttributeError
                (fun x s => SearchFacts.host_match_dict IPAddress ip_address
                              address_eqb search_ip x s)
                (fun x s => SearchFacts.host_match_other IPAddress ip_address
                              address_eqb search_ip x s)
                hosts w2) as Hhost.
  destruct (forallb AppSpec.is_dict networks); cbn [andb].
  - destruct Hnet as (found & Hfound & Hlen). rewrite Hfound.
    destruct (forallb AppSpec.is_dict hosts).
    + destruct Hhost as (found' & Hfound' & Hlen'). rewrite Hfound'.
      eexists. split; [reflexivity|].
      rewrite length_app.
      pose proof (SearchFacts.appended_length found).
      pose proof (SearchFacts.appended_length found'). lia.
    + now rewrite Hhost.
  - now rewrite Hnet.
Qed.

Lemma search_tolerates_unreadable_values_witness :
  let networks := [JObj [("name", JStr "Internal"); ("value", JStr "10.0.0.0/8")];
                   JObj [("name", JStr "Numbered"); ("value", JNum 5)];
                   JObj [("name", JStr "Unvalued")]] in
  let hosts := [JObj [("name", JStr "Web"); ("value", JStr "10.0.0.5")]] in
  let w := AppSpec.searching networks hosts in
  exists matches,
    fst (AppSpec.handle_plainly 3 (Server.search_object_by_ip "10.0.0.5") w)
    = Ok (AppSpec.render
            (JObj [("searchedIP", JStr "10.0.0.5"); ("matches", JArr matches);
                   ("count", JNum (Py.len matches))]))
    /\ (List.length matches <= 4)%nat.
Proof.
  intros networks hosts w.
  set (w1 := snd (Heap.on_object 0 (FMC.get_network_objects 3) w)).
  set (w2 := snd (Heap.on_object 0 (FMC.get_host_objects 3) w1)).
  destruct (search_tolerates_unreadable_values
              AppSpec.on_one_line string unit AppSpec.named_address
              AppSpec.no_network String.eqb (fun _ _ => false)
              3 "10.0.0.5" "10.0.0.5" 0 w w1 w2 networks hosts)
    as (matches & Hrun & Hlen).
  - reflexivity.
  - reflexivity.
  - vm_compute. reflexivity.
  - vm_compute. reflexivity.
  - exists matches. split; [|exact Hlen].
    unfold AppSpec.handle_plainly. cbn [Server.handle]. now rewrite Hrun.
Defined.
